(** * Smart-grid serious game: the simulation core

    A shallow embedding of [src/game/grid_model.py],
    [src/game/stochastic_engine.py] and [src/game/smart_grid_env.py],
    and of the sliders and the game loop of [src/game/human_ui.py] and
    [src/play.py].

    Numbers.  Python floats are modelled as exact rationals ([Q]): every
    arithmetic operation of the source is the corresponding operation of
    [Q], without rounding, infinities or NaN.  Equalities between computed
    quantities are therefore stated with [==] ([Qeq]).  The properties
    stated on this model are chosen not to depend on the rounding: they
    relate values through the expressions the code evaluates, or are
    order facts that rounding to the nearest float keeps.  What the
    rationals cannot show is modelled apart: the sign bit of a zero
    scale, which numpy's generator tests ([signbit], [std_signbits]),
    and the rounding inside [PowerPlant.step_power], for which module
    [B64] embeds that method on binary64 floats; the ramp limit and the
    clamping of the target are settled there.  Python integers (the
    turn counter, hours, horizons, seeds) are [Z].  An action is a
    sequence of numbers, read with [action[i]].

    Objects.  Python objects are records; a method that mutates [self]
    returns the updated record.  The environment's methods run in a small
    state-and-exception monad over the environment record, so that the
    attributes already mutated when an exception is raised are kept.  An
    attribute that [reset] creates is absent from an object that was only
    constructed, and reading it raises [AttributeError].

    The random source.  [numpy.random.Generator] is external: it is a
    section variable (a state type, the seeding function on an integer
    seed and one standard normal draw).  The three profiles of an engine
    hold a reference to the same generator object, so the model keeps a
    single generator in the engine and threads it through the profiles'
    calls.  A seed of [None] (entropy from the system) is outside the
    model.  The numpy functions the source calls ([linspace], [clip],
    indexing by a list, [Generator.normal]) follow numpy's
    documentation.

    The control room.  Of [src/game/human_ui.py] and [src/play.py] the
    model keeps what decides the actions: the sliders, the validation
    flag, the events pending at each call of [pygame.event.get] and the
    loop of [play_human].  The window, the drawing, the figure and the
    log file are left out; leaving through [exit()] is an outcome of its
    own. *)

From Stdlib Require Import String QArith Qabs Qminmax ZArith List Bool Lia Lqa.
From Stdlib Require Import Floats.
Import ListNotations.
Open Scope Q_scope.

(** ** Comparisons of the source, as boolean tests *)

Definition Qltb (x y : Q) : bool := negb (Qle_bool y x).
Definition Qgtb (x y : Q) : bool := Qltb y x.

Infix "<?" := Qltb (at level 70, no associativity) : Q_scope.
Infix ">?" := Qgtb (at level 70, no associativity) : Q_scope.

(** Python's built-in [min(a, b)]: [b] when [b < a], otherwise [a]. *)
Definition py_min (a b : Q) : Q := if b <? a then b else a.

(** ** grid_model.py *)

Record PowerPlant := mkPowerPlant {
  name : string;
  plant_type : string;
  p_max : Q;
  p_min : Q;
  cost_per_mw : Q;
  co2_per_mw : Q;
  ramp_rate : Q;
  current_power : Q;
  is_on : bool
}.

(** [PowerPlant.__init__]: the plant starts off, at output 0. *)
Definition new_PowerPlant (nm ty : string) (pmax pmin cost co2 ramp : Q)
  : PowerPlant :=
  mkPowerPlant nm ty pmax pmin cost co2 ramp 0 false.

Definition set_power (p : PowerPlant) (pw : Q) (on : bool) : PowerPlant :=
  mkPowerPlant (name p) (plant_type p) (p_max p) (p_min p) (cost_per_mw p)
               (co2_per_mw p) (ramp_rate p) pw on.

(** Constraint 1 of [step_power]: the target after the two absolute
    limits (lines 24-26). *)
Definition clamped_target (p : PowerPlant) (target_power : Q) : Q :=
  let target_power :=
    if (target_power >? 0) && (target_power <? p_min p) then 0
    else target_power in
  py_min target_power (p_max p).

(** Constraint 2 of [step_power]: the variation after the ramp limit
    (lines 29-32). *)
Definition ramp_delta (p : PowerPlant) (target_power : Q) : Q :=
  let delta := target_power - current_power p in
  if Qabs delta >? ramp_rate p
  then (if delta >? 0 then ramp_rate p else - ramp_rate p)
  else delta.

(** [PowerPlant.step_power]: the updated plant and the pair
    (hourly_cost, hourly_co2).  The sum and the difference are exact
    here; [B64.step_power] has them rounded. *)
Definition step_power (p : PowerPlant) (target_power : Q)
  : PowerPlant * (Q * Q) :=
  let target_power := clamped_target p target_power in
  let delta := ramp_delta p target_power in
  let power := current_power p + delta in
  let p' := set_power p power (power >? 0) in
  let hourly_cost := current_power p' * cost_per_mw p' in
  let hourly_co2 := current_power p' * co2_per_mw p' in
  (p', (hourly_cost, hourly_co2)).

Record Consumer := mkConsumer {
  c_name : string;
  base_load : Q;
  current_load : Q
}.

Definition new_Consumer (nm : string) (bl : Q) : Consumer :=
  mkConsumer nm bl bl.

Definition update_load (c : Consumer) (new_load : Q) : Consumer :=
  mkConsumer (c_name c) (base_load c) new_load.

Record Grid := mkGrid {
  plants : list PowerPlant;
  consumers : list Consumer
}.

Definition new_Grid : Grid := mkGrid [] [].

Definition add_plant (g : Grid) (p : PowerPlant) : Grid :=
  mkGrid (plants g ++ [p]) (consumers g).

Definition add_consumer (g : Grid) (c : Consumer) : Grid :=
  mkGrid (plants g) (consumers g ++ [c]).

(** Python's built-in [sum]: a left fold starting from 0. *)
Definition py_sum (l : list Q) : Q := fold_left Qplus l 0.

Record Balance := mkBalance {
  total_production : Q;
  total_demand : Q;
  delta : Q;
  is_blackout : bool;
  unmet_demand : Q;
  wasted_energy : Q
}.

(** [Grid.step_balance].  The sums and the difference are exact here;
    Python rounds each of them. *)
Definition step_balance (g : Grid) : Balance :=
  let total_prod := py_sum (map current_power (plants g)) in
  let total_demand := py_sum (map current_load (consumers g)) in
  let delta := total_prod - total_demand in
  let is_blackout := delta <? 0 in
  let unmet_demand := if is_blackout then Qabs delta else 0 in
  let wasted_energy := if delta >? 0 then delta else 0 in
  mkBalance total_prod total_demand delta is_blackout unmet_demand
            wasted_energy.

(** The plant after [n] calls of [step_power] with the same target. *)
Fixpoint hold_target (p : PowerPlant) (target : Q) (n : nat) : PowerPlant :=
  match n with
  | O => p
  | S k => fst (step_power (hold_target p target k) target)
  end.

(** The plants of the scenario, as [SmartGridEnv.reset] creates them. *)
Definition gas_plant : PowerPlant :=
  new_PowerPlant "Gas Plant" "gas" 100 0 150 (8#10) 100.
Definition coal_plant : PowerPlant :=
  new_PowerPlant "Coal Plant" "coal" 150 0 50 (12#10) 50.
Definition nuclear_plant : PowerPlant :=
  new_PowerPlant "Nuclear Plant" "nuclear" 300 150 20 (1#100) 20.
Definition solar_capacity_0 : Q := 150.
Definition wind_capacity_0 : Q := 100.
Definition solar_farm : PowerPlant :=
  new_PowerPlant "Solar Farm" "solar" solar_capacity_0 0 0 0 999.
Definition wind_farm : PowerPlant :=
  new_PowerPlant "Wind Farm" "wind" wind_capacity_0 0 0 0 999.

(** ** grid_model.py on binary64 floats

    [PowerPlant.step_power] once more, on Python's floats as they are:
    IEEE 754 binary64 numbers, each operation rounded to the nearest
    float, with signed zeros, infinities and NaN.  Comparisons with a
    NaN are false, as in Python.  This is the model for what the
    rounding of [target_power - current_power] and of
    [current_power + delta] decides. *)

Module B64.

Local Open Scope float_scope.
Local Set Warnings "-inexact-float".

Record PowerPlant := mkPowerPlant {
  name : string;
  plant_type : string;
  p_max : float;
  p_min : float;
  cost_per_mw : float;
  co2_per_mw : float;
  ramp_rate : float;
  current_power : float;
  is_on : bool
}.

Definition new_PowerPlant (nm ty : string) (pmax pmin cost co2 ramp : float)
  : PowerPlant :=
  mkPowerPlant nm ty pmax pmin cost co2 ramp 0 false.

Definition set_power (p : PowerPlant) (pw : float) (on : bool) : PowerPlant :=
  mkPowerPlant (name p) (plant_type p) (p_max p) (p_min p) (cost_per_mw p)
               (co2_per_mw p) (ramp_rate p) pw on.

(** Python's built-in [min(a, b)]: [b] when [b < a], otherwise [a]. *)
Definition py_min (a b : float) : float := if b <? a then b else a.

(** Constraint 1 of [step_power] (lines 24-26). *)
Definition clamped_target (p : PowerPlant) (target_power : float) : float :=
  let target_power :=
    if (0 <? target_power) && (target_power <? p_min p) then 0
    else target_power in
  py_min target_power (p_max p).

(** Constraint 2 of [step_power] (lines 29-32). *)
Definition ramp_delta (p : PowerPlant) (target_power : float) : float :=
  let delta := target_power - current_power p in
  if ramp_rate p <? abs delta
  then (if 0 <? delta then ramp_rate p else - ramp_rate p)
  else delta.

(** [PowerPlant.step_power]. *)
Definition step_power (p : PowerPlant) (target_power : float)
  : PowerPlant * (float * float) :=
  let target_power := clamped_target p target_power in
  let delta := ramp_delta p target_power in
  let power := current_power p + delta in
  let p' := set_power p power (0 <? power) in
  let hourly_cost := current_power p' * cost_per_mw p' in
  let hourly_co2 := current_power p' * co2_per_mw p' in
  (p', (hourly_cost, hourly_co2)).

(** The plant after [n] calls of [step_power] with the same target. *)
Fixpoint hold_target (p : PowerPlant) (target : float) (n : nat)
  : PowerPlant :=
  match n with
  | O => p
  | S k => fst (step_power (hold_target p target k) target)
  end.

(** The coal and nuclear plants of [SmartGridEnv.reset]. *)
Definition coal_plant : PowerPlant :=
  new_PowerPlant "Coal Plant" "coal" 150 0 50 1.2 50.
Definition nuclear_plant : PowerPlant :=
  new_PowerPlant "Nuclear Plant" "nuclear" 300 150 20 0.01 20.

(** A float that is a number, not NaN: [x == x] in Python. *)
Definition number (x : float) : Prop := (x =? x) = true.

(** The exact value of a finite float, as a reduced fraction. *)
Definition to_Q (x : float) : option Q :=
  match Prim2SF x with
  | S754_zero _ => Some 0%Q
  | S754_finite s m e =>
      let v := Qred (inject_Z (Z.pos m) * Qpower 2 e) in
      Some (if s then Qopp v else v)
  | _ => None
  end.

End B64.

(** ** Exceptions and the state-and-exception monad *)

Inductive exn : Type :=
| AttributeError
| IndexError
| ValueError
| ZeroDivisionError
| GymError.

Inductive result (A : Type) : Type :=
| Ok (a : A)
| Raise (e : exn).
Arguments Ok {A} a.
Arguments Raise {A} e.

(** A computation over a mutable state [S]: the state is returned also
    when an exception is raised, as it stands at that point. *)
Definition M (S A : Type) : Type := S -> result A * S.

Definition ret {S A} (a : A) : M S A := fun s => (Ok a, s).

Definition raise {S A} (e : exn) : M S A := fun s => (Raise e, s).

Definition bind {S A B} (m : M S A) (k : A -> M S B) : M S B :=
  fun s =>
    match m s with
    | (Ok a, s') => k a s'
    | (Raise e, s') => (Raise e, s')
    end.

Definition lift {S A} (r : result A) : M S A := fun s => (r, s).

Notation "x <- m ;; k" := (bind m (fun x => k))
  (at level 61, m at next level, right associativity).
Notation "' p <- m ;; k" := (bind m (fun x => let p := x in k))
  (at level 61, p pattern, m at next level, right associativity).
Notation "m ;;; k" := (bind m (fun _ => k))
  (at level 61, right associativity).

(** ** Python and numpy sequences *)

(** [range(n)]. *)
Definition py_range (n : Z) : list Z := map Z.of_nat (seq 0 (Z.to_nat n)).

(** [l[i]] for a list or an array: negative indexes count from the end,
    anything outside [-len, len) raises [IndexError]. *)
Definition py_index {A} (l : list A) (i : Z) : result A :=
  let n := Z.of_nat (List.length l) in
  let j := if (i <? 0)%Z then (n + i)%Z else i in
  if ((0 <=? j) && (j <? n))%Z%bool then
    match nth_error l (Z.to_nat j) with
    | Some a => Ok a
    | None => Raise IndexError
    end
  else Raise IndexError.

(** The list with position [i] replaced (positions as in [py_index]);
    used for the in-place mutation of the object found at [l[i]]. *)
Fixpoint replace_nth {A} (l : list A) (n : nat) (a : A) : list A :=
  match l, n with
  | [], _ => []
  | _ :: t, O => a :: t
  | h :: t, S k => h :: replace_nth t k a
  end.

Definition py_store {A} (l : list A) (i : Z) (a : A) : list A :=
  let n := Z.of_nat (List.length l) in
  let j := if (i <? 0)%Z then (n + i)%Z else i in
  replace_nth l (Z.to_nat j) a.

(** [a[idx]] with a list of integer indexes (numpy fancy indexing). *)
Fixpoint np_take (a : list Q) (idx : list Z) : result (list Q) :=
  match idx with
  | [] => Ok []
  | i :: rest =>
      match py_index a i with
      | Raise e => Raise e
      | Ok v =>
          match np_take a rest with
          | Raise e => Raise e
          | Ok vs => Ok (v :: vs)
          end
      end
  end.

(** Element-wise binary operation on two arrays of the same length. *)
Fixpoint map2 {A B C} (f : A -> B -> C) (l : list A) (l' : list B) : list C :=
  match l, l' with
  | a :: t, b :: t' => f a b :: map2 f t t'
  | _, _ => []
  end.

(** [y[-1] = stop]. *)
Fixpoint set_last (y : list Q) (stop : Q) : list Q :=
  match y with
  | [] => []
  | [_] => [stop]
  | v :: t => v :: set_last t stop
  end.

(** [np.linspace(start, stop, num)] (endpoint included): [num] samples
    [start + i * step] with [step = (stop - start) / (num - 1)], the last
    one overwritten with [stop]; a single sample is [start]; a negative
    [num] raises [ValueError]. *)
Definition linspace (start stop : Q) (num : Z) : result (list Q) :=
  if (num <? 0)%Z then Raise ValueError
  else
    let div := (num - 1)%Z in
    let dlt := stop - start in
    let y := map inject_Z (py_range num) in
    let y :=
      if (0 <? div)%Z then map (fun v => v * (dlt / inject_Z div)) y
      else map (fun v => v * dlt) y in
    let y := map (fun v => v + start) y in
    Ok (if (1 <? num)%Z then set_last y stop else y).

(** [np.clip(values, 0.0, None)], element by element. *)
Definition clip_min0 (v : Q) : Q := if v <? 0 then 0 else v.

(** ** stochastic_engine.py *)

(** The profile's own data; its [rng] attribute is a reference to the
    generator of the engine. *)
Record StochasticProfile := mkProfile {
  base_profile : list Q;
  noise_volatility : Q
}.

(** [noise_std] of [get_actual_and_forecast] (lines 17-24): the trend and
    the scale array handed to the random source. *)
Definition trend_and_std (p : StochasticProfile) (current_hour horizon : Z)
  : result (list Q * list Q) :=
  let hours :=
    map (fun i => ((current_hour + i) mod 24)%Z) (py_range (horizon + 1)) in
  match np_take (base_profile p) hours with
  | Raise e => Raise e
  | Ok trend =>
      match linspace (1#2) 3 (horizon + 1) with
      | Raise e => Raise e
      | Ok uncertainty_growth =>
          let noise_std :=
            map2 Qmult (map (Qmult (noise_volatility p)) trend)
                 uncertainty_growth in
          Ok (trend, noise_std)
      end
  end.

(** The sign bit of a number.  The rationals have no negative zero: a
    number of the model that is 0 stands for +0.0. *)
Definition signbit (q : Q) : bool := q <? 0.

(** The sign bits of [noise_std] (line 24).  The sign bit of a float
    product is the exclusive or of the sign bits of its factors, also
    when the product is zero: [-0.15 * 0.0] is [-0.0].  The multipliers
    of [np.linspace(0.5, 3.0, n)] are positive, so the sign bit of
    [noise_volatility * trend * uncertainty_growth] is that of
    [noise_volatility * trend]. *)
Definition std_signbits (noise_volatility : Q) (trend : list Q)
  : list bool :=
  map (fun t => xorb (signbit noise_volatility) (signbit t)) trend.

Section RandomSource.

(** The state of a [numpy.random.Generator], [np.random.default_rng] on
    an integer seed, and one draw from the standard normal law. *)
Variable G : Type.
Variable default_rng : Z -> G.
Variable standard_normal : G -> Q * G.

(** The draws of [rng.normal(loc, scale)] for an array [scale]: one
    standard normal draw per element, in order, each placed at [loc]
    and scaled. *)
Fixpoint draw_normal (loc : Q) (scale : list Q) (g : G) : list Q * G :=
  match scale with
  | [] => ([], g)
  | s :: rest =>
      let (z, g1) := standard_normal g in
      let (r, g2) := draw_normal loc rest g1 in
      ((loc + s * z) :: r, g2)
  end.

(** [rng.normal(loc, scale)]: numpy tests the sign bit of every element
    of [scale], so that a negative scale and the scale [-0.0] raise
    [ValueError] before anything is drawn.  [signbits] holds the sign
    bits of the elements of [scale]. *)
Definition rng_normal (loc : Q) (scale : list Q) (signbits : list bool)
  : M G (list Q) :=
  fun g =>
    if existsb (fun s => s <? 0) scale || existsb (fun b => b) signbits
    then (Raise ValueError, g)
    else let (v, g') := draw_normal loc scale g in (Ok v, g').

(** The next [n] standard normal draws of a generator, and the
    generator after them. *)
Fixpoint normal_draws (n : nat) (g : G) : list Q * G :=
  match n with
  | O => ([], g)
  | S k =>
      let (z, g1) := standard_normal g in
      let (zs, g2) := normal_draws k g1 in
      (z :: zs, g2)
  end.

(** [StochasticProfile.get_actual_and_forecast]. *)
Definition get_actual_and_forecast (p : StochasticProfile)
    (current_hour horizon : Z) : M G (Q * list Q) :=
  ' (trend, noise_std) <- lift (trend_and_std p current_hour horizon) ;;
  noise <- rng_normal 0 noise_std
                      (std_signbits (noise_volatility p) trend) ;;
  let values := map clip_min0 (map2 Qplus trend noise) in
  match values with
  | [] => raise IndexError
  | actual_value :: forecast => ret (actual_value, forecast)
  end.

Record StochasticEngine := mkEngine {
  rng : G;
  demand : StochasticProfile;
  solar : StochasticProfile;
  wind : StochasticProfile
}.

Definition demand_profile : list Q :=
  [6#10; 55#100; 5#10; 5#10; 55#100; 65#100; 8#10; 9#10; 95#100; 9#10;
   85#100; 85#100; 85#100; 85#100; 85#100; 85#100; 9#10; 95#100; 1;
   95#100; 9#10; 8#10; 7#10; 65#100].

Definition solar_profile : list Q :=
  [0; 0; 0; 0; 0; 0; 1#10; 3#10; 6#10; 8#10; 9#10; 1;
   1; 9#10; 8#10; 6#10; 3#10; 1#10; 0; 0; 0; 0; 0; 0].

Definition wind_profile : list Q := repeat (5#10) 24.

(** [StochasticEngine.__init__] on an integer seed;
    [np.random.default_rng] refuses a negative one. *)
Definition new_StochasticEngine (seed : Z) : result StochasticEngine :=
  if (seed <? 0)%Z then Raise ValueError
  else Ok (mkEngine (default_rng seed)
                    (mkProfile demand_profile (5#100))
                    (mkProfile solar_profile (15#100))
                    (mkProfile wind_profile (25#100))).

(** A call on one profile of the engine: it draws from, and advances,
    the engine's generator. *)
Definition on_rng {A} (m : M G A) : M StochasticEngine A :=
  fun e =>
    let (r, g') := m (rng e) in
    (r, mkEngine g' (demand e) (solar e) (wind e)).

Record Weather := mkWeather {
  actual_demand : Q;
  actual_solar : Q;
  actual_wind : Q;
  forecast_demand : list Q;
  forecast_solar : list Q;
  forecast_wind : list Q
}.

(** [StochasticEngine.step_weather_and_demand]. *)
Definition step_weather_and_demand (current_hour horizon : Z)
  : M StochasticEngine Weather :=
  fun e =>
    (' (actual_demand, forecast_demand) <-
       on_rng (get_actual_and_forecast (demand e) current_hour horizon) ;;
     ' (actual_solar, forecast_solar) <-
       on_rng (get_actual_and_forecast (solar e) current_hour horizon) ;;
     ' (actual_wind, forecast_wind) <-
       on_rng (get_actual_and_forecast (wind e) current_hour horizon) ;;
     ret (mkWeather actual_demand actual_solar actual_wind
                    forecast_demand forecast_solar forecast_wind)) e.

(** ** smart_grid_env.py *)

(** The cast of the observation to [np.float32]. *)
Variable float32 : Q -> Q.

(** The attributes of a [SmartGridEnv] object.  Those assigned by
    [reset] do not exist ([None]) on an object that was only
    constructed. *)
Record SmartGridEnv := mkEnv {
  render_mode : option string;
  num_controllable_plants : Z;
  forecast_horizon : Z;
  max_steps : Z;
  current_step : option Z;
  engine : option StochasticEngine;
  grid : option Grid;
  solar_capacity : option Q;
  wind_capacity : option Q;
  city_base_load : option Q;
  current_weather : option Weather
}.

(** [SmartGridEnv.__init__]. *)
Definition new_SmartGridEnv (render_mode : option string) : SmartGridEnv :=
  mkEnv render_mode 3 12 24 None None None None None None None.

Definition Env := M SmartGridEnv.

(** Reading an attribute: [AttributeError] when it does not exist. *)
Definition attr {A} (f : SmartGridEnv -> option A) : Env A :=
  fun s =>
    match f s with
    | Some a => (Ok a, s)
    | None => (Raise AttributeError, s)
    end.

Definition get {A} (f : SmartGridEnv -> A) : Env A :=
  fun s => (Ok (f s), s).

Definition set_current_step (v : Z) : Env unit :=
  fun s =>
    (Ok tt, mkEnv (render_mode s) (num_controllable_plants s)
                  (forecast_horizon s) (max_steps s) (Some v) (engine s)
                  (grid s) (solar_capacity s) (wind_capacity s)
                  (city_base_load s) (current_weather s)).

Definition set_engine (v : StochasticEngine) : Env unit :=
  fun s =>
    (Ok tt, mkEnv (render_mode s) (num_controllable_plants s)
                  (forecast_horizon s) (max_steps s) (current_step s)
                  (Some v) (grid s) (solar_capacity s) (wind_capacity s)
                  (city_base_load s) (current_weather s)).

Definition set_grid (v : Grid) : Env unit :=
  fun s =>
    (Ok tt, mkEnv (render_mode s) (num_controllable_plants s)
                  (forecast_horizon s) (max_steps s) (current_step s)
                  (engine s) (Some v) (solar_capacity s) (wind_capacity s)
                  (city_base_load s) (current_weather s)).

Definition set_solar_capacity (v : Q) : Env unit :=
  fun s =>
    (Ok tt, mkEnv (render_mode s) (num_controllable_plants s)
                  (forecast_horizon s) (max_steps s) (current_step s)
                  (engine s) (grid s) (Some v) (wind_capacity s)
                  (city_base_load s) (current_weather s)).

Definition set_wind_capacity (v : Q) : Env unit :=
  fun s =>
    (Ok tt, mkEnv (render_mode s) (num_controllable_plants s)
                  (forecast_horizon s) (max_steps s) (current_step s)
                  (engine s) (grid s) (solar_capacity s) (Some v)
                  (city_base_load s) (current_weather s)).

Definition set_city_base_load (v : Q) : Env unit :=
  fun s =>
    (Ok tt, mkEnv (render_mode s) (num_controllable_plants s)
                  (forecast_horizon s) (max_steps s) (current_step s)
                  (engine s) (grid s) (solar_capacity s) (wind_capacity s)
                  (Some v) (current_weather s)).

Definition set_current_weather (v : Weather) : Env unit :=
  fun s =>
    (Ok tt, mkEnv (render_mode s) (num_controllable_plants s)
                  (forecast_horizon s) (max_steps s) (current_step s)
                  (engine s) (grid s) (solar_capacity s) (wind_capacity s)
                  (city_base_load s) (Some v)).

(** [self.grid.add_plant(p)] and [self.grid.add_consumer(c)]. *)
Definition grid_add_plant (p : PowerPlant) : Env unit :=
  g <- attr grid ;; set_grid (add_plant g p).

Definition grid_add_consumer (c : Consumer) : Env unit :=
  g <- attr grid ;; set_grid (add_consumer g c).

(** [self.grid.plants[i].step_power(target)], where the expression
    [target] may use the plant found at position [i]: that plant object
    is mutated in place. *)
Definition grid_step_plant (i : Z) (target : PowerPlant -> result Q)
  : Env (Q * Q) :=
  g <- attr grid ;;
  plant <- lift (py_index (plants g) i) ;;
  target_power <- lift (target plant) ;;
  let stepped := step_power plant target_power in
  set_grid (mkGrid (py_store (plants g) i (fst stepped)) (consumers g)) ;;;
  ret (snd stepped).

(** [self.grid.consumers[i].update_load(new_load)]. *)
Definition grid_update_load (i : Z) (new_load : Q) : Env unit :=
  g <- attr grid ;;
  c <- lift (py_index (consumers g) i) ;;
  set_grid (mkGrid (plants g)
                   (py_store (consumers g) i (update_load c new_load))).

(** [self.engine.step_weather_and_demand(hour, horizon)]: the engine's
    generator advances, also when the call raises. *)
Definition engine_step (current_hour horizon : Z) : Env Weather :=
  e <- attr engine ;;
  let drawn := step_weather_and_demand current_hour horizon e in
  set_engine (snd drawn) ;;;
  lift (fst drawn).

(** [SmartGridEnv._update_stochastic_elements]. *)
Definition _update_stochastic_elements : Env unit :=
  w <- attr current_weather ;;
  cbl <- attr city_base_load ;;
  let actual_demand := actual_demand w * cbl in
  grid_update_load 0 actual_demand ;;;
  w <- attr current_weather ;;
  cap <- attr solar_capacity ;;
  let actual_solar := actual_solar w * cap in
  w <- attr current_weather ;;
  cap <- attr wind_capacity ;;
  let actual_wind := actual_wind w * cap in
  grid_step_plant 3 (fun _ => Ok actual_solar) ;;;
  grid_step_plant 4 (fun _ => Ok actual_wind) ;;;
  ret tt.

(** Python's [/] on numbers. *)
Definition py_div (a b : Q) : result Q :=
  if Qeq_bool b 0 then Raise ZeroDivisionError else Ok (a / b).

Fixpoint utilizations (ps : list PowerPlant) : result (list Q) :=
  match ps with
  | [] => Ok []
  | p :: rest =>
      match py_div (current_power p) (p_max p) with
      | Raise e => Raise e
      | Ok u =>
          match utilizations rest with
          | Raise e => Raise e
          | Ok us => Ok (u :: us)
          end
      end
  end.

(** [SmartGridEnv._get_obs]. *)
Definition _get_obs : Env (list Q) :=
  g <- attr grid ;;
  obs <- lift (utilizations (plants g)) ;;
  w <- attr current_weather ;;
  let obs := obs ++ [actual_wind w; actual_solar w; actual_demand w] in
  let obs := obs ++ forecast_wind w in
  let obs := obs ++ forecast_solar w in
  let obs := obs ++ forecast_demand w in
  cs <- attr current_step ;;
  ms <- get max_steps ;;
  progress <- lift (py_div (inject_Z cs) (inject_Z ms)) ;;
  let obs := obs ++ [progress] in
  ret (map float32 obs).

Record PlantStatus := mkPlantStatus {
  ps_name : string;
  ps_type : string;
  ps_power : Q;
  ps_p_max : Q
}.

Record Info := mkInfo {
  demand_forecast : list Q;
  solar_forecast : list Q;
  wind_forecast : list Q;
  total_generation : Q;
  current_demand : Q;
  solar_power : Q;
  wind_power : Q;
  plants_status : list PlantStatus;
  info_is_blackout : option bool
}.

Definition scale_by (k : Q) (l : list Q) : list Q := map (fun v => v * k) l.

(** [SmartGridEnv._get_info]. *)
Definition _get_info : Env Info :=
  w <- attr current_weather ;;
  cbl <- attr city_base_load ;;
  let demand_forecast := scale_by cbl (forecast_demand w) in
  w <- attr current_weather ;;
  scap <- attr solar_capacity ;;
  let solar_forecast := scale_by scap (forecast_solar w) in
  w <- attr current_weather ;;
  wcap <- attr wind_capacity ;;
  let wind_forecast := scale_by wcap (forecast_wind w) in
  g <- attr grid ;;
  let total_generation := py_sum (map current_power (plants g)) in
  c0 <- lift (py_index (consumers g) 0) ;;
  p3 <- lift (py_index (plants g) 3) ;;
  p4 <- lift (py_index (plants g) 4) ;;
  let status :=
    map (fun p => mkPlantStatus (name p) (plant_type p) (current_power p)
                                (p_max p)) (plants g) in
  ret (mkInfo demand_forecast solar_forecast wind_forecast total_generation
              (current_load c0) (current_power p3) (current_power p4)
              status None).

(** [gym.Env.reset(seed=seed)] on an integer seed: a negative seed is
    refused.  (The generator it seeds is not used by this environment.) *)
Definition gym_reset (seed : Z) : Env unit :=
  if (seed <? 0)%Z then raise GymError else ret tt.

(** [SmartGridEnv.reset] on an integer seed. *)
Definition reset (seed : Z) : Env (list Q * Info) :=
  gym_reset seed ;;;
  set_current_step 0 ;;;
  e <- lift (new_StochasticEngine seed) ;;
  set_engine e ;;;
  set_grid new_Grid ;;;
  grid_add_plant (new_PowerPlant "Gas Plant" "gas" 100 0 150 (8#10) 100) ;;;
  grid_add_plant (new_PowerPlant "Coal Plant" "coal" 150 0 50 (12#10) 50) ;;;
  grid_add_plant
    (new_PowerPlant "Nuclear Plant" "nuclear" 300 150 20 (1#100) 20) ;;;
  set_solar_capacity 150 ;;;
  set_wind_capacity 100 ;;;
  scap <- attr solar_capacity ;;
  grid_add_plant (new_PowerPlant "Solar Farm" "solar" scap 0 0 0 999) ;;;
  wcap <- attr wind_capacity ;;
  grid_add_plant (new_PowerPlant "Wind Farm" "wind" wcap 0 0 0 999) ;;;
  set_city_base_load 400 ;;;
  cbl <- attr city_base_load ;;
  grid_add_consumer (new_Consumer "Main City" cbl) ;;;
  cs <- attr current_step ;;
  hz <- get forecast_horizon ;;
  w <- engine_step cs hz ;;
  set_current_weather w ;;;
  _update_stochastic_elements ;;;
  obs <- _get_obs ;;
  info <- _get_info ;;
  ret (obs, info).

(** The target of [step] for a controllable plant:
    [action[i] * plant.p_max].  The product is exact here; numpy rounds
    it, to float32 when the action is an [np.float32] array. *)
Definition action_target (action : list Q) (i : Z) (plant : PowerPlant)
  : result Q :=
  match py_index action i with
  | Raise e => Raise e
  | Ok a => Ok (a * p_max plant)
  end.

(** The loop of [step] over the controllable plants, with the running
    totals (total_financial_cost, total_co2_emissions). *)
Fixpoint apply_actions (action : list Q) (indexes : list Z) (totals : Q * Q)
  : Env (Q * Q) :=
  match indexes with
  | [] => ret totals
  | i :: rest =>
      costs <- grid_step_plant i (action_target action i) ;;
      apply_actions action rest
                    (fst totals + fst costs, snd totals + snd costs)
  end.

Definition reward_of (total_financial_cost total_co2_emissions : Q)
    (balance : Balance) : Q :=
  - ((1#10) * total_financial_cost + (1#10) * total_co2_emissions
     + (5#10) * wasted_energy balance + 100 * unmet_demand balance).

Record StepResult := mkStepResult {
  observation : list Q;
  reward : Q;
  terminated : bool;
  truncated : bool;
  info : Info
}.

Definition with_blackout (i : Info) (b : bool) : Info :=
  mkInfo (demand_forecast i) (solar_forecast i) (wind_forecast i)
         (total_generation i) (current_demand i) (solar_power i)
         (wind_power i) (plants_status i) (Some b).

(** [SmartGridEnv.step]. *)
Definition step (action : list Q) : Env StepResult :=
  cs <- attr current_step ;;
  set_current_step (cs + 1) ;;;
  n <- get num_controllable_plants ;;
  ' (total_financial_cost, total_co2_emissions) <-
    apply_actions action (py_range n) (0, 0) ;;
  cs <- attr current_step ;;
  hz <- get forecast_horizon ;;
  w <- engine_step cs hz ;;
  set_current_weather w ;;;
  _update_stochastic_elements ;;;
  g <- attr grid ;;
  let balance := step_balance g in
  let reward := reward_of total_financial_cost total_co2_emissions balance in
  info <- _get_info ;;
  let info := with_blackout info (is_blackout balance) in
  obs <- _get_obs ;;
  cs <- attr current_step ;;
  ms <- get max_steps ;;
  ret (mkStepResult obs reward false (ms <=? cs)%Z info).

(** ** Episodes *)

(** What a caller sees of one call. *)
Inductive event : Type :=
| Returned (r : StepResult)
| Raised (e : exn).

(** The calls of [step] on a list of actions, one after the other; an
    exception is recorded and the next call is made on the object as the
    failed call left it. *)
Fixpoint run_steps (actions : list (list Q)) (s : SmartGridEnv)
  : list event * SmartGridEnv :=
  match actions with
  | [] => ([], s)
  | a :: rest =>
      let (r, s1) := step a s in
      let ev := match r with Ok x => Returned x | Raise e => Raised e end in
      let (evs, s2) := run_steps rest s1 in
      (ev :: evs, s2)
  end.

(** A run: [reset(seed)] and, when it returned, the calls of [step].
    The first component is what [reset] returned or raised. *)
Definition run (seed : Z) (actions : list (list Q)) (s : SmartGridEnv)
  : result (list Q * Info) * list event * SmartGridEnv :=
  match reset seed s with
  | (Ok r0, s0) =>
      let (evs, s1) := run_steps actions s0 in
      (Ok r0, evs, s1)
  | (Raise e, s0) => (Raise e, [], s0)
  end.

End RandomSource.

(** A small deterministic generator, to run the model on examples: the
    state is a counter and the draws cycle through -3/2, -1, ..., 3/2. *)
Definition toy_rng : Type := Z.
Definition toy_default_rng (seed : Z) : toy_rng := seed.
Definition toy_standard_normal (g : toy_rng) : Q * toy_rng :=
  (((g mod 7) - 3) # 2, (g + 1)%Z).
Definition toy_float32 (q : Q) : Q := Qred q.

(** ** Reference notions used in the statements *)

(** The sum of a list of numbers, as a right fold. *)
Definition Qsum (l : list Q) : Q := fold_right Qplus 0 l.

(** The uncertainty multiplier at offset [i] of a linear ramp from 1/2
    at offset 0 to 3 at offset [horizon]. *)
Definition uncertainty_ramp (horizon : Z) (i : nat) : Q :=
  (1#2) + inject_Z (Z.of_nat i) * ((3 - (1#2)) / inject_Z horizon).

(** The value of a profile at an hour, the day repeating. *)
Definition profile_at (p : StochasticProfile) (hour : Z) : Q :=
  nth (Z.to_nat (hour mod 24)) (base_profile p) 0.

Arguments draw_normal {G} standard_normal loc scale g.
Arguments rng_normal {G} standard_normal loc scale signbits _.
Arguments normal_draws {G} standard_normal n g.
Arguments get_actual_and_forecast {G} standard_normal p current_hour horizon _.

Arguments mkEngine {G} rng demand solar wind.
Arguments rng {G} s.
Arguments demand {G} s.
Arguments solar {G} s.
Arguments wind {G} s.
Arguments new_StochasticEngine {G} default_rng seed.
Arguments on_rng {G A} m _.
Arguments step_weather_and_demand {G} standard_normal current_hour horizon _.
Arguments mkEnv {G}.
Arguments render_mode {G} s.
Arguments num_controllable_plants {G} s.
Arguments forecast_horizon {G} s.
Arguments max_steps {G} s.
Arguments current_step {G} s.
Arguments engine {G} s.
Arguments grid {G} s.
Arguments solar_capacity {G} s.
Arguments wind_capacity {G} s.
Arguments city_base_load {G} s.
Arguments current_weather {G} s.
Arguments new_SmartGridEnv {G} render_mode.
Arguments attr {G A} f _.
Arguments get {G A} f _.
Arguments set_current_step {G} v _.
Arguments set_engine {G} v _.
Arguments set_grid {G} v _.
Arguments set_solar_capacity {G} v _.
Arguments set_wind_capacity {G} v _.
Arguments set_city_base_load {G} v _.
Arguments set_current_weather {G} v _.
Arguments grid_add_plant {G} p _.
Arguments grid_add_consumer {G} c _.
Arguments grid_step_plant {G} i target _.
Arguments grid_update_load {G} i new_load _.
Arguments engine_step {G} standard_normal current_hour horizon _.
Arguments _update_stochastic_elements {G} _.
Arguments _get_obs {G} float32 _.
Arguments _get_info {G} _.
Arguments gym_reset {G} seed _.
Arguments reset {G} default_rng standard_normal float32 seed _.
Arguments apply_actions {G} action indexes totals _.
Arguments step {G} standard_normal float32 action _.
Arguments run_steps {G} standard_normal float32 actions s.
Arguments run {G} default_rng standard_normal float32 seed actions s.

(** What [step] must not touch: the static parameters of each plant, in
    order; the name and base load of each consumer, in order; the
    profiles of the engine; the attributes assigned by [__init__] and the
    capacities and base load assigned by [reset]. *)
Definition plant_static (p : PowerPlant)
  : string * string * Q * Q * Q * Q * Q :=
  (name p, plant_type p, p_max p, p_min p, cost_per_mw p, co2_per_mw p,
   ramp_rate p).

Definition consumer_static (c : Consumer) : string * Q :=
  (c_name c, base_load c).

Definition grid_static (g : Grid)
  : list (string * string * Q * Q * Q * Q * Q) * list (string * Q) :=
  (map plant_static (plants g), map consumer_static (consumers g)).

Definition engine_static {G} (e : StochasticEngine G)
  : StochasticProfile * StochasticProfile * StochasticProfile :=
  (demand e, solar e, wind e).

Record StaticConfig := mkStatic {
  st_render_mode : option string;
  st_num_controllable_plants : Z;
  st_forecast_horizon : Z;
  st_max_steps : Z;
  st_grid : option (list (string * string * Q * Q * Q * Q * Q)
                    * list (string * Q));
  st_engine : option (StochasticProfile * StochasticProfile
                      * StochasticProfile);
  st_solar_capacity : option Q;
  st_wind_capacity : option Q;
  st_city_base_load : option Q
}.

Definition static_config {G} (s : SmartGridEnv G) : StaticConfig :=
  mkStatic (render_mode s) (num_controllable_plants s) (forecast_horizon s)
           (max_steps s) (option_map grid_static (grid s))
           (option_map engine_static (engine s))
           (solar_capacity s) (wind_capacity s) (city_base_load s).

(** The part of an environment that changes during an episode: the
    turn counter, the generator, output and on/off flag of the five
    plants, the load of the city and the current weather bundle. *)
Record Dynamic (G : Type) := mkDynamic {
  turn : Z;
  gen : G;
  gas_out : Q * bool;
  coal_out : Q * bool;
  nuclear_out : Q * bool;
  solar_out : Q * bool;
  wind_out : Q * bool;
  city_load : Q;
  weather : Weather
}.
Arguments mkDynamic {G}.
Arguments turn {G} d.
Arguments gen {G} d.
Arguments gas_out {G} d.
Arguments coal_out {G} d.
Arguments nuclear_out {G} d.
Arguments solar_out {G} d.
Arguments wind_out {G} d.
Arguments city_load {G} d.
Arguments weather {G} d.

Definition scenario_engine {G} (g : G) : StochasticEngine G :=
  mkEngine g (mkProfile demand_profile (5#100))
           (mkProfile solar_profile (15#100))
           (mkProfile wind_profile (25#100)).

Definition at_output (p : PowerPlant) (o : Q * bool) : PowerPlant :=
  set_power p (fst o) (snd o).

(** The plant at position [i] once the loop of [step] has gone through
    an action too short for it: advanced when the action has an entry
    at [i], untouched otherwise. *)
Definition advanced (action : list Q) (i : nat) (p : PowerPlant)
  : PowerPlant :=
  match nth_error action i with
  | Some a => fst (step_power p (a * p_max p))
  | None => p
  end.

Definition scenario_grid {G} (d : Dynamic G) : Grid :=
  mkGrid [at_output gas_plant (gas_out d);
          at_output coal_plant (coal_out d);
          at_output nuclear_plant (nuclear_out d);
          at_output solar_farm (solar_out d);
          at_output wind_farm (wind_out d)]
         [mkConsumer "Main City" 400 (city_load d)].

(** An environment in the course of an episode: the object as [reset]
    builds it, up to the dynamic part. *)
Definition scenario_env {G} (rm : option string) (d : Dynamic G)
  : SmartGridEnv G :=
  mkEnv rm 3 12 24 (Some (turn d)) (Some (scenario_engine (gen d)))
        (Some (scenario_grid d)) (Some 150) (Some 100) (Some 400)
        (Some (weather d)).

(** An object as [__init__] builds it, whatever was done with it since:
    no method assigns these three attributes. *)
Definition constructed {G} (s : SmartGridEnv G) : Prop :=
  num_controllable_plants s = 3%Z /\ forecast_horizon s = 12%Z /\
  max_steps s = 24%Z.

(** Output and on/off flag of a plant. *)
Definition dyn (p : PowerPlant) : Q * bool := (current_power p, is_on p).

(** The environments met during an episode. *)
Definition in_episode {G} (s : SmartGridEnv G) : Prop :=
  exists rm d, s = scenario_env rm d.

(** A computation that keeps the static configuration, whether it
    returns or raises. *)
Definition keeps {G A} (m : Env G A) : Prop :=
  forall s, static_config (snd (m s)) = static_config s.

(** An environment in the course of an episode, for the examples. *)
Definition example_weather : Weather :=
  mkWeather (6#10) 0 (5#10) (repeat (6#10) 12) (repeat 0 12)
            (repeat (5#10) 12).

Definition example_dynamic : Dynamic toy_rng :=
  mkDynamic 0%Z 5%Z (0, false) (0, false) (0, false) (0, false)
            (50, true) 240 example_weather.

(** ** Notions used for the further properties *)

(** [obs_size] of [SmartGridEnv.__init__]: the length of the declared
    observation space. *)
Definition obs_size {G} (s : SmartGridEnv G) : Z :=
  num_controllable_plants s + 2 + 3 + 3 * forecast_horizon s + 1.

(** The observation of an environment of the scenario, entry by entry. *)
Definition scenario_obs {G} (float32 : Q -> Q) (d : Dynamic G) : list Q :=
  map float32
      ([fst (gas_out d) / 100; fst (coal_out d) / 150;
        fst (nuclear_out d) / 300; fst (solar_out d) / 150;
        fst (wind_out d) / 100;
        actual_wind (weather d); actual_solar (weather d);
        actual_demand (weather d)]
       ++ (((forecast_wind (weather d) ++ forecast_solar (weather d))
            ++ forecast_demand (weather d))
           ++ [inject_Z (turn d) / inject_Z 24])).

Definition status_of (p : PowerPlant) : PlantStatus :=
  mkPlantStatus (name p) (plant_type p) (current_power p) (p_max p).

(** The info of an environment of the scenario, field by field. *)
Definition scenario_info {G} (d : Dynamic G) (blackout : option bool)
  : Info :=
  mkInfo (scale_by 400 (forecast_demand (weather d)))
         (scale_by 150 (forecast_solar (weather d)))
         (scale_by 100 (forecast_wind (weather d)))
         (py_sum (map current_power (plants (scenario_grid d))))
         (city_load d) (fst (solar_out d)) (fst (wind_out d))
         (map status_of (plants (scenario_grid d)))
         blackout.

(** No plant above its capacity, the renewables not below 0, the load
    not below 0. *)
Definition within_capacity {G} (d : Dynamic G) : Prop :=
  fst (gas_out d) <= 100 /\ fst (coal_out d) <= 150 /\
  fst (nuclear_out d) <= 300 /\
  (0 <= fst (solar_out d) /\ fst (solar_out d) <= 150) /\
  (0 <= fst (wind_out d) /\ fst (wind_out d) <= 100) /\
  0 <= city_load d.

(** The controllable plants not below 0. *)
Definition nonneg_outputs {G} (d : Dynamic G) : Prop :=
  0 <= fst (gas_out d) /\ 0 <= fst (coal_out d) /\
  0 <= fst (nuclear_out d).

(** ** human_ui.py and play.py: the sliders *)

(** Python's built-in [max(a, b)]: [b] when [b > a], otherwise [a]. *)
Definition py_max (a b : Q) : Q := if b >? a then b else a.

Module UI.

(** [pygame.Rect]: integer position and size. *)
Record Rect := mkRect { x : Z; y : Z; w : Z; h : Z }.

(** [pygame.Rect.collidepoint]: the left and top edges are inside, the
    right and bottom edges are not. *)
Definition collidepoint (r : Rect) (pos : Z * Z) : bool :=
  ((x r <=? fst pos) && (fst pos <? x r + w r)
   && (y r <=? snd pos) && (snd pos <? y r + h r))%Z%bool.

(** The pygame events the sliders and the control room read. *)
Inductive Event : Type :=
| MOUSEBUTTONDOWN (button : Z) (pos : Z * Z)
| MOUSEBUTTONUP (button : Z) (pos : Z * Z)
| MOUSEMOTION (pos : Z * Z)
| KEYDOWN (key : Z)
| QUIT
| OTHER.

Definition K_RETURN : Z := 13.

Record Slider := mkSlider {
  rect : Rect;
  index : Z;
  name : string;
  plant_type : string;
  p_max : Q;
  ramp_rate : Q;
  current_power : Q;
  value : Q;
  is_dragging : bool
}.

(** [Slider.__init__]. *)
Definition new_Slider (x y w h index : Z) (name plant_type : string)
    (p_max ramp_rate : Q) : Slider :=
  mkSlider (mkRect x y w h) index name plant_type p_max ramp_rate 0 0 false.

(** [Slider.update_state]. *)
Definition update_state (s : Slider) (current_power : Q) : Slider :=
  mkSlider (rect s) (index s) (name s) (plant_type s) (p_max s)
           (ramp_rate s) current_power (value s) (is_dragging s).

Definition set_value (s : Slider) (v : Q) : Slider :=
  mkSlider (rect s) (index s) (name s) (plant_type s) (p_max s)
           (ramp_rate s) (current_power s) v (is_dragging s).

Definition set_dragging (s : Slider) (b : bool) : Slider :=
  mkSlider (rect s) (index s) (name s) (plant_type s) (p_max s)
           (ramp_rate s) (current_power s) (value s) b.

(** [Slider._update_value]: the division of two integers is Python's
    true division, which raises on a zero width. *)
Definition _update_value (s : Slider) (mouse_x : Z) : result Slider :=
  let rel_x := (mouse_x - x (rect s))%Z in
  if (w (rect s) =? 0)%Z then Raise ZeroDivisionError
  else Ok (set_value s (py_max 0 (py_min 1 (inject_Z rel_x
                                            / inject_Z (w (rect s)))))).

(** [Slider.handle_event]. *)
Definition handle_event (s : Slider) (event : Event) : result Slider :=
  match event with
  | MOUSEBUTTONDOWN button pos =>
      if (button =? 1)%Z then
        if collidepoint (rect s) pos
        then _update_value (set_dragging s true) (fst pos)
        else Ok s
      else Ok s
  | MOUSEBUTTONUP button _ =>
      if (button =? 1)%Z then Ok (set_dragging s false) else Ok s
  | MOUSEMOTION pos =>
      if is_dragging s then _update_value s (fst pos) else Ok s
  | _ => Ok s
  end.

(** The forecast of [Slider.draw] and [HumanUI.render_frame] for the next
    hour: [current_power + max(-ramp_rate, min(ramp_rate, target_mw -
    current_power))]. *)
Definition next_turn_mw (s : Slider) : Q :=
  let target_mw := value s * p_max s in
  let actual_delta :=
    py_max (- ramp_rate s)
           (py_min (ramp_rate s) (target_mw - current_power s)) in
  current_power s + actual_delta.

(** The entries of [plants_info] that [play.py] hands to
    [setup_sliders]. *)
Record PlantInfo := mkPlantInfo {
  pi_name : string;
  pi_type : string;
  pi_p_max : Q;
  pi_ramp_rate : Q
}.

(** The part of a [HumanUI] the sliders live in; the window, the fonts,
    the figure and the log file are left out. *)
Record HumanUI := mkHumanUI {
  sliders : list Slider;
  turn_validated : bool
}.

Fixpoint sliders_from (i : Z) (plants_info : list PlantInfo) : list Slider :=
  match plants_info with
  | [] => []
  | p :: rest =>
      new_Slider 50 (520 + i * 70) 400 25 i (pi_name p) (pi_type p)
                 (pi_p_max p) (pi_ramp_rate p)
      :: sliders_from (i + 1) rest
  end.

(** [HumanUI.setup_sliders]: one slider for each of the first three
    plants. *)
Definition setup_sliders (ui : HumanUI) (plants_info : list PlantInfo)
  : HumanUI :=
  mkHumanUI (sliders_from 0 (firstn 3 plants_info)) (turn_validated ui).

Fixpoint update_from (i : Z) (powers : list Q) (sl : list Slider)
  : result (list Slider) :=
  match powers with
  | [] => Ok sl
  | cp :: rest =>
      match py_index sl i with
      | Raise e => Raise e
      | Ok s => update_from (i + 1) rest (py_store sl i (update_state s cp))
      end
  end.

(** [HumanUI.update_plants_state], on the list of the plants' current
    power. *)
Definition update_plants_state (ui : HumanUI) (powers : list Q)
  : result HumanUI :=
  match update_from 0 (firstn 3 powers) (sliders ui) with
  | Raise e => Raise e
  | Ok sl => Ok (mkHumanUI sl (turn_validated ui))
  end.

(** What a call that may leave through [exit()] ends in. *)
Inductive outcome (A : Type) : Type :=
| Done (a : A)
| Failed (e : exn)
| Exited.
Arguments Done {A} a.
Arguments Failed {A} e.
Arguments Exited {A}.

Fixpoint sliders_handle (sl : list Slider) (event : Event)
  : result (list Slider) :=
  match sl with
  | [] => Ok []
  | s :: rest =>
      match handle_event s event with
      | Raise e => Raise e
      | Ok s' =>
          match sliders_handle rest event with
          | Raise e => Raise e
          | Ok rest' => Ok (s' :: rest')
          end
      end
  end.

(** The loop of [HumanUI.handle_events] over the pending events. *)
Fixpoint events_loop (ui : HumanUI) (events : list Event) : outcome HumanUI :=
  match events with
  | [] => Done ui
  | event :: rest =>
      match event with
      | QUIT => Exited
      | _ =>
          let validated :=
            match event with
            | KEYDOWN key =>
                if (key =? K_RETURN)%Z then true else turn_validated ui
            | _ => turn_validated ui
            end in
          match sliders_handle (sliders ui) event with
          | Raise e => Failed e
          | Ok sl => events_loop (mkHumanUI sl validated) rest
          end
      end
  end.

(** [HumanUI.handle_events], on the events [pygame.event.get()]
    returns. *)
Definition handle_events (ui : HumanUI) (events : list Event)
  : outcome HumanUI :=
  events_loop (mkHumanUI (sliders ui) false) events.

(** [HumanUI.get_current_actions]. *)
Definition get_current_actions (ui : HumanUI) : list Q :=
  map value (sliders ui).

End UI.

(** [plants_info] of [play_human] (lines 18-26) and the list of current
    powers it hands to [update_plants_state] (line 36). *)
Definition plants_info_of (g : Grid) : list UI.PlantInfo :=
  map (fun p => UI.mkPlantInfo (name p) (plant_type p) (p_max p)
                               (ramp_rate p)) (plants g).

Definition dynamic_plants_state (g : Grid) : list Q :=
  map current_power (plants g).

(** A slider that shows a plant: same capacity, ramp rate and current
    power. *)
Definition mirrors (s : UI.Slider) (p : PowerPlant) : Prop :=
  UI.p_max s = p_max p /\ UI.ramp_rate s = ramp_rate p /\
  UI.current_power s = current_power p.

Definition unit_interval (v : Q) : Prop := 0 <= v /\ v <= 1.

(** What no event changes in a slider. *)
Definition slider_static (s : UI.Slider)
  : UI.Rect * Z * string * string * Q * Q * Q :=
  (UI.rect s, UI.index s, UI.name s, UI.plant_type s, UI.p_max s,
   UI.ramp_rate s, UI.current_power s).

(** A press of the Enter key. *)
Definition is_return (event : UI.Event) : bool :=
  match event with
  | UI.KEYDOWN key => (key =? UI.K_RETURN)%Z
  | _ => false
  end.

(** ** play.py: the game loop *)

(** The variables of [play_human]: the environment, the control room,
    the score and whether the last step ended the episode
    ([terminated or truncated]). *)
Record Game (G : Type) := mkGame {
  g_env : SmartGridEnv G;
  g_ui : UI.HumanUI;
  current_score : Q;
  over : bool
}.
Arguments mkGame {G}.
Arguments g_env {G} g.
Arguments g_ui {G} g.
Arguments current_score {G} g.
Arguments over {G} g.

(** One pass through the body of the [while] loop of [play_human], on
    the events pending at that moment.  Drawing the frame and writing
    the log change none of these variables and are left out. *)
Definition play_frame {G} (standard_normal : G -> Q * G) (float32 : Q -> Q)
    (events : list UI.Event) (game : Game G) : UI.outcome (Game G) :=
  match UI.handle_events (g_ui game) events with
  | UI.Exited => UI.Exited
  | UI.Failed e => UI.Failed e
  | UI.Done ui1 =>
      match grid (g_env game) with
      | None => UI.Failed AttributeError
      | Some g =>
          match UI.update_plants_state ui1 (dynamic_plants_state g) with
          | Raise e => UI.Failed e
          | Ok ui2 =>
              if UI.turn_validated ui2 then
                let action_list := UI.get_current_actions ui2 in
                let action := map float32 action_list in
                match step standard_normal float32 action (g_env game) with
                | (Raise e, _) => UI.Failed e
                | (Ok r, env') =>
                    UI.Done (mkGame env' ui2
                                    (current_score game + reward r)
                                    (terminated r || truncated r))
                end
              else
                UI.Done (mkGame (g_env game) ui2 (current_score game)
                                (over game))
          end
      end
  end.

(** The [while not (terminated or truncated)] loop, on the successive
    batches of pending events; it stops where the batches end. *)
Fixpoint play_loop {G} (standard_normal : G -> Q * G) (float32 : Q -> Q)
    (frames : list (list UI.Event)) (game : Game G)
  : UI.outcome (Game G) :=
  if over game then UI.Done game
  else
    match frames with
    | [] => UI.Done game
    | events :: rest =>
        match play_frame standard_normal float32 events game with
        | UI.Done game' => play_loop standard_normal float32 rest game'
        | UI.Failed e => UI.Failed e
        | UI.Exited => UI.Exited
        end
    end.

(** The game as [play_human] has it when the loop starts, the
    environment having been reset. *)
Definition start_game {G} (env : SmartGridEnv G) (ui : UI.HumanUI)
  : result (Game G) :=
  match grid env with
  | None => Raise AttributeError
  | Some g =>
      Ok (mkGame env (UI.setup_sliders ui (plants_info_of g)) 0 false)
  end.

(** The batches in which Enter is pressed. *)
Definition validated_frames (frames : list (list UI.Event)) : nat :=
  List.length (filter (existsb is_return) frames).

(** Everything in a slider but the current power it shows. *)
Definition slider_setting (s : UI.Slider)
  : UI.Rect * Z * string * string * Q * Q * Q * bool :=
  (UI.rect s, UI.index s, UI.name s, UI.plant_type s, UI.p_max s,
   UI.ramp_rate s, UI.value s, UI.is_dragging s).

(** The control room of the example: the sliders of the example grid. *)
Definition example_ui : UI.HumanUI :=
  UI.setup_sliders (UI.mkHumanUI [] false)
                   (plants_info_of (scenario_grid example_dynamic)).

(** The game at turn [t] of an episode: three sliders of a width other
    than 0, and the loop over exactly when 24 turns are played. *)
Definition game_at {G} (game : Game G) (t : nat) : Prop :=
  (exists rm d, g_env game = scenario_env rm d /\ turn d = Z.of_nat t) /\
  over game = (24 <=? t)%nat /\
  List.length (UI.sliders (g_ui game)) = 3%nat /\
  Forall (fun s => UI.w (UI.rect s) <> 0%Z) (UI.sliders (g_ui game)).

(** * Proofs *)

(** ** Facts about the comparisons *)

Lemma Qltb_lt (x y : Q) : (x <? y) = true <-> x < y.
Proof.
  unfold Qltb. rewrite negb_true_iff.
  split; intro H.
  - apply Qnot_le_lt. intro L. apply Qle_bool_iff in L. congruence.
  - destruct (Qle_bool y x) eqn:E; [|reflexivity].
    apply Qle_bool_iff in E. exfalso. apply (Qlt_not_le _ _ H E).
Qed.

Lemma Qltb_ge (x y : Q) : (x <? y) = false <-> y <= x.
Proof.
  unfold Qltb. rewrite negb_false_iff. apply Qle_bool_iff.
Qed.

Lemma Qgtb_gt (x y : Q) : (x >? y) = true <-> y < x.
Proof. apply Qltb_lt. Qed.

Lemma Qgtb_le (x y : Q) : (x >? y) = false <-> x <= y.
Proof. apply Qltb_ge. Qed.

(** Case analysis on a boolean comparison, leaving the order fact in the
    context. *)
Ltac qcase x y :=
  let E := fresh "E" in
  destruct (Qltb x y) eqn:E;
  [ apply Qltb_lt in E | apply Qltb_ge in E ].

Ltac qcases :=
  repeat match goal with
  | |- context [Qltb ?x ?y] => qcase x y
  | |- context [Qgtb ?x ?y] => unfold Qgtb
  end.

Lemma Qabs_cases (x : Q) : (0 <= x /\ Qabs x == x) \/ (x < 0 /\ Qabs x == - x).
Proof.
  destruct (Qlt_le_dec x 0) as [H|H].
  - right. split; [exact H|]. apply Qabs_neg. lra.
  - left. split; [exact H|]. apply Qabs_pos. exact H.
Qed.

(** ** The plant: [step_power] *)

Lemma step_power_current p t :
  current_power (fst (step_power p t))
  = current_power p + ramp_delta p (clamped_target p t).
Proof. reflexivity. Qed.

Lemma clamped_target_nonneg p t :
  0 <= p_max p -> 0 <= t -> 0 <= clamped_target p t.
Proof.
  intros H1 H2. unfold clamped_target, py_min.
  destruct (t >? 0) eqn:E1; cbn [andb]; qcases; lra.
Qed.

Lemma ramp_delta_exact p t :
  Qabs (t - current_power p) <= ramp_rate p ->
  ramp_delta p t = t - current_power p.
Proof.
  intro H. unfold ramp_delta.
  destruct (Qabs (t - current_power p) >? ramp_rate p) eqn:E; [|reflexivity].
  apply Qgtb_gt in E. lra.
Qed.

Lemma ramp_delta_nonneg p t :
  0 <= current_power p -> 0 <= ramp_rate p -> 0 <= t ->
  0 <= current_power p + ramp_delta p t.
Proof.
  intros Hc Hr Ht. unfold ramp_delta.
  destruct (Qabs_cases (t - current_power p)) as [[A B]|[A B]]; qcases; lra.
Qed.

Lemma hold_target_static p t n :
  let q := hold_target p t n in
  p_max q = p_max p /\ p_min q = p_min p /\ ramp_rate q = ramp_rate p.
Proof.
  induction n as [|n IH]; cbn [hold_target]; [tauto|].
  exact IH.
Qed.

Lemma inject_nat_succ (k : nat) :
  inject_Z (Z.of_nat (S k)) == inject_Z (Z.of_nat k) + 1.
Proof.
  rewrite Nat2Z.inj_succ. unfold Z.succ. rewrite inject_Z_plus. reflexivity.
Qed.

(** C1 (as stated, refuted): one call on the nuclear plant at rest with
    target 300 leaves its output at 20, strictly between 0 and the
    minimum 150, hence outside {0} ∪ [p_min, p_max]. *)
Lemma step_power_rests_below_minimum :
  let p' := fst (step_power nuclear_plant 300) in
  current_power p' == 20 /\
  0 < current_power p' /\ current_power p' < p_min p' /\
  ~ (current_power p' == 0 \/
     (p_min p' <= current_power p' /\ current_power p' <= p_max p')).
Proof.
  cbv zeta. rewrite step_power_current.
  change (current_power nuclear_plant
          + ramp_delta nuclear_plant (clamped_target nuclear_plant 300))
    with (0 + 20).
  change (p_min (fst (step_power nuclear_plant 300))) with 150.
  change (p_max (fst (step_power nuclear_plant 300))) with 300.
  repeat split; lra.
Qed.

(** C2 (as stated, refuted): a negative target is accepted and not
    clamped; the gas plant at rest asked for -5 ends at output -5, with a
    negative cost and negative emissions. *)
Lemma step_power_negative_target :
  0 <= current_power gas_plant /\
  let '(p', (cost, co2)) := step_power gas_plant (-5) in
  current_power p' < 0 /\ cost < 0 /\ co2 < 0.
Proof. vm_compute. repeat split; discriminate. Qed.

(** C2 (amended): for a plant with non-negative output, capacity, ramp
    rate and unit cost and emissions, and a target >= 0, the output after
    [step_power] is >= 0 and so are the returned cost and emissions. *)
Theorem step_power_nonneg (p : PowerPlant) (target : Q) :
  0 <= current_power p -> 0 <= target ->
  0 <= p_max p -> 0 <= ramp_rate p ->
  0 <= cost_per_mw p -> 0 <= co2_per_mw p ->
  0 <= current_power (fst (step_power p target)) /\
  0 <= fst (snd (step_power p target)) /\
  0 <= snd (snd (step_power p target)).
Proof.
  intros Hc Ht Hm Hr Hcost Hco2.
  assert (H : 0 <= current_power (fst (step_power p target))).
  { rewrite step_power_current.
    apply ramp_delta_nonneg; auto using clamped_target_nonneg. }
  split; [exact H|].
  split; apply Qmult_le_0_compat; assumption.
Qed.

Lemma step_power_nonneg_witness :
  0 <= current_power (fst (step_power coal_plant 120)) /\
  0 <= fst (snd (step_power coal_plant 120)) /\
  0 <= snd (snd (step_power coal_plant 120)).
Proof.
  apply (step_power_nonneg coal_plant 120); vm_compute; discriminate.
Defined.

(** ** The plant on binary64 floats *)

(** The order of the floats, from its specification. *)
Lemma SFcompare_antisym (x y : spec_float) (c : comparison) :
  SFcompare x y = Some c -> SFcompare y x = Some (CompOpp c).
Proof.
  destruct x as [sx|sx| |sx mx ex], y as [sy|sy| |sy my ey];
    cbn; try discriminate;
    try (destruct sx; intro H; injection H as <-; reflexivity);
    try (destruct sy; intro H; injection H as <-; reflexivity);
    try (intro H; injection H as <-; reflexivity).
  - destruct sx, sy; intro H; injection H as <-; reflexivity.
  - change (Pos.compare_cont Eq mx my) with (Pos.compare mx my).
    change (Pos.compare_cont Eq my mx) with (Pos.compare my mx).
    rewrite (Z.compare_antisym ex ey), (Pos.compare_antisym mx my).
    destruct sx, sy; intro H; injection H as <-; try reflexivity;
      destruct (ex ?= ey)%Z; cbn; try reflexivity;
      now destruct (mx ?= my)%positive.
Qed.

Lemma SFcompare_refl (x : spec_float) :
  x <> S754_nan -> SFcompare x x = Some Eq.
Proof.
  destruct x as [s|s| |s m e]; cbn; try congruence.
  - now destruct s.
  - intros _. rewrite Z.compare_refl.
    change (Pos.compare_cont Eq m m) with (Pos.compare m m).
    rewrite Pos.compare_refl. now destruct s.
Qed.

Lemma SFcompare_nan (x y : spec_float) :
  SFcompare x y = None <-> x = S754_nan \/ y = S754_nan.
Proof.
  destruct x as [sx|sx| |sx mx ex], y as [sy|sy| |sy my ey]; cbn;
    split; intro H; try discriminate; try tauto;
    destruct H; discriminate.
Qed.

Section Binary64.

Local Open Scope float_scope.
Local Set Warnings "-inexact-float".

Lemma number_spec (x : float) : B64.number x <-> Prim2SF x <> S754_nan.
Proof.
  unfold B64.number. rewrite eqb_spec. unfold SFeqb. split.
  - intros H E. rewrite E in H. discriminate.
  - intro H. now rewrite SFcompare_refl.
Qed.

Lemma float_leb_number (x y : float) :
  (x <=? y) = true -> B64.number x /\ B64.number y.
Proof.
  rewrite leb_spec. unfold SFleb. intro H. rewrite !number_spec.
  split; intro E; rewrite E in H; cbn in H; try discriminate.
  destruct (Prim2SF x); discriminate.
Qed.

Lemma float_leb_refl (x : float) : B64.number x -> (x <=? x) = true.
Proof.
  rewrite number_spec, leb_spec. unfold SFleb. intro H.
  now rewrite SFcompare_refl.
Qed.

(** Of two numbers, one is not below the other. *)
Lemma float_not_ltb_leb (x y : float) :
  B64.number x -> B64.number y -> (x <? y) = false -> (y <=? x) = true.
Proof.
  rewrite !number_spec, ltb_spec, leb_spec. unfold SFltb, SFleb.
  intros Hx Hy H.
  destruct (SFcompare (Prim2SF x) (Prim2SF y)) as [c|] eqn:E.
  - rewrite (SFcompare_antisym _ _ _ E). destruct c; try reflexivity.
    discriminate.
  - apply SFcompare_nan in E. tauto.
Qed.

Lemma float_leb_antisym_eqb (x y : float) :
  (x <=? y) = true -> (x <? y) = false -> (x =? y) = true.
Proof.
  rewrite ltb_spec, leb_spec, eqb_spec. unfold SFltb, SFleb, SFeqb.
  now destruct (SFcompare (Prim2SF x) (Prim2SF y)) as [[| |]|].
Qed.

Lemma float_eqb_sym (x y : float) : (x =? y) = (y =? x).
Proof.
  rewrite !eqb_spec. unfold SFeqb.
  destruct (SFcompare (Prim2SF x) (Prim2SF y)) as [c|] eqn:E.
  - rewrite (SFcompare_antisym _ _ _ E). now destruct c.
  - apply SFcompare_nan in E.
    assert (E' : SFcompare (Prim2SF y) (Prim2SF x) = None)
      by (apply SFcompare_nan; tauto).
    now rewrite E'.
Qed.

Lemma float_abs_nonneg_leb (r : float) :
  (0 <=? r) = true -> (abs r <=? r) = true.
Proof.
  rewrite !leb_spec, abs_spec. unfold SFleb.
  change (Prim2SF 0) with (S754_zero false).
  destruct (Prim2SF r) as [s|s| |s m e]; cbn;
    try discriminate; try reflexivity.
  - destruct s; [discriminate|reflexivity].
  - destruct s; [discriminate|]. intros _. rewrite Z.compare_refl.
    change (Pos.compare_cont Eq m m) with (Pos.compare m m).
    now rewrite Pos.compare_refl.
Qed.

Lemma float_abs_opp (x : float) : abs (- x) = abs x.
Proof.
  apply Prim2SF_inj. rewrite !abs_spec, opp_spec.
  now destruct (Prim2SF x).
Qed.

(** The variation is within the ramp rate, whatever the rounding of the
    difference it is computed from. *)
Lemma ramp_delta_bounded (p : B64.PowerPlant) (c : float) :
  (0 <=? B64.ramp_rate p) = true ->
  B64.number (c - B64.current_power p) ->
  (abs (B64.ramp_delta p c) <=? B64.ramp_rate p) = true.
Proof.
  intros Hr Hd. unfold B64.ramp_delta.
  destruct (B64.ramp_rate p <? abs (c - B64.current_power p)) eqn:E.
  - destruct (0 <? c - B64.current_power p).
    + now apply float_abs_nonneg_leb.
    + rewrite float_abs_opp. now apply float_abs_nonneg_leb.
  - apply float_not_ltb_leb; [apply (float_leb_number _ _ Hr)| |exact E].
    apply number_spec. rewrite abs_spec.
    apply number_spec in Hd.
    now destruct (Prim2SF (c - B64.current_power p)).
Qed.

(** The target after constraint 1 is 0 or between minimum and
    capacity. *)
Lemma clamped_target_legal (p : B64.PowerPlant) (target : float) :
  (B64.p_min p <=? B64.p_max p) = true -> (0 <=? target) = true ->
  let c := B64.clamped_target p target in
  (c =? 0) = true \/
  ((B64.p_min p <=? c) = true /\ (c <=? B64.p_max p) = true).
Proof.
  intros Hm Ht. cbv zeta.
  destruct (float_leb_number _ _ Hm) as [Nmin Nmax].
  destruct (float_leb_number _ _ Ht) as [_ Nt].
  unfold B64.clamped_target, B64.py_min.
  destruct (0 <? target) eqn:E1; [destruct (target <? B64.p_min p) eqn:E2|];
    cbn [andb].
  - destruct (B64.p_max p <? 0) eqn:E3.
    + right. split; [exact Hm|now apply float_leb_refl].
    + left. reflexivity.
  - destruct (B64.p_max p <? target) eqn:E3.
    + right. split; [exact Hm|now apply float_leb_refl].
    + right. split; now apply float_not_ltb_leb.
  - destruct (B64.p_max p <? target) eqn:E3.
    + right. split; [exact Hm|now apply float_leb_refl].
    + left. rewrite float_eqb_sym. now apply float_leb_antisym_eqb.
Qed.

Lemma clamped_target_capped (p : B64.PowerPlant) (target : float) :
  B64.number (B64.p_max p) -> B64.number target ->
  (B64.clamped_target p target <=? B64.p_max p) = true.
Proof.
  intros Nmax Nt. unfold B64.clamped_target, B64.py_min.
  set (t := if (0 <? target) && (target <? B64.p_min p) then 0 else target).
  assert (N : B64.number t).
  { subst t. destruct ((0 <? target) && (target <? B64.p_min p));
      [reflexivity|exact Nt]. }
  destruct (B64.p_max p <? t) eqn:E.
  - now apply float_leb_refl.
  - now apply float_not_ltb_leb.
Qed.

(** The nuclear plant driven from rest with constant target 300: at
    capacity after 15 calls, it stays there. *)
Lemma nuclear_at_capacity :
  fst (B64.step_power (B64.hold_target B64.nuclear_plant 300 15) 300)
  = B64.hold_target B64.nuclear_plant 300 15.
Proof. vm_compute. reflexivity. Qed.

Lemma nuclear_stays_at_capacity (k : nat) :
  B64.hold_target B64.nuclear_plant 300 (15 + k)
  = B64.hold_target B64.nuclear_plant 300 15.
Proof.
  induction k as [|k IH]; [reflexivity|].
  replace (15 + S k)%nat with (S (15 + k)) by lia.
  cbn [B64.hold_target]. rewrite IH. apply nuclear_at_capacity.
Qed.

Lemma nuclear_ramp_up (k : nat) :
  B64.to_Q (B64.current_power (B64.hold_target B64.nuclear_plant 300 k))
  = Some (inject_Z (Z.min (20 * Z.of_nat k) 300)).
Proof.
  destruct (Nat.lt_ge_cases k 15) as [H|H].
  - do 15 (destruct k as [|k]; [vm_compute; reflexivity|]). lia.
  - replace (Z.min (20 * Z.of_nat k) 300) with 300%Z by lia.
    replace k with (15 + (k - 15))%nat by lia.
    rewrite nuclear_stays_at_capacity. vm_compute. reflexivity.
Qed.

(** C1 (amended): it is the target, not the output, that is kept out of
    (0, p_min).  For a plant with p_min <= p_max and a target >= 0, the
    target after clamping is 0 or lies in [p_min, p_max].  The output
    is then moved towards it: a call that is not ramp-limited leaves
    current_power + (clamped target - current_power), the clamped
    target up to the rounding of these two operations (a plant with
    minimum 0.1 at output 0.4 asked for 0.1 ends at
    0.09999999999999998); a ramp-limited call leaves current_power +
    ramp_rate or current_power - ramp_rate, which may be strictly
    between 0 and p_min.  The nuclear plant driven from 0 with constant
    target 300 is at exactly min(20 k, 300) after k calls: 20, 40, ...,
    140 on the way. *)
Theorem step_power_resting_range :
  (forall (p : B64.PowerPlant) (target : float),
      (B64.p_min p <=? B64.p_max p) = true -> (0 <=? target) = true ->
      let c := B64.clamped_target p target in
      let d := c - B64.current_power p in
      let out := B64.current_power (fst (B64.step_power p target)) in
      ((c =? 0) = true \/
       ((B64.p_min p <=? c) = true /\ (c <=? B64.p_max p) = true)) /\
      ((B64.ramp_rate p <? abs d) = false ->
       out = B64.current_power p + d) /\
      ((B64.ramp_rate p <? abs d) = true ->
       out = B64.current_power p
             + (if 0 <? d then B64.ramp_rate p else - B64.ramp_rate p)))
  /\
  (let p := B64.mkPowerPlant "Plant" "gas" 1 0.1 150 0.8 1 0.4 true in
   let c := B64.clamped_target p 0.1 in
   let out := B64.current_power (fst (B64.step_power p 0.1)) in
   c = 0.1 /\
   (B64.ramp_rate p <? abs (c - B64.current_power p)) = false /\
   out = 0.09999999999999998 /\
   (0 <? out) = true /\ (out <? B64.p_min p) = true)
  /\
  (forall k : nat,
      B64.to_Q (B64.current_power (B64.hold_target B64.nuclear_plant 300 k))
      = Some (inject_Z (Z.min (20 * Z.of_nat k) 300))).
Proof.
  split; [|split; [|exact nuclear_ramp_up]].
  - intros p target Hm Ht. cbv zeta.
    split; [now apply clamped_target_legal|].
    unfold B64.step_power, B64.ramp_delta.
    cbn [fst B64.current_power B64.set_power].
    split; intros ->; reflexivity.
  - cbv zeta. repeat split.
Qed.

Lemma step_power_resting_range_witness :
  let p := B64.hold_target B64.nuclear_plant 300 7 in
  let c := B64.clamped_target p 200 in
  let d := c - B64.current_power p in
  let out := B64.current_power (fst (B64.step_power p 200)) in
  ((c =? 0) = true \/
   ((B64.p_min p <=? c) = true /\ (c <=? B64.p_max p) = true)) /\
  ((B64.ramp_rate p <? abs d) = false ->
   out = B64.current_power p + d) /\
  ((B64.ramp_rate p <? abs d) = true ->
   out = B64.current_power p
         + (if 0 <? d then B64.ramp_rate p else - B64.ramp_rate p)).
Proof.
  apply (proj1 step_power_resting_range
           (B64.hold_target B64.nuclear_plant 300 7) 200); reflexivity.
Defined.

(** C6 (as stated, refuted): the coal plant (ramp rate 50) is brought
    from rest to 14.4 by the target 0.096 * 150; the next call, with
    target 1 * 150, is ramp-limited and leaves it at
    64.400000000000006: the output has changed by more than 50, in the
    floats' own subtraction and in exact arithmetic. *)
Lemma step_power_exceeds_ramp_rate :
  let p1 := fst (B64.step_power B64.coal_plant (0.096 * 150)) in
  let p2 := fst (B64.step_power p1 (1 * 150)) in
  B64.ramp_rate p1 = 50 /\
  B64.current_power p1 = 14.4 /\
  B64.current_power p2 = 64.400000000000006 /\
  (B64.ramp_rate p1 <? abs (B64.current_power p2 - B64.current_power p1))
  = true /\
  exists before after : Q,
    B64.to_Q (B64.current_power p1) = Some before /\
    B64.to_Q (B64.current_power p2) = Some after /\
    (50 < Qabs (after - before))%Q.
Proof.
  cbv zeta. split; [reflexivity|]. split; [reflexivity|].
  split; [reflexivity|]. split; [reflexivity|].
  eexists. eexists. split; [vm_compute; reflexivity|].
  split; [vm_compute; reflexivity|]. vm_compute. reflexivity.
Qed.

(** C6 (amended): for a plant with a ramp rate >= 0, whatever its
    output and the target, [step_power] adds to the output a variation
    delta with |delta| <= ramp_rate (the difference clamped target -
    output being a number): the new output is the float sum
    current_power + delta, and the ramp rate is unchanged, so that this
    holds call after call.  The sum is rounded: the change of the
    output itself can exceed the ramp rate by that rounding. *)
Theorem step_power_variation_limited (p : B64.PowerPlant) (target : float) :
  (0 <=? B64.ramp_rate p) = true ->
  B64.number (B64.clamped_target p target - B64.current_power p) ->
  let delta := B64.ramp_delta p (B64.clamped_target p target) in
  let p' := fst (B64.step_power p target) in
  B64.current_power p' = B64.current_power p + delta /\
  (abs delta <=? B64.ramp_rate p) = true /\
  B64.ramp_rate p' = B64.ramp_rate p.
Proof.
  intros Hr Hd. cbv zeta.
  split; [reflexivity|]. split; [|reflexivity].
  now apply ramp_delta_bounded.
Qed.

Lemma step_power_variation_limited_witness :
  let p := fst (B64.step_power B64.coal_plant (0.096 * 150)) in
  let delta := B64.ramp_delta p (B64.clamped_target p (1 * 150)) in
  let p' := fst (B64.step_power p (1 * 150)) in
  B64.current_power p' = B64.current_power p + delta /\
  (abs delta <=? B64.ramp_rate p) = true /\
  B64.ramp_rate p' = B64.ramp_rate p.
Proof.
  apply (step_power_variation_limited
           (fst (B64.step_power B64.coal_plant (0.096 * 150))) (1 * 150));
    reflexivity.
Defined.

End Binary64.

(** ** The grid: [step_balance] *)

Lemma fold_left_Qplus (l : list Q) (a : Q) :
  fold_left Qplus l a == a + Qsum l.
Proof.
  revert a. induction l as [|x l IH]; intro a; cbn [fold_left Qsum fold_right].
  - ring.
  - rewrite IH. unfold Qsum. ring.
Qed.

Lemma py_sum_Qsum (l : list Q) : py_sum l == Qsum l.
Proof. unfold py_sum. rewrite fold_left_Qplus. ring. Qed.

(** C3: [step_balance] returns the two sums, their difference, the
    blackout flag (delta < 0), unmet demand max(0, -delta) and wasted
    energy max(0, delta); at delta = 0 there is neither blackout nor
    waste, and unmet demand and wasted energy are never both nonzero. *)
Theorem step_balance_spec (g : Grid) :
  let b := step_balance g in
  total_production b == Qsum (map current_power (plants g)) /\
  total_demand b == Qsum (map current_load (consumers g)) /\
  delta b = total_production b - total_demand b /\
  (is_blackout b = true <-> delta b < 0) /\
  unmet_demand b == Qmax 0 (- delta b) /\
  wasted_energy b == Qmax 0 (delta b) /\
  (delta b == 0 ->
   is_blackout b = false /\ unmet_demand b == 0 /\ wasted_energy b == 0) /\
  (unmet_demand b == 0 \/ wasted_energy b == 0).
Proof.
  cbv zeta. unfold step_balance.
  cbn [total_production total_demand delta is_blackout unmet_demand
       wasted_energy].
  set (d := py_sum (map current_power (plants g))
            - py_sum (map current_load (consumers g))).
  split; [apply py_sum_Qsum|].
  split; [apply py_sum_Qsum|].
  split; [reflexivity|].
  split; [apply Qltb_lt|].
  destruct (Qabs_cases d) as [[A B]|[A B]];
    destruct (Q.max_spec 0 (- d)) as [[C D]|[C D]];
    destruct (Q.max_spec 0 d) as [[C' D']|[C' D']];
    rewrite D, D'; qcases; repeat split; intros; try lra;
    try (left; lra); try (right; lra).
Qed.

(** ** Sequences *)

Lemma py_range_length (n : Z) : List.length (py_range n) = Z.to_nat n.
Proof. unfold py_range. now rewrite length_map, length_seq. Qed.

Lemma py_range_nth (n : Z) (i : nat) :
  (i < Z.to_nat n)%nat -> nth i (py_range n) 0%Z = Z.of_nat i.
Proof.
  intro H. unfold py_range.
  change 0%Z with (Z.of_nat 0). rewrite map_nth, seq_nth; [reflexivity|exact H].
Qed.

Lemma py_range_bounds (n i : Z) : In i (py_range n) -> (0 <= i < n)%Z.
Proof.
  unfold py_range. rewrite in_map_iff. intros (k & <- & Hk).
  apply in_seq in Hk. lia.
Qed.

Lemma py_index_in_range {A} (l : list A) (i : Z) (d : A) :
  (0 <= i < Z.of_nat (List.length l))%Z ->
  py_index l i = Ok (nth (Z.to_nat i) l d).
Proof.
  intro H. unfold py_index.
  destruct (i <? 0)%Z eqn:E; [lia|].
  replace ((0 <=? i)%Z && (i <? Z.of_nat (List.length l))%Z) with true
    by (symmetry; apply andb_true_iff; split; lia).
  destruct (nth_error l (Z.to_nat i)) eqn:N.
  - now rewrite (nth_error_nth _ _ d N).
  - apply nth_error_None in N. lia.
Qed.

Lemma py_index_beyond {A} (l : list A) (i : Z) :
  (Z.of_nat (List.length l) <= i)%Z -> py_index l i = Raise IndexError.
Proof.
  intro H. unfold py_index.
  destruct (i <? 0)%Z eqn:E; [lia|].
  replace ((0 <=? i)%Z && (i <? Z.of_nat (List.length l))%Z) with false;
    [reflexivity|].
  symmetry. apply andb_false_iff. right. lia.
Qed.

Lemma np_take_in_range (a : list Q) (idx : list Z) :
  (forall i, In i idx -> (0 <= i < Z.of_nat (List.length a))%Z) ->
  np_take a idx = Ok (map (fun i => nth (Z.to_nat i) a 0) idx).
Proof.
  induction idx as [|i rest IH]; intro H; cbn [np_take map]; [reflexivity|].
  rewrite (py_index_in_range a i 0) by (apply H; now left).
  rewrite IH by (intros j Hj; apply H; now right).
  reflexivity.
Qed.

Lemma map_nth_in {A B} (f : A -> B) (l : list A) (i : nat) (da : A) (db : B) :
  (i < List.length l)%nat -> nth i (map f l) db = f (nth i l da).
Proof.
  intro H. rewrite (nth_indep _ db (f da)) by now rewrite length_map.
  apply map_nth.
Qed.

Lemma map2_length {A B C} (f : A -> B -> C) l l' :
  List.length (map2 f l l') = Nat.min (List.length l) (List.length l').
Proof.
  revert l'. induction l as [|a l IH]; intros [|b l']; cbn; auto.
Qed.

Lemma map2_nth {A B C} (f : A -> B -> C) l l' i da db dc :
  (i < List.length l)%nat -> (i < List.length l')%nat ->
  nth i (map2 f l l') dc = f (nth i l da) (nth i l' db).
Proof.
  revert l' i. induction l as [|a l IH]; intros [|b l'] i H H'; cbn in *;
    try lia.
  destruct i as [|i]; [reflexivity|]. apply IH; lia.
Qed.

Lemma set_last_length (y : list Q) (stop : Q) :
  List.length (set_last y stop) = List.length y.
Proof.
  induction y as [|v [|w t] IH]; cbn [set_last List.length] in *; auto.
Qed.

Lemma set_last_nth (y : list Q) (stop : Q) (i : nat) :
  (i < List.length y)%nat ->
  nth i (set_last y stop) 0
  = if (S i =? List.length y)%nat then stop else nth i y 0.
Proof.
  revert i. induction y as [|v [|w t] IH]; intros i H.
  - cbn in H. lia.
  - cbn in H. assert (i = 0)%nat by lia. subst. reflexivity.
  - destruct i as [|i].
    + reflexivity.
    + change (nth (S i) (set_last (v :: w :: t) stop) 0)
        with (nth i (set_last (w :: t) stop) 0).
      rewrite IH by (cbn in *; lia). reflexivity.
Qed.

(** ** [np.linspace] *)

Lemma linspace_length (start stop : Q) (num : Z) :
  (0 <= num)%Z ->
  exists l, linspace start stop num = Ok l /\ List.length l = Z.to_nat num.
Proof.
  intro H. unfold linspace.
  destruct (num <? 0)%Z eqn:E; [lia|].
  eexists. split; [reflexivity|].
  destruct (1 <? num)%Z; destruct (0 <? num - 1)%Z;
    rewrite ?set_last_length, !length_map, py_range_length; reflexivity.
Qed.

Lemma linspace_single (start stop : Q) :
  exists m, linspace start stop 1 = Ok [m] /\ m == start.
Proof.
  eexists. split; [reflexivity|]. cbn. ring.
Qed.

Lemma linspace_nth (start stop : Q) (n : Z) (l : list Q) (i : nat) :
  (1 <= n)%Z -> linspace start stop (n + 1) = Ok l ->
  (i <= Z.to_nat n)%nat ->
  nth i l 0 == start + inject_Z (Z.of_nat i) * ((stop - start) / inject_Z n).
Proof.
  intros Hn Hl Hi. unfold linspace in Hl.
  destruct (n + 1 <? 0)%Z eqn:E; [lia|].
  replace (n + 1 - 1)%Z with n in Hl by lia.
  destruct (0 <? n)%Z eqn:E1; [|lia].
  destruct (1 <? n + 1)%Z eqn:E2; [|lia].
  injection Hl as <-.
  assert (Hnz : ~ inject_Z n == 0).
  { change 0 with (inject_Z 0). rewrite inject_Z_injective. lia. }
  rewrite set_last_nth
    by (rewrite !length_map, py_range_length; lia).
  rewrite !length_map, py_range_length.
  destruct (S i =? Z.to_nat (n + 1))%nat eqn:E3.
  - apply Nat.eqb_eq in E3.
    assert (Z.of_nat i = n) as -> by lia.
    field. exact Hnz.
  - apply Nat.eqb_neq in E3.
    rewrite (map_nth_in _ _ _ 0)
      by (rewrite !length_map, py_range_length; lia).
    rewrite (map_nth_in _ _ _ 0)
      by (rewrite !length_map, py_range_length; lia).
    rewrite (map_nth_in _ _ _ 0%Z) by (rewrite py_range_length; lia).
    rewrite py_range_nth by lia. ring.
Qed.

(** ** The profile: [get_actual_and_forecast] *)

Lemma clip_min0_max (v : Q) : clip_min0 v == Qmax 0 v.
Proof.
  unfold clip_min0.
  destruct (Q.max_spec 0 v) as [[A B]|[A B]]; rewrite B; qcases; lra.
Qed.

Lemma clip_min0_nonneg (v : Q) : 0 <= clip_min0 v.
Proof. unfold clip_min0. qcases; lra. Qed.

Lemma uncertainty_ramp_first (hz : Z) : uncertainty_ramp hz 0 == 1#2.
Proof. unfold uncertainty_ramp. cbn [Z.of_nat]. ring. Qed.

Lemma uncertainty_ramp_last (hz : Z) :
  (1 <= hz)%Z -> uncertainty_ramp hz (Z.to_nat hz) == 3.
Proof.
  intro H. unfold uncertainty_ramp. rewrite Z2Nat.id by lia.
  field. change 0 with (inject_Z 0). rewrite inject_Z_injective. lia.
Qed.

Lemma ramp_slope_nonneg (hz : Z) :
  (1 <= hz)%Z -> 0 <= (3 - (1#2)) / inject_Z hz.
Proof.
  intro H. apply Qle_shift_div_l.
  - change 0 with (inject_Z 0). rewrite <- Zlt_Qlt. lia.
  - lra.
Qed.

Lemma uncertainty_ramp_step (hz : Z) (i : nat) :
  uncertainty_ramp hz (S i)
  == uncertainty_ramp hz i + (3 - (1#2)) / inject_Z hz.
Proof. unfold uncertainty_ramp. rewrite inject_nat_succ. ring. Qed.

Lemma uncertainty_ramp_lower (hz : Z) (i : nat) :
  (1 <= hz)%Z -> 1#2 <= uncertainty_ramp hz i.
Proof.
  intro H. induction i as [|i IH].
  - rewrite uncertainty_ramp_first. lra.
  - rewrite uncertainty_ramp_step. pose proof (ramp_slope_nonneg hz H). lra.
Qed.

Lemma profile_at_in (p : StochasticProfile) (hour : Z) :
  List.length (base_profile p) = 24%nat ->
  In (profile_at p hour) (base_profile p).
Proof.
  intro H. unfold profile_at. apply nth_In.
  pose proof (Z.mod_pos_bound hour 24). lia.
Qed.

Lemma trend_and_std_spec (p : StochasticProfile) (h hz : Z) :
  List.length (base_profile p) = 24%nat -> (1 <= hz)%Z ->
  exists trend std,
    trend_and_std p h hz = Ok (trend, std) /\
    List.length trend = S (Z.to_nat hz) /\
    List.length std = S (Z.to_nat hz) /\
    (forall i, (i <= Z.to_nat hz)%nat ->
       nth i trend 0 = profile_at p (h + Z.of_nat i)) /\
    (forall i, (i <= Z.to_nat hz)%nat ->
       nth i std 0
       == noise_volatility p * nth i trend 0 * uncertainty_ramp hz i).
Proof.
  intros Hlen Hhz. unfold trend_and_std.
  rewrite np_take_in_range.
  2:{ intros i Hi. apply in_map_iff in Hi. destruct Hi as (k & <- & _).
      rewrite Hlen. pose proof (Z.mod_pos_bound (h + k) 24). lia. }
  destruct (linspace_length (1#2) 3 (hz + 1)) as (ls & Hls & Hlsn); [lia|].
  rewrite Hls.
  assert (Hn : Z.to_nat (hz + 1) = S (Z.to_nat hz)) by lia.
  rewrite Hn in Hlsn.
  eexists. eexists. split; [reflexivity|].
  assert (Htl : forall f : Z -> Q,
             List.length (map f (map (fun i => ((h + i) mod 24)%Z)
                                     (py_range (hz + 1))))
             = S (Z.to_nat hz)).
  { intro f. now rewrite !length_map, py_range_length. }
  assert (Hnth : forall i, (i <= Z.to_nat hz)%nat ->
             nth i (map (fun i => nth (Z.to_nat i) (base_profile p) 0)
                        (map (fun i => ((h + i) mod 24)%Z)
                             (py_range (hz + 1)))) 0
             = profile_at p (h + Z.of_nat i)).
  { intros i Hi.
    rewrite (map_nth_in _ _ _ 0%Z)
      by (rewrite length_map, py_range_length; lia).
    rewrite (map_nth_in _ _ _ 0%Z) by (rewrite py_range_length; lia).
    rewrite py_range_nth by lia. reflexivity. }
  split; [apply Htl|].
  split.
  { rewrite map2_length, length_map, Htl, Hlsn. apply Nat.min_id. }
  split; [exact Hnth|].
  intros i Hi.
  rewrite (map2_nth _ _ _ _ 0 0)
    by (rewrite ?length_map, ?py_range_length; lia).
  rewrite (map_nth_in _ _ _ 0) by (rewrite Htl; lia).
  rewrite (linspace_nth _ _ _ _ i Hhz Hls Hi).
  reflexivity.
Qed.

Section ProfileFacts.

Variable G : Type.
Variable standard_normal : G -> Q * G.

Lemma normal_draws_length (n : nat) (g : G) :
  List.length (fst (normal_draws standard_normal n g)) = n.
Proof.
  revert g. induction n as [|n IH]; intro g; cbn [normal_draws].
  - reflexivity.
  - destruct (standard_normal g) as [z g1]. specialize (IH g1).
    destruct (normal_draws standard_normal n g1) as [zs g2].
    cbn in *. now rewrite IH.
Qed.

Lemma draw_normal_draws (loc : Q) (scale : list Q) (g : G) :
  draw_normal standard_normal loc scale g
  = (map2 (fun s z => loc + s * z) scale
          (fst (normal_draws standard_normal (List.length scale) g)),
     snd (normal_draws standard_normal (List.length scale) g)).
Proof.
  revert g. induction scale as [|s rest IH]; intro g;
    cbn [draw_normal normal_draws List.length].
  - reflexivity.
  - destruct (standard_normal g) as [z g1]. rewrite (IH g1).
    destruct (normal_draws standard_normal (List.length rest) g1)
      as [zs g2].
    reflexivity.
Qed.

Lemma rng_normal_nonneg (loc : Q) (scale : list Q) (signbits : list bool)
    (g : G) :
  (forall s, In s scale -> 0 <= s) ->
  (forall b, In b signbits -> b = false) ->
  rng_normal standard_normal loc scale signbits g
  = (Ok (fst (draw_normal standard_normal loc scale g)),
     snd (draw_normal standard_normal loc scale g)).
Proof.
  intros H Hb. unfold rng_normal.
  destruct (existsb (fun s => s <? 0) scale) eqn:E.
  { apply existsb_exists in E. destruct E as (s & Hs & Hneg).
    apply Qltb_lt in Hneg. specialize (H s Hs). lra. }
  destruct (existsb (fun b => b) signbits) eqn:E'.
  { apply existsb_exists in E'. destruct E' as (b & Hin & Hset).
    rewrite (Hb b Hin) in Hset. discriminate. }
  now destruct (draw_normal standard_normal loc scale g).
Qed.

Lemma rng_normal_signbit (loc : Q) (scale : list Q) (signbits : list bool)
    (g : G) :
  In true signbits ->
  rng_normal standard_normal loc scale signbits g = (Raise ValueError, g).
Proof.
  intro H. unfold rng_normal.
  replace (existsb (fun b => b) signbits) with true;
    [now rewrite orb_true_r|].
  symmetry. apply existsb_exists. now exists true.
Qed.

Lemma same_signbit_product (v x : Q) :
  xorb (signbit v) (signbit x) = false -> 0 <= v * x.
Proof.
  unfold signbit. intro H.
  qcase v 0; qcase x 0; try discriminate H.
  - setoid_replace (v * x) with ((- v) * (- x)) by ring.
    apply Qmult_le_0_compat; lra.
  - apply Qmult_le_0_compat; assumption.
Qed.

Lemma std_signbits_clear (v : Q) (trend : list Q) :
  (forall t, In t trend -> xorb (signbit v) (signbit t) = false) ->
  forall b, In b (std_signbits v trend) -> b = false.
Proof.
  intros H b Hb. unfold std_signbits in Hb.
  apply in_map_iff in Hb. destruct Hb as (t & <- & Ht). now apply H.
Qed.

(** The array [values] of [get_actual_and_forecast], from the trend,
    the scales and the draws. *)
Lemma get_actual_and_forecast_values
    (p : StochasticProfile) (h hz : Z) (g : G) (trend std : list Q) (n : nat) :
  trend_and_std p h hz = Ok (trend, std) ->
  List.length trend = S n -> List.length std = S n ->
  (forall s, In s std -> 0 <= s) ->
  (forall t, In t trend ->
     xorb (signbit (noise_volatility p)) (signbit t) = false) ->
  exists actual forecast,
    get_actual_and_forecast standard_normal p h hz g
    = (Ok (actual, forecast),
       snd (normal_draws standard_normal (S n) g)) /\
    List.length forecast = n /\
    forall i, (i <= n)%nat ->
      nth i (actual :: forecast) 0
      = clip_min0
          (nth i trend 0
           + (0 + nth i std 0
                  * nth i (fst (normal_draws standard_normal (S n) g)) 0)).
Proof.
  intros Hts Ht Hs Hpos Hbits.
  unfold get_actual_and_forecast, bind, lift. rewrite Hts.
  cbv beta iota zeta.
  rewrite (rng_normal_nonneg _ _ _ _ Hpos (std_signbits_clear _ _ Hbits)),
    draw_normal_draws, Hs.
  cbn [fst snd].
  set (zs := fst (normal_draws standard_normal (S n) g)).
  assert (Hz : List.length zs = S n) by apply normal_draws_length.
  set (noise := map2 (fun s z => 0 + s * z) std zs).
  assert (Hn : List.length noise = S n).
  { unfold noise. rewrite map2_length, Hs, Hz. apply Nat.min_id. }
  set (values := map clip_min0 (map2 Qplus trend noise)).
  assert (Hv : List.length values = S n).
  { unfold values. rewrite length_map, map2_length, Ht, Hn.
    apply Nat.min_id. }
  assert (Hnth : forall i, (i <= n)%nat ->
             nth i values 0
             = clip_min0 (nth i trend 0
                          + (0 + nth i std 0 * nth i zs 0))).
  { intros i Hi. unfold values.
    rewrite (map_nth_in _ _ _ 0) by (rewrite map2_length, Ht, Hn; lia).
    rewrite (map2_nth _ _ _ _ 0 0) by lia.
    unfold noise. rewrite (map2_nth _ _ _ _ 0 0) by lia.
    reflexivity. }
  destruct values as [|actual forecast]; [discriminate|].
  exists actual, forecast. split; [reflexivity|].
  split; [cbn in Hv; lia | exact Hnth].
Qed.

Lemma std_nonneg (p : StochasticProfile) (h hz : Z) (trend std : list Q) :
  List.length (base_profile p) = 24%nat -> (1 <= hz)%Z ->
  (forall x, In x (base_profile p) ->
     xorb (signbit (noise_volatility p)) (signbit x) = false) ->
  List.length std = S (Z.to_nat hz) ->
  (forall i, (i <= Z.to_nat hz)%nat ->
     nth i trend 0 = profile_at p (h + Z.of_nat i)) ->
  (forall i, (i <= Z.to_nat hz)%nat ->
     nth i std 0
     == noise_volatility p * nth i trend 0 * uncertainty_ramp hz i) ->
  forall s, In s std -> 0 <= s.
Proof.
  intros Hlen Hhz Hsign Hs Ht Hstd s Hin.
  destruct (In_nth _ _ 0 Hin) as (i & Hi & <-).
  rewrite Hstd by lia. rewrite Ht by lia.
  apply Qmult_le_0_compat.
  - apply same_signbit_product, Hsign, profile_at_in, Hlen.
  - pose proof (uncertainty_ramp_lower hz i Hhz). lra.
Qed.

Lemma trend_signbits (p : StochasticProfile) (h hz : Z) (trend : list Q) :
  List.length (base_profile p) = 24%nat ->
  (forall x, In x (base_profile p) ->
     xorb (signbit (noise_volatility p)) (signbit x) = false) ->
  List.length trend = S (Z.to_nat hz) ->
  (forall i, (i <= Z.to_nat hz)%nat ->
     nth i trend 0 = profile_at p (h + Z.of_nat i)) ->
  forall t, In t trend ->
    xorb (signbit (noise_volatility p)) (signbit t) = false.
Proof.
  intros Hlen Hsign Hl Ht t Hin.
  destruct (In_nth _ _ 0 Hin) as (i & Hi & <-). rewrite Hl in Hi.
  rewrite Ht by lia. apply Hsign, profile_at_in, Hlen.
Qed.

(** C4 (amended): take a profile of 24 entries and a horizon >= 1.
    When volatility * trend never has its sign bit set (it is neither
    negative nor -0.0), [get_actual_and_forecast] returns; the trend at
    offset i is the base profile at hour (current_hour + i) mod 24, for
    i = 0..horizon; the multiplier is the linear ramp with 1/2 at offset
    0 and 3 at offset horizon; the noise at offset i is 0 + std_i * z_i
    for the i-th standard normal draw z_i, with std_i = volatility *
    trend_i * multiplier_i; each value is max(0, trend_i + noise_i),
    hence >= 0; the value at offset 0 is the actual value and the other
    [horizon] values are the forecast; for a flat trend the standard
    deviation does not decrease with the offset.  When volatility *
    trend has its sign bit set at some offset, the call raises
    [ValueError] and draws nothing. *)
Theorem get_actual_and_forecast_spec
    (p : StochasticProfile) (h hz : Z) (g : G) :
  List.length (base_profile p) = 24%nat ->
  (1 <= hz)%Z ->
  ((forall x, In x (base_profile p) ->
      xorb (signbit (noise_volatility p)) (signbit x) = false) ->
   exists trend std actual forecast,
     let zs := fst (normal_draws standard_normal (S (Z.to_nat hz)) g) in
     let g' := snd (normal_draws standard_normal (S (Z.to_nat hz)) g) in
     trend_and_std p h hz = Ok (trend, std) /\
     get_actual_and_forecast standard_normal p h hz g
     = (Ok (actual, forecast), g') /\
     List.length forecast = Z.to_nat hz /\
     (forall i, (i <= Z.to_nat hz)%nat ->
        let v := nth i (actual :: forecast) 0 in
        nth i trend 0 = profile_at p (h + Z.of_nat i) /\
        nth i std 0
        == noise_volatility p * nth i trend 0 * uncertainty_ramp hz i /\
        v == Qmax 0 (nth i trend 0 + (0 + nth i std 0 * nth i zs 0)) /\
        0 <= v) /\
     uncertainty_ramp hz 0 == 1#2 /\
     uncertainty_ramp hz (Z.to_nat hz) == 3 /\
     (forall c, (forall x, In x (base_profile p) -> x = c) ->
        forall i, (i < Z.to_nat hz)%nat ->
          nth i std 0 <= nth (S i) std 0))
  /\
  (forall i, (i <= Z.to_nat hz)%nat ->
     xorb (signbit (noise_volatility p))
          (signbit (profile_at p (h + Z.of_nat i))) = true ->
     get_actual_and_forecast standard_normal p h hz g
     = (Raise ValueError, g)).
Proof.
  intros Hlen Hhz.
  destruct (trend_and_std_spec p h hz Hlen Hhz)
    as (trend & std & Hts & Ht & Hs & Htn & Hsn).
  split.
  - intro Hsign.
    pose proof (std_nonneg p h hz trend std Hlen Hhz Hsign Hs Htn Hsn)
      as Hpos.
    pose proof (trend_signbits p h hz trend Hlen Hsign Ht Htn) as Hbits.
    destruct (get_actual_and_forecast_values p h hz g trend std _
                Hts Ht Hs Hpos Hbits)
      as (actual & forecast & Hget & Hfl & Hv).
    exists trend, std, actual, forecast. cbv zeta.
    split; [exact Hts|]. split; [exact Hget|]. split; [exact Hfl|].
    split.
    { intros i Hi. split; [apply Htn, Hi|]. split; [apply Hsn, Hi|].
      rewrite (Hv i Hi).
      split; [apply clip_min0_max|apply clip_min0_nonneg]. }
    split; [apply uncertainty_ramp_first|].
    split; [apply uncertainty_ramp_last, Hhz|].
    intros c Hflat i Hi.
    rewrite (Hsn i), (Hsn (S i)) by lia.
    rewrite (Htn i), (Htn (S i)) by lia.
    rewrite (Hflat _ (profile_at_in p (h + Z.of_nat i) Hlen)).
    rewrite (Hflat _ (profile_at_in p (h + Z.of_nat (S i)) Hlen)).
    rewrite uncertainty_ramp_step.
    assert (A : 0 <= noise_volatility p * c).
    { rewrite <- (Hflat _ (profile_at_in p 0 Hlen)).
      apply same_signbit_product, Hsign, profile_at_in, Hlen. }
    pose proof (ramp_slope_nonneg hz Hhz) as B.
    pose proof (Qmult_le_0_compat _ _ A B) as C.
    lra.
  - intros i Hi Hset.
    unfold get_actual_and_forecast, bind, lift. rewrite Hts.
    cbv beta iota zeta. rewrite rng_normal_signbit; [reflexivity|].
    unfold std_signbits. apply in_map_iff.
    exists (nth i trend 0). split.
    + now rewrite (Htn i Hi).
    + apply nth_In. lia.
Qed.

End ProfileFacts.

Lemma get_actual_and_forecast_spec_witness :
  (exists trend std actual forecast,
     let p := mkProfile wind_profile (25#100) in
     let zs := fst (normal_draws toy_standard_normal (S (Z.to_nat 12)) 5%Z) in
     let g' := snd (normal_draws toy_standard_normal (S (Z.to_nat 12)) 5%Z) in
     trend_and_std p 20 12 = Ok (trend, std) /\
     get_actual_and_forecast toy_standard_normal p 20 12 5%Z
     = (Ok (actual, forecast), g') /\
     List.length forecast = Z.to_nat 12 /\
     (forall i, (i <= Z.to_nat 12)%nat ->
        let v := nth i (actual :: forecast) 0 in
        nth i trend 0 = profile_at p (20 + Z.of_nat i) /\
        nth i std 0
        == noise_volatility p * nth i trend 0 * uncertainty_ramp 12 i /\
        v == Qmax 0 (nth i trend 0 + (0 + nth i std 0 * nth i zs 0)) /\
        0 <= v) /\
     uncertainty_ramp 12 0 == 1#2 /\
     uncertainty_ramp 12 (Z.to_nat 12) == 3 /\
     (forall c, (forall x, In x (base_profile p) -> x = c) ->
        forall i, (i < Z.to_nat 12)%nat ->
          nth i std 0 <= nth (S i) std 0))
  /\
  get_actual_and_forecast toy_standard_normal
    (mkProfile solar_profile (- (15#100))) 18 5 5%Z
  = (Raise ValueError, 5%Z).
Proof.
  split.
  - apply (proj1 (get_actual_and_forecast_spec toy_rng toy_standard_normal
                    (mkProfile wind_profile (25#100)) 20 12 5%Z
                    eq_refl ltac:(lia))).
    intros x Hx. apply repeat_spec in Hx. subst x. reflexivity.
  - apply (proj2 (get_actual_and_forecast_spec toy_rng toy_standard_normal
                    (mkProfile solar_profile (- (15#100))) 18 5 5%Z
                    eq_refl ltac:(lia)) 0%nat).
    + cbn. lia.
    + reflexivity.
Defined.

(** C4 (as stated, refuted): with horizon 0 the multiplier at offset
    [horizon] is 1/2, not 3: the standard deviation handed to the random
    source is volatility * trend * 1/2.  With a negative volatility the
    standard deviation of a flat profile decreases with the offset, and
    the call raises instead of returning. *)
Lemma horizon_zero_multiplier :
  (let p := mkProfile wind_profile (25#100) in
   exists trend std,
     trend_and_std p 0 0 = Ok ([trend], [std]) /\
     std == noise_volatility p * trend * (1#2) /\
     ~ std == noise_volatility p * trend * 3)
  /\
  (let p := mkProfile wind_profile (- (25#100)) in
   exists trend s0 s1 s2,
     trend_and_std p 0 2 = Ok (trend, [s0; s1; s2]) /\
     s1 < s0 /\
     fst (get_actual_and_forecast toy_standard_normal p 0 2 0%Z)
     = Raise ValueError).
Proof.
  split.
  - cbv zeta. eexists. eexists. split; [reflexivity|].
    split; [vm_compute; reflexivity|]. vm_compute. discriminate.
  - cbv zeta. do 4 eexists. split; [reflexivity|].
    split; vm_compute; reflexivity.
Qed.

(** ** The environment: what [step] leaves untouched *)

Section Frame.

Variable G : Type.
Variable standard_normal : G -> Q * G.
Variable float32 : Q -> Q.

Lemma keeps_bind {A B} (m : Env G A) (k : A -> Env G B) :
  keeps m -> (forall a, keeps (k a)) -> keeps (bind m k).
Proof.
  intros Hm Hk s. unfold bind. specialize (Hm s).
  destruct (m s) as [[a|e] s1]; cbn [snd] in *.
  - now rewrite Hk.
  - exact Hm.
Qed.

Lemma keeps_ret {A} (a : A) : keeps (G:=G) (ret a).
Proof. intro s. reflexivity. Qed.

Lemma keeps_raise {A} (e : exn) : keeps (G:=G) (A:=A) (raise e).
Proof. intro s. reflexivity. Qed.

Lemma keeps_lift {A} (r : result A) : keeps (G:=G) (lift r).
Proof. intro s. reflexivity. Qed.

Lemma keeps_attr {A} (f : SmartGridEnv G -> option A) : keeps (attr f).
Proof. intro s. unfold attr. now destruct (f s). Qed.

Lemma keeps_get {A} (f : SmartGridEnv G -> A) : keeps (get f).
Proof. intro s. reflexivity. Qed.

Lemma keeps_set_current_step (v : Z) : keeps (G:=G) (set_current_step v).
Proof. intro s. reflexivity. Qed.

Lemma keeps_set_current_weather (w : Weather) :
  keeps (G:=G) (set_current_weather w).
Proof. intro s. reflexivity. Qed.

Lemma replace_nth_static {A B} (f : A -> B) (l : list A) (n : nat) (a d : A) :
  f a = f (nth n l d) -> (n < List.length l)%nat ->
  map f (replace_nth l n a) = map f l.
Proof.
  revert n. induction l as [|h t IH]; intros n Hf Hn; cbn in Hn; [lia|].
  destruct n as [|n]; cbn in *.
  - now rewrite Hf.
  - f_equal. apply IH; [exact Hf|lia].
Qed.

Lemma py_index_store_static {A B} (f : A -> B) (l : list A) (i : Z) (a b : A) :
  py_index l i = Ok a -> f b = f a -> map f (py_store l i b) = map f l.
Proof.
  unfold py_index, py_store. intros H Hf.
  set (j := if (i <? 0)%Z then (Z.of_nat (List.length l) + i)%Z else i) in *.
  destruct ((0 <=? j)%Z && (j <? Z.of_nat (List.length l))%Z) eqn:E;
    [|discriminate].
  apply andb_true_iff in E. destruct E as [E1 E2].
  destruct (nth_error l (Z.to_nat j)) eqn:N; [|discriminate].
  injection H as ->.
  apply (replace_nth_static f l _ b a); [|lia].
  now rewrite (nth_error_nth _ _ a N).
Qed.

Lemma keeps_grid_step_plant (i : Z) (target : PowerPlant -> result Q) :
  keeps (G:=G) (grid_step_plant i target).
Proof.
  intro s. unfold grid_step_plant, bind, attr, lift.
  destruct (grid s) as [g|] eqn:Hg; [|reflexivity].
  destruct (py_index (plants g) i) as [plant|e] eqn:Hp; [|reflexivity].
  destruct (target plant) as [t|e]; [|reflexivity].
  cbn. unfold static_config. cbn. rewrite Hg. cbn.
  unfold grid_static at 1. cbn [plants consumers].
  now rewrite (py_index_store_static plant_static _ _ _ _ Hp).
Qed.

Lemma keeps_grid_update_load (i : Z) (new_load : Q) :
  keeps (G:=G) (grid_update_load i new_load).
Proof.
  intro s. unfold grid_update_load, bind, attr, lift.
  destruct (grid s) as [g|] eqn:Hg; [|reflexivity].
  destruct (py_index (consumers g) i) as [c|e] eqn:Hc; [|reflexivity].
  cbn. unfold static_config. cbn. rewrite Hg. cbn.
  unfold grid_static at 1. cbn [plants consumers].
  now rewrite (py_index_store_static consumer_static _ _ _ _ Hc).
Qed.

Lemma on_rng_profiles {A} (m : M G A) (e : StochasticEngine G) :
  engine_static (snd (on_rng m e)) = engine_static e.
Proof. unfold on_rng. now destruct (m (rng e)). Qed.

Lemma step_weather_and_demand_profiles (h hz : Z) (e : StochasticEngine G) :
  engine_static (snd (step_weather_and_demand standard_normal h hz e))
  = engine_static e.
Proof.
  unfold step_weather_and_demand, bind, on_rng, ret.
  destruct (get_actual_and_forecast standard_normal (demand e) h hz (rng e))
    as [[[ad fd]|x] g1]; [|reflexivity].
  cbn [rng].
  destruct (get_actual_and_forecast standard_normal (solar e) h hz g1)
    as [[[asol fs]|x] g2]; [|reflexivity].
  cbn [rng].
  destruct (get_actual_and_forecast standard_normal (wind e) h hz g2)
    as [[[aw fw]|x] g3]; reflexivity.
Qed.

Lemma keeps_engine_step (h hz : Z) :
  keeps (engine_step standard_normal h hz).
Proof.
  intro s. unfold engine_step, bind, attr, lift.
  destruct (engine s) as [e|] eqn:He; [|reflexivity].
  pose proof (step_weather_and_demand_profiles h hz e) as P.
  cbv zeta.
  destruct (step_weather_and_demand standard_normal h hz e) as [r e'].
  cbn [snd fst] in *. unfold set_engine.
  assert (H : static_config
                (mkEnv (render_mode s) (num_controllable_plants s)
                       (forecast_horizon s) (max_steps s) (current_step s)
                       (Some e') (grid s) (solar_capacity s)
                       (wind_capacity s) (city_base_load s)
                       (current_weather s))
              = static_config s).
  { unfold static_config. cbn. now rewrite He, P. }
  destruct r; exact H.
Qed.

Create HintDb keeps discriminated.
Hint Resolve keeps_ret keeps_raise keeps_lift keeps_attr keeps_get
  keeps_set_current_step keeps_set_current_weather keeps_grid_step_plant
  keeps_grid_update_load keeps_engine_step : keeps.

Ltac keeps_chain :=
  repeat first
    [ solve [auto with keeps]
    | apply keeps_bind
    | intros [? ?]
    | intro ].

Lemma keeps_apply_actions (action : list Q) (indexes : list Z)
    (totals : Q * Q) :
  keeps (G:=G) (apply_actions action indexes totals).
Proof.
  revert totals.
  induction indexes as [|i rest IH]; intro totals; cbn [apply_actions].
  - apply keeps_ret.
  - apply keeps_bind; [apply keeps_grid_step_plant|].
    intro costs. apply IH.
Qed.

Lemma keeps_update_stochastic_elements :
  keeps (G:=G) _update_stochastic_elements.
Proof. unfold _update_stochastic_elements. keeps_chain. Qed.

Lemma keeps_get_obs : keeps (G:=G) (_get_obs float32).
Proof. unfold _get_obs. keeps_chain. Qed.

Lemma keeps_get_info : keeps (G:=G) _get_info.
Proof. unfold _get_info. keeps_chain. Qed.

Hint Resolve keeps_apply_actions keeps_update_stochastic_elements
  keeps_get_obs keeps_get_info : keeps.

Lemma keeps_step (action : list Q) :
  keeps (step standard_normal float32 action).
Proof. unfold step. keeps_chain. Qed.

End Frame.

(** ** The environment during an episode *)

Lemma bind_ok_eq {S A B} (m : M S A) (k : A -> M S B) (s s' : S) (a : A) r :
  m s = (Ok a, s') -> k a s' = r -> bind m k s = r.
Proof. intros H <-. unfold bind. now rewrite H. Qed.

Lemma bind_raise_eq {S A B} (m : M S A) (k : A -> M S B) (s s' : S) (e : exn) :
  m s = (Raise e, s') -> bind m k s = (Raise e, s').
Proof. intro H. unfold bind. now rewrite H. Qed.

Lemma py_index_nat {A} (l : list A) (k : nat) :
  py_index l (Z.of_nat k)
  = match nth_error l k with Some a => Ok a | None => Raise IndexError end.
Proof.
  destruct (nth_error l k) eqn:N.
  - rewrite (py_index_in_range l _ a).
    + rewrite Nat2Z.id. now rewrite (nth_error_nth _ _ a N).
    + assert (k < List.length l)%nat by (apply nth_error_Some; congruence).
      lia.
  - apply py_index_beyond. apply nth_error_None in N. lia.
Qed.

Lemma action_target_nat (action : list Q) (k : nat) (plant : PowerPlant) :
  action_target action (Z.of_nat k) plant
  = match nth_error action k with
    | Some a => Ok (a * p_max plant)
    | None => Raise IndexError
    end.
Proof.
  unfold action_target. rewrite py_index_nat.
  now destruct (nth_error action k).
Qed.

Lemma sign_by_forallb (v : Q) (l : list Q) :
  forallb (fun x => negb (xorb (signbit v) (signbit x))) l = true ->
  forall x, In x l -> xorb (signbit v) (signbit x) = false.
Proof.
  intros H x Hx. rewrite forallb_forall in H.
  apply negb_true_iff, H, Hx.
Qed.

Section Episode.

Variable G : Type.
Variable default_rng : Z -> G.
Variable standard_normal : G -> Q * G.
Variable float32 : Q -> Q.

Lemma get_actual_and_forecast_returns
    (p : StochasticProfile) (h hz : Z) (g : G) :
  List.length (base_profile p) = 24%nat -> (1 <= hz)%Z ->
  forallb (fun x => negb (xorb (signbit (noise_volatility p)) (signbit x)))
          (base_profile p)
  = true ->
  exists actual forecast,
    get_actual_and_forecast standard_normal p h hz g
    = (Ok (actual, forecast),
       snd (normal_draws standard_normal (S (Z.to_nat hz)) g)) /\
    List.length forecast = Z.to_nat hz /\
    0 <= actual.
Proof.
  intros Hlen Hhz Hsign.
  destruct (trend_and_std_spec p h hz Hlen Hhz)
    as (trend & std & Hts & Ht & Hs & Htn & Hsn).
  pose proof (std_nonneg p h hz trend std Hlen Hhz
                (sign_by_forallb _ _ Hsign) Hs Htn Hsn) as Hpos.
  pose proof (trend_signbits p h hz trend Hlen
                (sign_by_forallb _ _ Hsign) Ht Htn) as Hbits.
  destruct (get_actual_and_forecast_values G standard_normal p h hz g
              trend std _ Hts Ht Hs Hpos Hbits)
    as (actual & forecast & Hget & Hfl & Hv).
  exists actual, forecast. split; [exact Hget|].
  split; [exact Hfl|].
  specialize (Hv 0%nat (Nat.le_0_l _)). cbn [nth] in Hv. rewrite Hv.
  apply clip_min0_nonneg.
Qed.

(** One turn of weather in the scenario: the call returns, and the 39
    standard normal draws it consumes go, in this order, 13 to the
    demand profile, 13 to the solar profile and 13 to the wind
    profile. *)
Lemma step_weather_and_demand_scenario (h : Z) (g : G) :
  let g1 := snd (normal_draws standard_normal 13 g) in
  let g2 := snd (normal_draws standard_normal 13 g1) in
  let g3 := snd (normal_draws standard_normal 13 g2) in
  exists w,
    step_weather_and_demand standard_normal h 12 (scenario_engine g)
    = (Ok w, scenario_engine g3) /\
    get_actual_and_forecast standard_normal
      (mkProfile demand_profile (5#100)) h 12 g
    = (Ok (actual_demand w, forecast_demand w), g1) /\
    get_actual_and_forecast standard_normal
      (mkProfile solar_profile (15#100)) h 12 g1
    = (Ok (actual_solar w, forecast_solar w), g2) /\
    get_actual_and_forecast standard_normal
      (mkProfile wind_profile (25#100)) h 12 g2
    = (Ok (actual_wind w, forecast_wind w), g3) /\
    0 <= actual_demand w /\ 0 <= actual_solar w /\ 0 <= actual_wind w /\
    List.length (forecast_demand w) = 12%nat /\
    List.length (forecast_solar w) = 12%nat /\
    List.length (forecast_wind w) = 12%nat.
Proof.
  intros g1 g2 g3.
  unfold step_weather_and_demand, bind, on_rng, scenario_engine.
  cbn [rng demand solar wind].
  destruct (get_actual_and_forecast_returns
              (mkProfile demand_profile (5#100)) h 12 g)
    as (a1 & f1 & H1 & L1 & N1); [reflexivity|lia|reflexivity|].
  change (S (Z.to_nat 12)) with 13%nat in H1. fold g1 in H1.
  rewrite H1. cbv beta iota zeta. cbn [rng demand solar wind].
  destruct (get_actual_and_forecast_returns
              (mkProfile solar_profile (15#100)) h 12 g1)
    as (a2 & f2 & H2 & L2 & N2); [reflexivity|lia|reflexivity|].
  change (S (Z.to_nat 12)) with 13%nat in H2. fold g2 in H2.
  rewrite H2. cbv beta iota zeta. cbn [rng demand solar wind].
  destruct (get_actual_and_forecast_returns
              (mkProfile wind_profile (25#100)) h 12 g2)
    as (a3 & f3 & H3 & L3 & N3); [reflexivity|lia|reflexivity|].
  change (S (Z.to_nat 12)) with 13%nat in H3. fold g3 in H3.
  rewrite H3. cbv beta iota zeta. unfold ret.
  eexists. split; [reflexivity|]. cbn.
  repeat split; assumption.
Qed.

Local Arguments Qplus : simpl never.
Local Arguments Qmult : simpl never.
Local Arguments Qdiv : simpl never.
Local Arguments Qopp : simpl never.
Local Arguments Qminus : simpl never.
Local Arguments step_power : simpl never.
Local Arguments step_balance : simpl never.
Local Arguments step_weather_and_demand : simpl never.
Local Arguments action_target : simpl never.
Local Arguments scale_by : simpl never.
Local Arguments py_sum : simpl never.
Local Arguments reward_of : simpl never.
Local Arguments Z.add : simpl never.
Local Arguments Z.leb : simpl never.
Local Arguments scenario_engine : simpl never.
Local Arguments engine_step : simpl never.
Local Arguments _update_stochastic_elements : simpl never.
Local Arguments _get_obs : simpl never.
Local Arguments _get_info : simpl never.
Local Arguments apply_actions : simpl never.
Local Arguments py_range : simpl never.

Lemma engine_step_explicit h hz rm nc fh ms cs (e : StochasticEngine G)
    g sc wc cbl w0 :
  engine_step standard_normal h hz
              (mkEnv rm nc fh ms cs (Some e) g sc wc cbl w0)
  = (fst (step_weather_and_demand standard_normal h hz e),
     mkEnv rm nc fh ms cs
           (Some (snd (step_weather_and_demand standard_normal h hz e)))
           g sc wc cbl w0).
Proof.
  unfold engine_step, bind, attr, lift, set_engine. cbn.
  destruct (fst (step_weather_and_demand standard_normal h hz e));
    reflexivity.
Qed.

Lemma grid_step_plant_explicit i target plant t rm nc fh ms cs
    (e : option (StochasticEngine G)) g sc wc cbl w0 :
  py_index (plants g) i = Ok plant -> target plant = Ok t ->
  grid_step_plant i target (mkEnv rm nc fh ms cs e (Some g) sc wc cbl w0)
  = (Ok (snd (step_power plant t)),
     mkEnv rm nc fh ms cs e
           (Some (mkGrid (py_store (plants g) i (fst (step_power plant t)))
                         (consumers g)))
           sc wc cbl w0).
Proof.
  intros Hp Ht. unfold grid_step_plant, bind, attr, lift, set_grid, ret.
  cbn. rewrite Hp, Ht. reflexivity.
Qed.

Lemma grid_step_plant_no_target i target plant x rm nc fh ms cs
    (e : option (StochasticEngine G)) g sc wc cbl w0 :
  py_index (plants g) i = Ok plant -> target plant = Raise x ->
  grid_step_plant i target (mkEnv rm nc fh ms cs e (Some g) sc wc cbl w0)
  = (Raise x, mkEnv rm nc fh ms cs e (Some g) sc wc cbl w0).
Proof.
  intros Hp Ht. unfold grid_step_plant, bind, attr, lift, set_grid, ret.
  cbn. rewrite Hp, Ht. reflexivity.
Qed.

(** The loop over the controllable plants, on an action of length 3 or
    more: the entries beyond the third are not read. *)
Lemma apply_actions_three a0 a1 a2 rest totals rm nc fh ms cs
    (e : option (StochasticEngine G)) p0 p1 p2 ps cons sc wc cbl w0 :
  let q0 := step_power p0 (a0 * p_max p0) in
  let q1 := step_power p1 (a1 * p_max p1) in
  let q2 := step_power p2 (a2 * p_max p2) in
  apply_actions (a0 :: a1 :: a2 :: rest) [0; 1; 2]%Z totals
    (mkEnv rm nc fh ms cs e (Some (mkGrid (p0 :: p1 :: p2 :: ps) cons))
           sc wc cbl w0)
  = (Ok (fst totals + fst (snd q0) + fst (snd q1) + fst (snd q2),
         snd totals + snd (snd q0) + snd (snd q1) + snd (snd q2)),
     mkEnv rm nc fh ms cs e
           (Some (mkGrid (fst q0 :: fst q1 :: fst q2 :: ps) cons))
           sc wc cbl w0).
Proof.
  cbv zeta. unfold apply_actions.
  eapply bind_ok_eq.
  { apply (grid_step_plant_explicit 0 _ p0 (a0 * p_max p0));
      [exact (py_index_nat (_ :: _ :: _ :: ps) 0)
      |exact (action_target_nat (a0 :: a1 :: a2 :: rest) 0 _)]. }
  eapply bind_ok_eq.
  { apply (grid_step_plant_explicit 1 _ p1 (a1 * p_max p1));
      [exact (py_index_nat (_ :: _ :: _ :: ps) 1)
      |exact (action_target_nat (a0 :: a1 :: a2 :: rest) 1 _)]. }
  eapply bind_ok_eq.
  { apply (grid_step_plant_explicit 2 _ p2 (a2 * p_max p2));
      [exact (py_index_nat (_ :: _ :: _ :: ps) 2)
      |exact (action_target_nat (a0 :: a1 :: a2 :: rest) 2 _)]. }
  reflexivity.
Qed.

(** On a shorter action the loop raises [IndexError] at the first
    missing entry, the plants before it having been advanced. *)
Lemma apply_actions_short action totals p0 p1 p2 ps cons :
  (List.length action < 3)%nat ->
  exists q0 q1,
    plant_static q0 = plant_static p0 /\
    plant_static q1 = plant_static p1 /\
    forall rm nc fh ms cs (e : option (StochasticEngine G)) sc wc cbl w0,
      apply_actions action [0; 1; 2]%Z totals
        (mkEnv rm nc fh ms cs e (Some (mkGrid (p0 :: p1 :: p2 :: ps) cons))
               sc wc cbl w0)
      = (Raise IndexError,
         mkEnv rm nc fh ms cs e (Some (mkGrid (q0 :: q1 :: p2 :: ps) cons))
               sc wc cbl w0).
Proof.
  intro Hlen. unfold apply_actions.
  destruct action as [|a0 [|a1 [|a2 rest]]]; [| | |cbn in Hlen; lia].
  - exists p0, p1. split; [reflexivity|]. split; [reflexivity|]. intros.
    eapply bind_raise_eq.
    apply (grid_step_plant_no_target 0 _ p0);
      [exact (py_index_nat (_ :: _ :: _ :: ps) 0)
      |exact (action_target_nat [] 0 _)].
  - exists (fst (step_power p0 (a0 * p_max p0))), p1.
    split; [reflexivity|]. split; [reflexivity|]. intros.
    eapply bind_ok_eq.
    { apply (grid_step_plant_explicit 0 _ p0 (a0 * p_max p0));
        [exact (py_index_nat (_ :: _ :: _ :: ps) 0)
        |exact (action_target_nat [a0] 0 _)]. }
    eapply bind_raise_eq.
    apply (grid_step_plant_no_target 1 _ p1);
      [exact (py_index_nat (_ :: _ :: _ :: ps) 1)
      |exact (action_target_nat [a0] 1 _)].
  - exists (fst (step_power p0 (a0 * p_max p0))),
           (fst (step_power p1 (a1 * p_max p1))).
    split; [reflexivity|]. split; [reflexivity|]. intros.
    eapply bind_ok_eq.
    { apply (grid_step_plant_explicit 0 _ p0 (a0 * p_max p0));
        [exact (py_index_nat (_ :: _ :: _ :: ps) 0)
        |exact (action_target_nat [a0; a1] 0 _)]. }
    eapply bind_ok_eq.
    { apply (grid_step_plant_explicit 1 _ p1 (a1 * p_max p1));
        [exact (py_index_nat (_ :: _ :: _ :: ps) 1)
        |exact (action_target_nat [a0; a1] 1 _)]. }
    eapply bind_raise_eq.
    apply (grid_step_plant_no_target 2 _ p2);
      [exact (py_index_nat (_ :: _ :: _ :: ps) 2)
      |exact (action_target_nat [a0; a1] 2 _)].
Qed.

Lemma update_stochastic_elements_explicit rm nc fh ms cs
    (e : option (StochasticEngine G)) p0 p1 p2 p3 p4 c sc wc cbl w :
  _update_stochastic_elements
    (mkEnv rm nc fh ms cs e (Some (mkGrid [p0; p1; p2; p3; p4] [c]))
           (Some sc) (Some wc) (Some cbl) (Some w))
  = (Ok tt,
     mkEnv rm nc fh ms cs e
           (Some (mkGrid [p0; p1; p2;
                          fst (step_power p3 (actual_solar w * sc));
                          fst (step_power p4 (actual_wind w * wc))]
                         [update_load c (actual_demand w * cbl)]))
           (Some sc) (Some wc) (Some cbl) (Some w)).
Proof. reflexivity. Qed.

Lemma get_info_explicit nc fh ms cs
    (e : option (StochasticEngine G)) p0 p1 p2 p3 p4 c sc wc cbl w :
  exists inf, forall rm,
    _get_info
      (mkEnv rm nc fh ms cs e (Some (mkGrid [p0; p1; p2; p3; p4] [c]))
             (Some sc) (Some wc) (Some cbl) (Some w))
    = (Ok inf,
       mkEnv rm nc fh ms cs e (Some (mkGrid [p0; p1; p2; p3; p4] [c]))
             (Some sc) (Some wc) (Some cbl) (Some w)).
Proof. eexists. intro rm. unfold _get_info. cbn. reflexivity. Qed.

Lemma utilizations_ok (ps : list PowerPlant) :
  forallb (fun p => negb (Qeq_bool (p_max p) 0)) ps = true ->
  exists us, utilizations ps = Ok us.
Proof.
  induction ps as [|p ps IH]; intro H; cbn [utilizations].
  - now eexists.
  - cbn [forallb] in H. apply andb_true_iff in H. destruct H as [Hp Hps].
    unfold py_div. apply negb_true_iff in Hp. rewrite Hp.
    destruct (IH Hps) as (us & ->). now eexists.
Qed.

Lemma get_obs_explicit cs (e : option (StochasticEngine G)) g sc wc cbl w :
  forallb (fun p => negb (Qeq_bool (p_max p) 0)) (plants g) = true ->
  exists obs, forall rm,
    _get_obs float32
      (mkEnv rm 3 12 24 (Some cs) e (Some g) sc wc cbl (Some w))
    = (Ok obs, mkEnv rm 3 12 24 (Some cs) e (Some g) sc wc cbl (Some w)).
Proof.
  intro H. destruct (utilizations_ok _ H) as (us & Hus).
  eexists. intro rm.
  unfold _get_obs, bind, attr, lift, get, ret. cbn. rewrite Hus.
  reflexivity.
Qed.

(** One call of [step] during an episode, on an action of length 3 or
    more: it returns, and the environment is again one of the
    scenario. *)
Lemma step_scenario_returns (d : Dynamic G) a0 a1 a2 rest :
  exists w g' obs inf,
    step_weather_and_demand standard_normal (turn d + 1) 12
                            (scenario_engine (gen d))
    = (Ok w, scenario_engine g') /\
    let p0 := step_power (at_output gas_plant (gas_out d)) (a0 * 100) in
    let p1 := step_power (at_output coal_plant (coal_out d)) (a1 * 150) in
    let p2 :=
      step_power (at_output nuclear_plant (nuclear_out d)) (a2 * 300) in
    let p3 :=
      step_power (at_output solar_farm (solar_out d))
                 (actual_solar w * 150) in
    let p4 :=
      step_power (at_output wind_farm (wind_out d))
                 (actual_wind w * 100) in
    let d' :=
      mkDynamic (turn d + 1)%Z g' (dyn (fst p0)) (dyn (fst p1))
                (dyn (fst p2)) (dyn (fst p3)) (dyn (fst p4))
                (actual_demand w * 400) w in
    forall rm,
    step standard_normal float32 (a0 :: a1 :: a2 :: rest)
         (scenario_env rm d)
    = (Ok (mkStepResult
             obs
             (reward_of
                (0 + fst (snd p0) + fst (snd p1) + fst (snd p2))
                (0 + snd (snd p0) + snd (snd p1) + snd (snd p2))
                (step_balance (scenario_grid d')))
             false (24 <=? turn d + 1)%Z inf),
       scenario_env rm d').
Proof.
  destruct (step_weather_and_demand_scenario (turn d + 1) (gen d))
    as (w & Hw & _).
  set (g' := snd (normal_draws standard_normal 13
                    (snd (normal_draws standard_normal 13
                            (snd (normal_draws standard_normal 13
                                    (gen d))))))) in Hw.
  set (p0 := step_power (at_output gas_plant (gas_out d)) (a0 * 100)).
  set (p1 := step_power (at_output coal_plant (coal_out d)) (a1 * 150)).
  set (p2 := step_power (at_output nuclear_plant (nuclear_out d)) (a2 * 300)).
  set (p3 := step_power (at_output solar_farm (solar_out d))
                        (actual_solar w * 150)).
  set (p4 := step_power (at_output wind_farm (wind_out d))
                        (actual_wind w * 100)).
  set (g1 := mkGrid [fst p0; fst p1; fst p2; fst p3; fst p4]
                    [mkConsumer "Main City" 400 (actual_demand w * 400)]).
  destruct (get_info_explicit 3 12 24 (Some (turn d + 1)%Z)
              (Some (scenario_engine g'))
              (fst p0) (fst p1) (fst p2) (fst p3) (fst p4)
              (mkConsumer "Main City" 400 (actual_demand w * 400))
              150 100 400 w) as (inf & Hinf).
  destruct (get_obs_explicit (turn d + 1)%Z (Some (scenario_engine g'))
              g1 (Some 150) (Some 100) (Some 400) w eq_refl)
    as (obs & Hobs).
  exists w, g', obs, (with_blackout inf (is_blackout (step_balance g1))).
  split; [exact Hw|]. cbv zeta. intro rm.
  unfold step, scenario_env, scenario_grid.
  cbn. change (py_range 3) with [0; 1; 2]%Z.
  eapply bind_ok_eq; [apply apply_actions_three|].
  cbn.
  eapply bind_ok_eq; [rewrite engine_step_explicit, Hw; reflexivity|].
  cbn.
  eapply bind_ok_eq; [apply update_stochastic_elements_explicit|].
  cbn.
  eapply bind_ok_eq; [exact (Hinf rm)|].
  eapply bind_ok_eq; [exact (Hobs rm)|].
  reflexivity.
Qed.

Lemma plant_static_at_output (p q : PowerPlant) :
  plant_static q = plant_static p -> q = at_output p (dyn q).
Proof.
  destruct p, q. unfold plant_static, at_output, set_power, dyn. cbn.
  intro H. injection H as -> -> -> -> -> -> ->. reflexivity.
Qed.

(** One call of [step] during an episode, on an action of length below
    3: the turn counter is incremented, the plants are advanced up to
    the missing entry and [IndexError] is raised. *)
Lemma step_scenario_short (d : Dynamic G) action :
  (List.length action < 3)%nat ->
  exists d',
    turn d' = (turn d + 1)%Z /\
    forall rm,
      step standard_normal float32 action (scenario_env rm d)
      = (Raise IndexError, scenario_env rm d').
Proof.
  intro Hlen.
  destruct (apply_actions_short action (0, 0)
              (at_output gas_plant (gas_out d))
              (at_output coal_plant (coal_out d))
              (at_output nuclear_plant (nuclear_out d))
              [at_output solar_farm (solar_out d);
               at_output wind_farm (wind_out d)]
              [mkConsumer "Main City" 400 (city_load d)] Hlen)
    as (q0 & q1 & H0 & H1 & Hap).
  apply plant_static_at_output in H0, H1.
  change (at_output (at_output gas_plant (gas_out d)) (dyn q0))
    with (at_output gas_plant (dyn q0)) in H0.
  change (at_output (at_output coal_plant (coal_out d)) (dyn q1))
    with (at_output coal_plant (dyn q1)) in H1.
  exists (mkDynamic (turn d + 1)%Z (gen d) (dyn q0) (dyn q1) (nuclear_out d)
                    (solar_out d) (wind_out d) (city_load d) (weather d)).
  split; [reflexivity|]. intro rm.
  unfold step, scenario_env, scenario_grid.
  cbn. change (py_range 3) with [0; 1; 2]%Z.
  eapply eq_trans; [eapply bind_raise_eq; apply Hap|].
  rewrite H0 at 1. rewrite H1 at 1. reflexivity.
Qed.

Lemma apply_actions_short_exact action totals p0 p1 p2 ps cons :
  (List.length action < 3)%nat ->
  forall rm nc fh ms cs (e : option (StochasticEngine G)) sc wc cbl w0,
    apply_actions action [0; 1; 2]%Z totals
      (mkEnv rm nc fh ms cs e (Some (mkGrid (p0 :: p1 :: p2 :: ps) cons))
             sc wc cbl w0)
    = (Raise IndexError,
       mkEnv rm nc fh ms cs e
             (Some (mkGrid (advanced action 0 p0 :: advanced action 1 p1
                            :: p2 :: ps) cons))
             sc wc cbl w0).
Proof.
  intro Hlen. unfold apply_actions, advanced.
  destruct action as [|a0 [|a1 [|a2 rest]]]; [| | |cbn in Hlen; lia];
    cbn [nth_error]; intros.
  - eapply bind_raise_eq.
    apply (grid_step_plant_no_target 0 _ p0);
      [exact (py_index_nat (_ :: _ :: _ :: ps) 0)
      |exact (action_target_nat [] 0 _)].
  - eapply bind_ok_eq.
    { apply (grid_step_plant_explicit 0 _ p0 (a0 * p_max p0));
        [exact (py_index_nat (_ :: _ :: _ :: ps) 0)
        |exact (action_target_nat [a0] 0 _)]. }
    eapply bind_raise_eq.
    apply (grid_step_plant_no_target 1 _ p1);
      [exact (py_index_nat (_ :: _ :: _ :: ps) 1)
      |exact (action_target_nat [a0] 1 _)].
  - eapply bind_ok_eq.
    { apply (grid_step_plant_explicit 0 _ p0 (a0 * p_max p0));
        [exact (py_index_nat (_ :: _ :: _ :: ps) 0)
        |exact (action_target_nat [a0; a1] 0 _)]. }
    eapply bind_ok_eq.
    { apply (grid_step_plant_explicit 1 _ p1 (a1 * p_max p1));
        [exact (py_index_nat (_ :: _ :: _ :: ps) 1)
        |exact (action_target_nat [a0; a1] 1 _)]. }
    eapply bind_raise_eq.
    apply (grid_step_plant_no_target 2 _ p2);
      [exact (py_index_nat (_ :: _ :: _ :: ps) 2)
      |exact (action_target_nat [a0; a1] 2 _)].
Qed.

Lemma advanced_at_output (action : list Q) (i : nat) (p : PowerPlant)
    (o : Q * bool) :
  advanced action i (at_output p o)
  = at_output p (dyn (advanced action i (at_output p o))).
Proof.
  unfold advanced. destruct (nth_error action i); [reflexivity|].
  now destruct o.
Qed.

(** The same call, with the state it leaves: the plants that have an
    entry are advanced by [step_power], nothing else has moved and
    nothing was drawn. *)
Lemma step_scenario_short_exact (d : Dynamic G) action :
  (List.length action < 3)%nat ->
  forall rm,
    step standard_normal float32 action (scenario_env rm d)
    = (Raise IndexError,
       scenario_env rm
         (mkDynamic (turn d + 1)%Z (gen d)
            (dyn (advanced action 0 (at_output gas_plant (gas_out d))))
            (dyn (advanced action 1 (at_output coal_plant (coal_out d))))
            (nuclear_out d) (solar_out d) (wind_out d) (city_load d)
            (weather d))).
Proof.
  intros Hlen rm.
  pose proof (apply_actions_short_exact action (0, 0)
                (at_output gas_plant (gas_out d))
                (at_output coal_plant (coal_out d))
                (at_output nuclear_plant (nuclear_out d))
                [at_output solar_farm (solar_out d);
                 at_output wind_farm (wind_out d)]
                [mkConsumer "Main City" 400 (city_load d)] Hlen) as Hap.
  unfold step, scenario_env, scenario_grid.
  cbn. change (py_range 3) with [0; 1; 2]%Z.
  eapply eq_trans; [eapply bind_raise_eq; apply Hap|].
  rewrite (advanced_at_output action 0 gas_plant) at 1.
  rewrite (advanced_at_output action 1 coal_plant) at 1.
  reflexivity.
Qed.

(** [step] on an object that was never reset. *)
Lemma step_before_reset rm action :
  step standard_normal float32 action (new_SmartGridEnv rm)
  = (Raise AttributeError, new_SmartGridEnv (G:=G) rm).
Proof. reflexivity. Qed.

(** [reset] on a non-negative seed, on any constructed object: the
    episode starts in the scenario, at turn 0 with the plants at rest;
    nothing of the previous state of the object is left but its render
    mode. *)
Lemma reset_scenario (seed : Z) :
  (0 <= seed)%Z ->
  exists w g' obs inf,
    step_weather_and_demand standard_normal 0 12
                            (scenario_engine (default_rng seed))
    = (Ok w, scenario_engine g') /\
    let p3 := step_power solar_farm (actual_solar w * 150) in
    let p4 := step_power wind_farm (actual_wind w * 100) in
    let d0 :=
      mkDynamic 0%Z g' (0, false) (0, false) (0, false)
                (dyn (fst p3)) (dyn (fst p4)) (actual_demand w * 400) w in
    forall s : SmartGridEnv G,
      constructed s ->
      reset default_rng standard_normal float32 seed s
      = (Ok (obs, inf), scenario_env (render_mode s) d0).
Proof.
  intro Hseed.
  destruct (step_weather_and_demand_scenario 0 (default_rng seed))
    as (w & Hw & _).
  set (g' := snd (normal_draws standard_normal 13
                    (snd (normal_draws standard_normal 13
                            (snd (normal_draws standard_normal 13
                                    (default_rng seed))))))) in Hw.
  set (p3 := step_power solar_farm (actual_solar w * 150)).
  set (p4 := step_power wind_farm (actual_wind w * 100)).
  set (g1 := mkGrid [gas_plant; coal_plant; nuclear_plant; fst p3; fst p4]
                    [mkConsumer "Main City" 400 (actual_demand w * 400)]).
  destruct (get_info_explicit 3 12 24 (Some 0%Z)
              (Some (scenario_engine g'))
              gas_plant coal_plant nuclear_plant (fst p3) (fst p4)
              (mkConsumer "Main City" 400 (actual_demand w * 400))
              150 100 400 w) as (inf & Hinf).
  destruct (get_obs_explicit 0%Z (Some (scenario_engine g'))
              g1 (Some 150) (Some 100) (Some 400) w eq_refl)
    as (obs & Hobs).
  exists w, g', obs, inf. split; [exact Hw|]. cbv zeta.
  intros [rm nc fh ms cs e g sc wc cbl w0] (Hnc & Hfh & Hms).
  cbn in Hnc, Hfh, Hms. subst nc fh ms.
  unfold reset, gym_reset.
  replace (seed <? 0)%Z with false by (symmetry; apply Z.ltb_ge, Hseed).
  unfold new_StochasticEngine.
  replace (seed <? 0)%Z with false by (symmetry; apply Z.ltb_ge, Hseed).
  change (mkEngine (default_rng seed) (mkProfile demand_profile (5#100))
                   (mkProfile solar_profile (15#100))
                   (mkProfile wind_profile (25#100)))
    with (scenario_engine (default_rng seed)).
  cbn.
  eapply bind_ok_eq; [rewrite engine_step_explicit, Hw; reflexivity|].
  cbn.
  eapply bind_ok_eq; [apply update_stochastic_elements_explicit|].
  eapply bind_ok_eq; [exact (Hobs rm)|].
  eapply bind_ok_eq; [exact (Hinf rm)|].
  reflexivity.
Qed.

Lemma step_scenario_cases (d : Dynamic G) (action : list Q) :
  exists out d',
    turn d' = (turn d + 1)%Z /\
    ((3 <= List.length action)%nat ->
     exists r, out = Ok r /\ terminated r = false /\
               truncated r = (24 <=? turn d + 1)%Z) /\
    ((List.length action < 3)%nat -> out = Raise IndexError) /\
    forall rm,
      step standard_normal float32 action (scenario_env rm d)
      = (out, scenario_env rm d').
Proof.
  destruct (Nat.lt_ge_cases (List.length action) 3) as [Hs|Hl].
  - destruct (step_scenario_short d action Hs) as (d' & Ht & Hstep).
    exists (Raise IndexError), d'. split; [exact Ht|].
    split; [intro; lia|]. split; [reflexivity|exact Hstep].
  - destruct action as [|a0 [|a1 [|a2 rest]]]; try (cbn in Hl; lia).
    destruct (step_scenario_returns d a0 a1 a2 rest)
      as (w & g' & obs & inf & _ & Hstep).
    cbv zeta in Hstep.
    eexists. eexists. split; [|split; [|split; [|exact Hstep]]].
    + reflexivity.
    + intros _. eexists. split; [reflexivity|]. split; reflexivity.
    + intro H. cbn in H. lia.
Qed.

Lemma run_steps_scenario (actions : list (list Q)) (d : Dynamic G) :
  exists evs d',
    turn d' = (turn d + Z.of_nat (List.length actions))%Z /\
    List.length evs = List.length actions /\
    (forall k r, nth_error evs k = Some (Returned r) ->
       terminated r = false /\
       truncated r = (24 <=? turn d + Z.of_nat (S k))%Z) /\
    (forall k a, nth_error actions k = Some a ->
       ((3 <= List.length a)%nat ->
        exists r, nth_error evs k = Some (Returned r)) /\
       ((List.length a < 3)%nat ->
        nth_error evs k = Some (Raised IndexError))) /\
    forall rm,
      run_steps standard_normal float32 actions (scenario_env rm d)
      = (evs, scenario_env rm d').
Proof.
  revert d. induction actions as [|a rest IH]; intro d.
  - exists [], d. split; [cbn; lia|]. split; [reflexivity|].
    split; [intros [|k] r H; discriminate|].
    split; [intros [|k] a H; discriminate|]. reflexivity.
  - destruct (step_scenario_cases d a)
      as (out & d1 & Ht1 & Hret & Hraise & Hstep).
    destruct (IH d1) as (evs & d2 & Ht2 & Hlen & Hev & Hact & Hrun).
    exists ((match out with Ok x => Returned x | Raise e => Raised e end)
            :: evs), d2.
    split; [cbn [List.length]; lia|].
    split; [cbn [List.length]; now rewrite Hlen|].
    split; [|split].
    + intros [|k] r H; cbn [nth_error] in H.
      * destruct out as [x|e]; [|discriminate]. injection H as ->.
        destruct (Nat.lt_ge_cases (List.length a) 3) as [Hs|Hl].
        { specialize (Hraise Hs). discriminate. }
        destruct (Hret Hl) as (r' & Hr' & Hterm & Htrunc).
        injection Hr' as <-. split; [exact Hterm|].
        rewrite Htrunc. f_equal; lia.
      * destruct (Hev k r H) as (Hterm & Htrunc).
        split; [exact Hterm|]. rewrite Htrunc. f_equal; lia.
    + intros [|k] a' H; cbn [nth_error] in H.
      * injection H as <-. split; intro Hl.
        { destruct (Hret Hl) as (r & -> & _). now exists r. }
        { now rewrite (Hraise Hl). }
      * exact (Hact k a' H).
    + intro rm. cbn [run_steps]. rewrite (Hstep rm), (Hrun rm).
      reflexivity.
Qed.

(** C5: two runs of [reset(seed)] followed by the same actions, on two
    constructed objects whatever their history, return the same initial
    observation and info (or raise the same error) and then the same
    observation, reward, flags and info at every call, or the same
    exception; each turn of weather takes its standard normal draws
    from the shared generator in the order demand (the first 13),
    solar (the next 13), wind (the last 13). *)
Theorem run_reproducible :
  (forall (seed : Z) (actions : list (list Q)) (s1 s2 : SmartGridEnv G),
      constructed s1 -> constructed s2 ->
      fst (run default_rng standard_normal float32 seed actions s1)
      = fst (run default_rng standard_normal float32 seed actions s2))
  /\
  (forall (h : Z) (g : G),
      let g1 := snd (normal_draws standard_normal 13 g) in
      let g2 := snd (normal_draws standard_normal 13 g1) in
      let g3 := snd (normal_draws standard_normal 13 g2) in
      exists w,
        step_weather_and_demand standard_normal h 12 (scenario_engine g)
        = (Ok w, scenario_engine g3) /\
        get_actual_and_forecast standard_normal
          (mkProfile demand_profile (5#100)) h 12 g
        = (Ok (actual_demand w, forecast_demand w), g1) /\
        get_actual_and_forecast standard_normal
          (mkProfile solar_profile (15#100)) h 12 g1
        = (Ok (actual_solar w, forecast_solar w), g2) /\
        get_actual_and_forecast standard_normal
          (mkProfile wind_profile (25#100)) h 12 g2
        = (Ok (actual_wind w, forecast_wind w), g3)).
Proof.
  split.
  - intros seed actions s1 s2 H1 H2. unfold run.
    destruct (Z.lt_ge_cases seed 0) as [Hneg|Hpos].
    + assert (Hr : forall s : SmartGridEnv G,
                 reset default_rng standard_normal float32 seed s
                 = (Raise GymError, s)).
      { intro s. unfold reset, gym_reset.
        replace (seed <? 0)%Z with true by (symmetry; apply Z.ltb_lt, Hneg).
        reflexivity. }
      now rewrite !Hr.
    + destruct (reset_scenario seed Hpos)
        as (w & g' & obs & inf & _ & Hreset).
      cbv zeta in Hreset.
      rewrite (Hreset s1 H1), (Hreset s2 H2).
      match goal with
      | |- context [scenario_env (render_mode s1) ?d] =>
          destruct (run_steps_scenario actions d)
            as (evs & d' & _ & _ & _ & _ & Hrun)
      end.
      now rewrite !Hrun.
  - intros h g g1 g2 g3.
    destruct (step_weather_and_demand_scenario h g)
      as (w & Hw & Hd & Hs & Hwi & _).
    exists w. repeat split; assumption.
Qed.

(** C7: after a [reset] (on a non-negative seed) the turn counter
    after n calls of [step] is n, whether the calls returned or raised;
    every call that returns gives terminated = false, and truncated is
    true exactly from the 24th call on; a call with an action of length
    3 or more does return. *)
Theorem episode_turns (seed : Z) (actions : list (list Q))
    (s : SmartGridEnv G) :
  (0 <= seed)%Z -> constructed s ->
  exists x evs s1,
    run default_rng standard_normal float32 seed actions s
    = (Ok x, evs, s1) /\
    current_step s1 = Some (Z.of_nat (List.length actions)) /\
    List.length evs = List.length actions /\
    (forall k r, nth_error evs k = Some (Returned r) ->
       terminated r = false /\
       (truncated r = true <-> (24 <= S k)%nat)) /\
    (forall k a, nth_error actions k = Some a ->
       (3 <= List.length a)%nat ->
       exists r, nth_error evs k = Some (Returned r)).
Proof.
  intros Hseed Hs. unfold run.
  destruct (reset_scenario seed Hseed)
    as (w & g' & obs & inf & _ & Hreset).
  cbv zeta in Hreset. rewrite (Hreset s Hs).
  match goal with
  | |- context [scenario_env (render_mode s) ?d] =>
      destruct (run_steps_scenario actions d)
        as (evs & d' & Ht & Hlen & Hev & Hact & Hrun)
  end.
  rewrite Hrun. cbn [turn] in Ht, Hev.
  exists (obs, inf), evs, (scenario_env (render_mode s) d').
  split; [reflexivity|].
  split; [cbn; f_equal; lia|].
  split; [exact Hlen|].
  split.
  - intros k r H. destruct (Hev k r H) as (Hterm & Htrunc).
    split; [exact Hterm|]. rewrite Htrunc, Z.leb_le. lia.
  - intros k a H Hl. exact (proj1 (Hact k a H) Hl).
Qed.



(** C9 (amended): [step] on an object that was never reset raises
    [AttributeError] and leaves it as it was; during an episode, an
    action of length below 3 raises [IndexError] after the turn counter
    has been incremented and every plant that has an entry has been
    advanced by [step_power] on that entry times its capacity: the
    other plants, the consumers, the weather and the state of the
    random source are as before, and the episode goes on; an action of
    length 3 or more, whatever its entries, returns, and the entries
    after the third are ignored. *)
Theorem step_structural_errors :
  (forall rm action,
      step standard_normal float32 action (new_SmartGridEnv rm)
      = (Raise AttributeError, new_SmartGridEnv (G:=G) rm))
  /\
  (forall (s : SmartGridEnv G) action,
      in_episode s -> (List.length action < 3)%nat ->
      fst (step standard_normal float32 action s) = Raise IndexError /\
      in_episode (snd (step standard_normal float32 action s)) /\
      (exists n,
         current_step s = Some n /\
         current_step (snd (step standard_normal float32 action s))
         = Some (n + 1)%Z) /\
      (exists g g',
         grid s = Some g /\
         grid (snd (step standard_normal float32 action s)) = Some g' /\
         (forall i a p,
             nth_error action i = Some a ->
             nth_error (plants g) i = Some p ->
             nth_error (plants g') i
             = Some (fst (step_power p (a * p_max p)))) /\
         (forall i,
             (List.length action <= i)%nat ->
             nth_error (plants g') i = nth_error (plants g) i) /\
         consumers g' = consumers g) /\
      current_weather (snd (step standard_normal float32 action s))
      = current_weather s /\
      engine (snd (step standard_normal float32 action s)) = engine s)
  /\
  (forall (s : SmartGridEnv G) action,
      in_episode s -> (3 <= List.length action)%nat ->
      (exists r, fst (step standard_normal float32 action s) = Ok r) /\
      in_episode (snd (step standard_normal float32 action s)) /\
      step standard_normal float32 action s
      = step standard_normal float32 (firstn 3 action) s).
Proof.
  split; [|split].
  - intros rm action. reflexivity.
  - intros s action (rm & d & ->) Hlen.
    rewrite (step_scenario_short_exact d action Hlen rm).
    cbn [fst snd].
    split; [reflexivity|].
    split; [now eexists; eexists|].
    split; [exists (turn d); split; reflexivity|].
    split; [|split; reflexivity].
    eexists. eexists. split; [reflexivity|]. split; [reflexivity|].
    unfold scenario_grid.
    cbn [plants consumers gas_out coal_out nuclear_out solar_out wind_out
         city_load].
    rewrite <- (advanced_at_output action 0 gas_plant).
    rewrite <- (advanced_at_output action 1 coal_plant).
    split; [|split; [|reflexivity]].
    + intros i a p Ha Hp.
      assert (Hi : (i < List.length action)%nat)
        by (apply nth_error_Some; congruence).
      destruct i as [|[|i]]; [| |lia]; cbn [nth_error] in Hp |- *;
        injection Hp as <-; unfold advanced; now rewrite Ha.
    + intros i Hi.
      assert (Hn : forall k, (List.length action <= k)%nat ->
                             nth_error action k = None)
        by (intros k Hk; now apply nth_error_None).
      destruct i as [|[|i]]; cbn [nth_error]; unfold advanced;
        try rewrite (Hn _ Hi); reflexivity.
  - intros s action (rm & d & ->) Hlen.
    destruct action as [|a0 [|a1 [|a2 rest]]]; try (cbn in Hlen; lia).
    destruct (step_scenario_returns d a0 a1 a2 rest)
      as (w & g' & obs & inf & _ & Hstep).
    cbv zeta in Hstep. rewrite (Hstep rm). cbn [fst snd].
    split; [now eexists|]. split; [now eexists; eexists|].
    rewrite <- (Hstep rm). cbn [firstn].
    unfold step, scenario_env, scenario_grid.
    cbn. change (py_range 3) with [0; 1; 2]%Z.
    eapply bind_ok_eq; [apply apply_actions_three|].
    symmetry.
    eapply bind_ok_eq; [apply apply_actions_three|].
    reflexivity.
Qed.

(** C10: a call of [step], on any object and any action, whether it
    returns or raises, leaves the static configuration as it was: the
    name, type, capacity, minimum, unit cost, unit emissions and ramp
    rate of every plant and the name and base load of every consumer,
    in the same number and order; the base profile and volatility of
    the three profiles; the attributes set by the constructor and the
    capacities and base load set by [reset]. *)
Theorem step_keeps_static_config (action : list Q) (s : SmartGridEnv G) :
  static_config (snd (step standard_normal float32 action s))
  = static_config s.
Proof. apply keeps_step. Qed.

End Episode.

(** ** The theorems at work on an example generator *)

Lemma run_reproducible_witness :
  fst (run toy_default_rng toy_standard_normal toy_float32 7
           [[1; 1; 1]; [0; 1#2; 1]] (new_SmartGridEnv None))
  = fst (run toy_default_rng toy_standard_normal toy_float32 7
             [[1; 1; 1]; [0; 1#2; 1]] (new_SmartGridEnv (Some "human"%string))).
Proof.
  apply (proj1 (run_reproducible toy_rng toy_default_rng toy_standard_normal
                                 toy_float32));
    repeat split.
Defined.

Lemma episode_turns_witness :
  exists x evs s1,
    run toy_default_rng toy_standard_normal toy_float32 42
        (repeat [1; 1; 1] 24) (new_SmartGridEnv None)
    = (Ok x, evs, s1) /\
    current_step s1 = Some (Z.of_nat (List.length (repeat [1; 1; 1] 24))) /\
    List.length evs = List.length (repeat [1; 1; 1] 24) /\
    (forall k r, nth_error evs k = Some (Returned r) ->
       terminated r = false /\
       (truncated r = true <-> (24 <= S k)%nat)) /\
    (forall k a, nth_error (repeat [1; 1; 1] 24) k = Some a ->
       (3 <= List.length a)%nat ->
       exists r, nth_error evs k = Some (Returned r)).
Proof.
  apply (episode_turns toy_rng toy_default_rng toy_standard_normal
                       toy_float32 42 (repeat [1; 1; 1] 24)
                       (new_SmartGridEnv None)).
  - lia.
  - repeat split.
Defined.


Lemma step_structural_errors_witness :
  let s := scenario_env None example_dynamic in
  (fst (step toy_standard_normal toy_float32 [1; 1] s) = Raise IndexError /\
   in_episode (snd (step toy_standard_normal toy_float32 [1; 1] s)) /\
   (exists n,
      current_step s = Some n /\
      current_step (snd (step toy_standard_normal toy_float32 [1; 1] s))
      = Some (n + 1)%Z) /\
   (exists g g',
      grid s = Some g /\
      grid (snd (step toy_standard_normal toy_float32 [1; 1] s)) = Some g' /\
      (forall i a p,
          nth_error [1; 1] i = Some a ->
          nth_error (plants g) i = Some p ->
          nth_error (plants g') i
          = Some (fst (step_power p (a * p_max p)))) /\
      (forall i,
          (List.length [1; 1] <= i)%nat ->
          nth_error (plants g') i = nth_error (plants g) i) /\
      consumers g' = consumers g) /\
   current_weather (snd (step toy_standard_normal toy_float32 [1; 1] s))
   = current_weather s /\
   engine (snd (step toy_standard_normal toy_float32 [1; 1] s)) = engine s)
  /\
  ((exists r,
       fst (step toy_standard_normal toy_float32 [1; 1; 1; 1] s) = Ok r) /\
   in_episode (snd (step toy_standard_normal toy_float32 [1; 1; 1; 1] s)) /\
   step toy_standard_normal toy_float32 [1; 1; 1; 1] s
   = step toy_standard_normal toy_float32 (firstn 3 [1; 1; 1; 1]) s).
Proof.
  split.
  - apply (proj1 (proj2 (step_structural_errors toy_rng toy_standard_normal
                                                toy_float32))).
    + exists None, example_dynamic. reflexivity.
    + cbn. lia.
  - apply (proj2 (proj2 (step_structural_errors toy_rng toy_standard_normal
                                                toy_float32))).
    + exists None, example_dynamic. reflexivity.
    + cbn. lia.
Defined.

(** C9 (as stated, refuted): after a reset, a call of [step] with an
    action of length 4 does not fail: it returns, like the call with the
    first three entries. *)
Lemma step_accepts_longer_action :
  let s0 :=
    snd (reset toy_default_rng toy_standard_normal toy_float32 42
               (new_SmartGridEnv None)) in
  List.length [1; 0; 1#2; 7] <> 3%nat /\
  exists r,
    fst (step toy_standard_normal toy_float32 [1; 0; 1#2; 7] s0) = Ok r.
Proof.
  cbv zeta. split; [cbn; lia|].
  destruct (reset_scenario toy_rng toy_default_rng toy_standard_normal
              toy_float32 42 ltac:(lia))
    as (w & g' & obs & inf & _ & Hreset).
  cbv zeta in Hreset.
  rewrite (Hreset (new_SmartGridEnv None)) by (repeat split).
  cbn [snd new_SmartGridEnv render_mode].
  match goal with
  | |- context [scenario_env None ?d] =>
      destruct (step_scenario_returns toy_rng toy_standard_normal toy_float32
                  d 1 0 (1#2) [7])
        as (w1 & g1 & obs1 & inf1 & _ & Hstep)
  end.
  cbv zeta in Hstep. rewrite (Hstep None). now eexists.
Qed.

(** * Further properties of the code *)

(** ** The plant: direction, rest and capacity *)

Lemma clamped_target_le_p_max (p : PowerPlant) (t : Q) :
  clamped_target p t <= p_max p.
Proof.
  unfold clamped_target.
  set (x := if (t >? 0) && (t <? p_min p) then 0 else t).
  unfold py_min. qcase (p_max p) x; lra.
Qed.

(** The output after a call lies between the output before it and the
    clamped target. *)
Lemma step_power_between_aux (p : PowerPlant) (c : Q) :
  0 <= ramp_rate p ->
  Qmin (current_power p) c <= current_power p + ramp_delta p c /\
  current_power p + ramp_delta p c <= Qmax (current_power p) c.
Proof.
  intro Hr. unfold ramp_delta.
  destruct (Qabs_cases (c - current_power p)) as [[A B]|[A B]];
    destruct (Q.min_spec (current_power p) c) as [[C D]|[C D]];
    destruct (Q.max_spec (current_power p) c) as [[C' D']|[C' D']];
    rewrite D, D'; qcases; split; lra.
Qed.

(** X2: with a ramp rate >= 0 a call never moves the output away from
    the clamped target: the output does not decrease when the clamped
    target is at or above it, and does not increase when the clamped
    target is at or below it. *)
Theorem step_power_towards_target (p : PowerPlant) (target : Q) :
  0 <= ramp_rate p ->
  let c := clamped_target p target in
  let out := current_power (fst (step_power p target)) in
  (current_power p <= c -> current_power p <= out) /\
  (c <= current_power p -> out <= current_power p).
Proof.
  intro Hr. cbv zeta. rewrite step_power_current.
  destruct (step_power_between_aux p (clamped_target p target) Hr)
    as [Hl Hu].
  split; intro H.
  - rewrite (proj2 (Q.min_l_iff _ _) H) in Hl. exact Hl.
  - rewrite (proj2 (Q.max_l_iff _ _) H) in Hu. exact Hu.
Qed.

Lemma step_power_towards_target_witness :
  let c := clamped_target coal_plant 120 in
  let out := current_power (fst (step_power coal_plant 120)) in
  (current_power coal_plant <= c -> current_power coal_plant <= out) /\
  (c <= current_power coal_plant -> out <= current_power coal_plant).
Proof.
  apply (step_power_towards_target coal_plant 120). vm_compute. discriminate.
Defined.

Lemma clamped_target_static (p q : PowerPlant) (t : Q) :
  p_max q = p_max p -> p_min q = p_min p ->
  clamped_target q t = clamped_target p t.
Proof. intros H1 H2. unfold clamped_target. now rewrite H1, H2. Qed.

(** X3: a plant whose output is its clamped target rests there: with a
    ramp rate >= 0, any number of further calls with that target leaves
    the output as it is. *)
Theorem hold_target_rests (p : PowerPlant) (target : Q) (n : nat) :
  0 <= ramp_rate p ->
  current_power p == clamped_target p target ->
  current_power (hold_target p target n) == current_power p.
Proof.
  intros Hr Hc. induction n as [|n IH]; [reflexivity|].
  cbn [hold_target]. rewrite step_power_current.
  destruct (hold_target_static p target n) as (Hmax & Hmin & Hramp).
  cbv zeta in Hmax, Hmin, Hramp.
  rewrite (clamped_target_static p _ target Hmax Hmin).
  set (q := hold_target p target n) in *.
  set (c := clamped_target p target) in *.
  unfold ramp_delta. rewrite Hramp.
  destruct (Qabs_cases (c - current_power q)) as [[A B]|[A B]];
    qcases; lra.
Qed.

Lemma hold_target_rests_witness :
  current_power (hold_target (at_output nuclear_plant (170, true)) 170 5)
  == current_power (at_output nuclear_plant (170, true)).
Proof.
  apply (hold_target_rests (at_output nuclear_plant (170, true)) 170 5);
    vm_compute; [discriminate|reflexivity].
Defined.

Section Binary64Capacity.

Local Open Scope float_scope.
Local Set Warnings "-inexact-float".

(** X1: [step_power] never aims above the capacity: the target after
    clamping is at most p_max, for a capacity and a target that are
    numbers.  The output can all the same end above the capacity,
    through the rounding of current_power + delta: a plant of capacity
    0.9 at output 0.3 asked for 5 ends at 0.9000000000000001. *)
Theorem step_power_aims_within_capacity :
  (forall (p : B64.PowerPlant) (target : float),
      B64.number (B64.p_max p) -> B64.number target ->
      (B64.clamped_target p target <=? B64.p_max p) = true)
  /\
  (let p := B64.mkPowerPlant "Plant" "gas" 0.9 0 150 0.8 1 0.3 true in
   let out := B64.current_power (fst (B64.step_power p 5)) in
   (B64.current_power p <=? B64.p_max p) = true /\
   out = 0.9000000000000001 /\
   (B64.p_max p <? out) = true).
Proof.
  split; [exact clamped_target_capped|].
  cbv zeta. repeat split.
Qed.

Lemma step_power_aims_within_capacity_witness :
  (B64.clamped_target B64.coal_plant 1000 <=? B64.p_max B64.coal_plant)
  = true.
Proof.
  apply (proj1 step_power_aims_within_capacity B64.coal_plant 1000);
    reflexivity.
Defined.

End Binary64Capacity.

(** A plant without technical minimum whose ramp rate covers its whole
    capacity follows a non-negative target at once, up to its capacity. *)
Lemma step_power_follows (p : PowerPlant) (t : Q) :
  p_min p <= 0 -> 0 <= current_power p -> current_power p <= p_max p ->
  p_max p <= ramp_rate p -> 0 <= t ->
  current_power (fst (step_power p t)) == Qmin t (p_max p).
Proof.
  intros Hmin H0 H1 Hr Ht. rewrite step_power_current.
  assert (Hc : clamped_target p t == Qmin t (p_max p)).
  { unfold clamped_target, py_min.
    destruct (Q.min_spec t (p_max p)) as [[A B]|[A B]]; rewrite B.
    - destruct (t >? 0) eqn:E1; [apply Qgtb_gt in E1|apply Qgtb_le in E1];
        cbn [andb]; try qcase t (p_min p); qcases; lra.
    - destruct (t >? 0) eqn:E1; [apply Qgtb_gt in E1|apply Qgtb_le in E1];
        cbn [andb]; try qcase t (p_min p); qcases; lra. }
  assert (Hb : 0 <= clamped_target p t /\ clamped_target p t <= p_max p).
  { rewrite Hc. destruct (Q.min_spec t (p_max p)) as [[A B]|[A B]];
      rewrite B; split; lra. }
  rewrite ramp_delta_exact.
  - rewrite <- Hc. ring.
  - destruct (Qabs_cases (clamped_target p t - current_power p))
      as [[A B]|[A B]]; lra.
Qed.

Lemma step_power_capped (p : PowerPlant) (target : Q) :
  current_power p <= p_max p -> 0 <= ramp_rate p ->
  current_power (fst (step_power p target)) <= p_max p.
Proof.
  intros Hc Hr. rewrite step_power_current.
  destruct (step_power_between_aux p (clamped_target p target) Hr) as [_ H].
  pose proof (clamped_target_le_p_max p target) as Hm.
  destruct (Q.max_spec (current_power p) (clamped_target p target))
    as [[A B]|[A B]]; rewrite B in H; lra.
Qed.

Lemma step_power_stays_nonneg (p : PowerPlant) (target : Q) :
  0 <= current_power p -> 0 <= target -> 0 <= p_max p -> 0 <= ramp_rate p ->
  0 <= current_power (fst (step_power p target)).
Proof.
  intros Hc Ht Hm Hr. rewrite step_power_current.
  apply ramp_delta_nonneg; auto using clamped_target_nonneg.
Qed.

Lemma balance_nonneg (g : Grid) :
  0 <= unmet_demand (step_balance g) /\ 0 <= wasted_energy (step_balance g).
Proof.
  unfold step_balance. cbn [unmet_demand wasted_energy].
  set (d := py_sum (map current_power (plants g))
            - py_sum (map current_load (consumers g))).
  pose proof (Qabs_nonneg d). qcases; split; lra.
Qed.

(** ** The grid: adding plants and consumers *)



(** ** The profile: hours, horizons and failures *)

Lemma hours_periodic (h hz k : Z) :
  map (fun i => ((h + 24 * k + i) mod 24)%Z) (py_range (hz + 1))
  = map (fun i => ((h + i) mod 24)%Z) (py_range (hz + 1)).
Proof.
  apply map_ext. intro i.
  replace (h + 24 * k + i)%Z with (h + i + k * 24)%Z by ring.
  apply Z_mod_plus_full.
Qed.

Lemma trend_and_std_periodic (p : StochasticProfile) (h hz k : Z) :
  trend_and_std p (h + 24 * k) hz = trend_and_std p h hz.
Proof. unfold trend_and_std. now rewrite hours_periodic. Qed.

Lemma trend_and_std_shape (p : StochasticProfile) (h hz : Z) trend std :
  trend_and_std p h hz = Ok (trend, std) ->
  exists growth,
    std = map2 Qmult (map (Qmult (noise_volatility p)) trend) growth.
Proof.
  unfold trend_and_std.
  destruct (np_take _ _) as [tr|e]; [|discriminate].
  destruct (linspace _ _ _) as [gr|e]; [|discriminate].
  intro H. injection H as <- <-. now exists gr.
Qed.

Section ProfileEdges.

Variable G : Type.
Variable standard_normal : G -> Q * G.

(** X5: the day repeats: shifting the current hour by whole days changes
    nothing of what a profile returns or draws. *)
Theorem get_actual_and_forecast_periodic
    (p : StochasticProfile) (h hz k : Z) (g : G) :
  get_actual_and_forecast standard_normal p (h + 24 * k) hz g
  = get_actual_and_forecast standard_normal p h hz g.
Proof.
  unfold get_actual_and_forecast. now rewrite trend_and_std_periodic.
Qed.

Lemma draw_normal_nil (loc : Q) (scale : list Q) (g : G) :
  fst (draw_normal standard_normal loc scale g) = [] ->
  draw_normal standard_normal loc scale g = ([], g).
Proof.
  destruct scale as [|s rest]; [reflexivity|].
  cbn [draw_normal]. destruct (standard_normal g) as [z g1].
  destruct (draw_normal standard_normal loc rest g1). discriminate.
Qed.

(** X6: a call that raises has drawn nothing: the generator is as it
    was. *)
Theorem get_actual_and_forecast_failure_draws_nothing
    (p : StochasticProfile) (h hz : Z) (g g' : G) (e : exn) :
  get_actual_and_forecast standard_normal p h hz g = (Raise e, g') ->
  g' = g.
Proof.
  unfold get_actual_and_forecast, bind, lift.
  destruct (trend_and_std p h hz) as [[trend std]|x] eqn:Hts.
  2:{ intro H. now injection H. }
  cbv beta iota zeta. unfold rng_normal.
  destruct (existsb (fun s => s <? 0) std
            || existsb (fun b => b)
                       (std_signbits (noise_volatility p) trend)).
  { intro H. now injection H. }
  destruct (draw_normal standard_normal 0 std g) as [noise g1] eqn:Hd.
  destruct (map clip_min0 (map2 Qplus trend noise)) as [|v vs] eqn:Hv.
  2:{ unfold ret. discriminate. }
  unfold raise. intro H. injection H as _ <-.
  apply map_eq_nil in Hv.
  destruct (trend_and_std_shape p h hz trend std Hts) as (growth & Hstd).
  assert (Hnoise : noise = [] \/ trend = []).
  { destruct trend as [|t ts]; [now right|].
    destruct noise as [|n ns]; [now left|]. discriminate. }
  destruct Hnoise as [-> | ->].
  - pose proof (draw_normal_nil 0 std g) as Hn.
    rewrite Hd in Hn. specialize (Hn eq_refl). now injection Hn.
  - subst std. cbn in Hd. now injection Hd.
Qed.

(** X7: whatever the profile, a horizon of -1 (no value at all) raises
    [IndexError] and a horizon below -1 raises [ValueError]; a profile
    too short for the current hour raises [IndexError]. *)
Theorem get_actual_and_forecast_bad_arguments
    (p : StochasticProfile) (h : Z) (g : G) :
  get_actual_and_forecast standard_normal p h (-1) g = (Raise IndexError, g)
  /\
  (forall hz, (hz < -1)%Z ->
     get_actual_and_forecast standard_normal p h hz g
     = (Raise ValueError, g))
  /\
  (forall hz, (0 <= hz)%Z ->
     (Z.of_nat (List.length (base_profile p)) <= h mod 24)%Z ->
     get_actual_and_forecast standard_normal p h hz g
     = (Raise IndexError, g)).
Proof.
  split; [reflexivity|]. split.
  - intros hz Hhz. unfold get_actual_and_forecast, bind, lift, trend_and_std.
    unfold py_range at 1.
    replace (Z.to_nat (hz + 1)) with 0%nat by lia.
    cbn [seq map np_take]. unfold linspace.
    replace (hz + 1 <? 0)%Z with true by (symmetry; apply Z.ltb_lt; lia).
    reflexivity.
  - intros hz Hhz Hshort.
    unfold get_actual_and_forecast, bind, lift, trend_and_std.
    unfold py_range at 1.
    replace (Z.to_nat (hz + 1)) with (S (Z.to_nat hz)) by lia.
    cbn [seq map np_take Z.of_nat]. rewrite Z.add_0_r.
    now rewrite py_index_beyond.
Qed.

(** X8: with horizon 0 a 24-entry profile whose volatility and trend at
    the current hour have the same sign bit returns the value of the
    current hour alone, with an empty forecast, from exactly one draw
    scaled by volatility * trend * 1/2. *)
Theorem get_actual_and_forecast_horizon_zero
    (p : StochasticProfile) (h : Z) (g : G) :
  List.length (base_profile p) = 24%nat ->
  xorb (signbit (noise_volatility p)) (signbit (profile_at p h)) = false ->
  exists actual,
    get_actual_and_forecast standard_normal p h 0 g
    = (Ok (actual, []), snd (standard_normal g)) /\
    actual
    == Qmax 0 (profile_at p h
               + (0 + noise_volatility p * profile_at p h * (1#2)
                      * fst (standard_normal g))).
Proof.
  intros Hlen Hsign.
  unfold get_actual_and_forecast, bind, lift, trend_and_std.
  change (py_range (0 + 1)) with [0%Z]. cbn [map np_take].
  rewrite Z.add_0_r.
  rewrite (py_index_in_range (base_profile p) (h mod 24) 0)
    by (rewrite Hlen; pose proof (Z.mod_pos_bound h 24); lia).
  fold (profile_at p h).
  change (linspace (1#2) 3 (0 + 1))
    with (Ok [inject_Z 0 * (3 - (1#2)) + (1#2)]).
  cbv beta iota zeta. cbn [map map2].
  set (std := noise_volatility p * profile_at p h
              * (inject_Z 0 * (3 - (1#2)) + (1#2))).
  assert (Hstd : std == noise_volatility p * profile_at p h * (1#2)).
  { unfold std. change (inject_Z 0) with 0. ring. }
  pose proof (same_signbit_product _ _ Hsign) as Hprod.
  unfold rng_normal, std_signbits. cbn [existsb map]. rewrite Hsign.
  replace (std <? 0) with false
    by (symmetry; apply Qltb_ge; rewrite Hstd; lra).
  cbn [orb draw_normal].
  destruct (standard_normal g) as [z g1]. cbn [map map2 fst snd].
  unfold ret. eexists. split; [reflexivity|].
  rewrite clip_min0_max, Hstd. reflexivity.
Qed.

End ProfileEdges.

Lemma get_actual_and_forecast_failure_draws_nothing_witness :
  snd (get_actual_and_forecast toy_standard_normal
         (mkProfile wind_profile (25#100)) 0 (-1) 3%Z) = 3%Z.
Proof.
  apply (get_actual_and_forecast_failure_draws_nothing
           toy_rng toy_standard_normal
           (mkProfile wind_profile (25#100)) 0 (-1) 3%Z _ IndexError).
  reflexivity.
Defined.

Lemma get_actual_and_forecast_bad_arguments_witness :
  get_actual_and_forecast toy_standard_normal
                          (mkProfile wind_profile (25#100)) 5 (-3) 3%Z
  = (Raise ValueError, 3%Z)
  /\
  get_actual_and_forecast toy_standard_normal (mkProfile [1; 1; 1] (1#10))
                          5 12 3%Z
  = (Raise IndexError, 3%Z).
Proof.
  split.
  - apply (proj1 (proj2 (get_actual_and_forecast_bad_arguments
                           toy_rng toy_standard_normal
                           (mkProfile wind_profile (25#100)) 5 3%Z))
                 (-3)%Z).
    lia.
  - apply (proj2 (proj2 (get_actual_and_forecast_bad_arguments
                           toy_rng toy_standard_normal
                           (mkProfile [1; 1; 1] (1#10)) 5 3%Z)) 12%Z);
      cbn; lia.
Defined.

Lemma get_actual_and_forecast_horizon_zero_witness :
  exists actual,
    get_actual_and_forecast toy_standard_normal
                            (mkProfile wind_profile (25#100)) 7 0 3%Z
    = (Ok (actual, []), snd (toy_standard_normal 3%Z)) /\
    actual
    == Qmax 0 (profile_at (mkProfile wind_profile (25#100)) 7
               + (0 + (25#100)
                      * profile_at (mkProfile wind_profile (25#100)) 7
                      * (1#2) * fst (toy_standard_normal 3%Z))).
Proof.
  apply (get_actual_and_forecast_horizon_zero
           toy_rng toy_standard_normal
           (mkProfile wind_profile (25#100)) 7 3%Z).
  - reflexivity.
  - reflexivity.
Defined.

(** ** The environment: observation, info and invariants of an episode *)

Section EpisodeFacts.

Variable G : Type.
Variable default_rng : Z -> G.
Variable standard_normal : G -> Q * G.
Variable float32 : Q -> Q.

Local Arguments Qplus : simpl never.
Local Arguments Qmult : simpl never.
Local Arguments Qdiv : simpl never.
Local Arguments Qopp : simpl never.
Local Arguments Qminus : simpl never.
Local Arguments step_power : simpl never.
Local Arguments step_balance : simpl never.
Local Arguments step_weather_and_demand : simpl never.
Local Arguments action_target : simpl never.
Local Arguments scale_by : simpl never.
Local Arguments py_sum : simpl never.
Local Arguments reward_of : simpl never.
Local Arguments Z.add : simpl never.
Local Arguments Z.leb : simpl never.
Local Arguments scenario_engine : simpl never.
Local Arguments engine_step : simpl never.
Local Arguments _update_stochastic_elements : simpl never.
Local Arguments _get_obs : simpl never.
Local Arguments _get_info : simpl never.
Local Arguments apply_actions : simpl never.
Local Arguments py_range : simpl never.

Lemma get_obs_scenario (d : Dynamic G) (rm : option string) :
  _get_obs float32 (scenario_env rm d)
  = (Ok (scenario_obs float32 d), scenario_env rm d).
Proof. reflexivity. Qed.

Lemma get_info_scenario (d : Dynamic G) (rm : option string) :
  _get_info (scenario_env rm d)
  = (Ok (scenario_info d None), scenario_env rm d).
Proof. reflexivity. Qed.

Lemma scenario_obs_length (d : Dynamic G) :
  List.length (forecast_wind (weather d)) = 12%nat ->
  List.length (forecast_solar (weather d)) = 12%nat ->
  List.length (forecast_demand (weather d)) = 12%nat ->
  List.length (scenario_obs float32 d) = 45%nat.
Proof.
  intros Hw Hs Hd. unfold scenario_obs.
  rewrite length_map, !length_app, Hw, Hs, Hd. reflexivity.
Qed.

(** One call of [step] during an episode, on an action of length 3 or
    more, with everything it returns. *)
Lemma step_scenario_full (d : Dynamic G) a0 a1 a2 rest :
  exists w g',
    step_weather_and_demand standard_normal (turn d + 1) 12
                            (scenario_engine (gen d))
    = (Ok w, scenario_engine g') /\
    (0 <= actual_demand w /\ 0 <= actual_solar w /\ 0 <= actual_wind w /\
     List.length (forecast_demand w) = 12%nat /\
     List.length (forecast_solar w) = 12%nat /\
     List.length (forecast_wind w) = 12%nat) /\
    let p0 := step_power (at_output gas_plant (gas_out d)) (a0 * 100) in
    let p1 := step_power (at_output coal_plant (coal_out d)) (a1 * 150) in
    let p2 :=
      step_power (at_output nuclear_plant (nuclear_out d)) (a2 * 300) in
    let p3 :=
      step_power (at_output solar_farm (solar_out d))
                 (actual_solar w * 150) in
    let p4 :=
      step_power (at_output wind_farm (wind_out d))
                 (actual_wind w * 100) in
    let d' :=
      mkDynamic (turn d + 1)%Z g' (dyn (fst p0)) (dyn (fst p1))
                (dyn (fst p2)) (dyn (fst p3)) (dyn (fst p4))
                (actual_demand w * 400) w in
    forall rm,
    step standard_normal float32 (a0 :: a1 :: a2 :: rest)
         (scenario_env rm d)
    = (Ok (mkStepResult
             (scenario_obs float32 d')
             (reward_of
                (0 + fst (snd p0) + fst (snd p1) + fst (snd p2))
                (0 + snd (snd p0) + snd (snd p1) + snd (snd p2))
                (step_balance (scenario_grid d')))
             false (24 <=? turn d + 1)%Z
             (scenario_info
                d' (Some (is_blackout (step_balance (scenario_grid d')))))),
       scenario_env rm d').
Proof.
  destruct (step_weather_and_demand_scenario G standard_normal
              (turn d + 1) (gen d))
    as (w & Hw & _ & _ & _ & Hfacts).
  set (g' := snd (normal_draws standard_normal 13
                    (snd (normal_draws standard_normal 13
                            (snd (normal_draws standard_normal 13
                                    (gen d))))))) in Hw.
  exists w, g'. split; [exact Hw|]. split; [exact Hfacts|].
  cbv zeta. intro rm.
  unfold step, scenario_env, scenario_grid.
  cbn. change (py_range 3) with [0; 1; 2]%Z.
  eapply bind_ok_eq; [apply apply_actions_three|].
  cbn.
  eapply bind_ok_eq; [rewrite engine_step_explicit, Hw; reflexivity|].
  cbn.
  eapply bind_ok_eq; [apply update_stochastic_elements_explicit|].
  cbn.
  set (p0 := step_power (at_output gas_plant (gas_out d))
                        (a0 * p_max (at_output gas_plant (gas_out d)))).
  set (p1 := step_power (at_output coal_plant (coal_out d))
                        (a1 * p_max (at_output coal_plant (coal_out d)))).
  set (p2 := step_power (at_output nuclear_plant (nuclear_out d))
                        (a2 * p_max (at_output nuclear_plant
                                               (nuclear_out d)))).
  set (p3 := step_power (at_output solar_farm (solar_out d))
                        (actual_solar w * 150)).
  set (p4 := step_power (at_output wind_farm (wind_out d))
                        (actual_wind w * 100)).
  eapply bind_ok_eq.
  { exact (get_info_scenario
             (mkDynamic (turn d + 1)%Z g' (dyn (fst p0)) (dyn (fst p1))
                        (dyn (fst p2)) (dyn (fst p3)) (dyn (fst p4))
                        (actual_demand w * 400) w) rm). }
  eapply bind_ok_eq.
  { exact (get_obs_scenario
             (mkDynamic (turn d + 1)%Z g' (dyn (fst p0)) (dyn (fst p1))
                        (dyn (fst p2)) (dyn (fst p3)) (dyn (fst p4))
                        (actual_demand w * 400) w) rm). }
  reflexivity.
Qed.

Lemma apply_actions_short_explicit action totals p0 p1 p2 ps cons :
  (List.length action < 3)%nat ->
  exists q0 q1,
    (q0 = p0 \/
     exists a, In a action /\ q0 = fst (step_power p0 (a * p_max p0))) /\
    (q1 = p1 \/
     exists a, In a action /\ q1 = fst (step_power p1 (a * p_max p1))) /\
    forall rm nc fh ms cs (e : option (StochasticEngine G)) sc wc cbl w0,
      apply_actions action [0; 1; 2]%Z totals
        (mkEnv rm nc fh ms cs e (Some (mkGrid (p0 :: p1 :: p2 :: ps) cons))
               sc wc cbl w0)
      = (Raise IndexError,
         mkEnv rm nc fh ms cs e (Some (mkGrid (q0 :: q1 :: p2 :: ps) cons))
               sc wc cbl w0).
Proof.
  intro Hlen. unfold apply_actions.
  destruct action as [|a0 [|a1 [|a2 rest]]]; [| | |cbn in Hlen; lia].
  - exists p0, p1. split; [now left|]. split; [now left|]. intros.
    eapply bind_raise_eq.
    apply (grid_step_plant_no_target G 0 _ p0);
      [exact (py_index_nat (_ :: _ :: _ :: ps) 0)
      |exact (action_target_nat [] 0 _)].
  - exists (fst (step_power p0 (a0 * p_max p0))), p1.
    split; [right; exists a0; split; [now left|reflexivity]|].
    split; [now left|]. intros.
    eapply bind_ok_eq.
    { apply (grid_step_plant_explicit G 0 _ p0 (a0 * p_max p0));
        [exact (py_index_nat (_ :: _ :: _ :: ps) 0)
        |exact (action_target_nat [a0] 0 _)]. }
    eapply bind_raise_eq.
    apply (grid_step_plant_no_target G 1 _ p1);
      [exact (py_index_nat (_ :: _ :: _ :: ps) 1)
      |exact (action_target_nat [a0] 1 _)].
  - exists (fst (step_power p0 (a0 * p_max p0))),
           (fst (step_power p1 (a1 * p_max p1))).
    split; [right; exists a0; split; [now left|reflexivity]|].
    split; [right; exists a1; split; [right; now left|reflexivity]|].
    intros.
    eapply bind_ok_eq.
    { apply (grid_step_plant_explicit G 0 _ p0 (a0 * p_max p0));
        [exact (py_index_nat (_ :: _ :: _ :: ps) 0)
        |exact (action_target_nat [a0; a1] 0 _)]. }
    eapply bind_ok_eq.
    { apply (grid_step_plant_explicit G 1 _ p1 (a1 * p_max p1));
        [exact (py_index_nat (_ :: _ :: _ :: ps) 1)
        |exact (action_target_nat [a0; a1] 1 _)]. }
    eapply bind_raise_eq.
    apply (grid_step_plant_no_target G 2 _ p2);
      [exact (py_index_nat (_ :: _ :: _ :: ps) 2)
      |exact (action_target_nat [a0; a1] 2 _)].
Qed.

(** A call on too short an action: what it leaves behind. *)
Lemma step_scenario_short_explicit (d : Dynamic G) action :
  (List.length action < 3)%nat ->
  exists o0 o1,
    (o0 = gas_out d \/
     exists a, In a action /\
       o0 = dyn (fst (step_power (at_output gas_plant (gas_out d))
                                 (a * 100)))) /\
    (o1 = coal_out d \/
     exists a, In a action /\
       o1 = dyn (fst (step_power (at_output coal_plant (coal_out d))
                                 (a * 150)))) /\
    forall rm,
      step standard_normal float32 action (scenario_env rm d)
      = (Raise IndexError,
         scenario_env rm
           (mkDynamic (turn d + 1)%Z (gen d) o0 o1 (nuclear_out d)
                      (solar_out d) (wind_out d) (city_load d)
                      (weather d))).
Proof.
  intro Hlen.
  destruct (apply_actions_short_explicit action (0, 0)
              (at_output gas_plant (gas_out d))
              (at_output coal_plant (coal_out d))
              (at_output nuclear_plant (nuclear_out d))
              [at_output solar_farm (solar_out d);
               at_output wind_farm (wind_out d)]
              [mkConsumer "Main City" 400 (city_load d)] Hlen)
    as (q0 & q1 & H0 & H1 & Hap).
  assert (E0 : q0 = at_output gas_plant (dyn q0)).
  { destruct H0 as [->|(a & _ & ->)]; [|reflexivity].
    now destruct (gas_out d). }
  assert (E1 : q1 = at_output coal_plant (dyn q1)).
  { destruct H1 as [->|(a & _ & ->)]; [|reflexivity].
    now destruct (coal_out d). }
  exists (dyn q0), (dyn q1).
  split.
  { destruct H0 as [->|(a & Ha & ->)].
    - left. now destruct (gas_out d).
    - right. now exists a. }
  split.
  { destruct H1 as [->|(a & Ha & ->)].
    - left. now destruct (coal_out d).
    - right. now exists a. }
  intro rm.
  unfold step, scenario_env, scenario_grid.
  cbn. change (py_range 3) with [0; 1; 2]%Z.
  eapply eq_trans; [eapply bind_raise_eq; apply Hap|].
  rewrite E0 at 1. rewrite E1 at 1. reflexivity.
Qed.

Lemma weather_facts (h : Z) (g g' : G) (w : Weather) :
  step_weather_and_demand standard_normal h 12 (scenario_engine g)
  = (Ok w, scenario_engine g') ->
  0 <= actual_demand w /\ 0 <= actual_solar w /\ 0 <= actual_wind w /\
  List.length (forecast_demand w) = 12%nat /\
  List.length (forecast_solar w) = 12%nat /\
  List.length (forecast_wind w) = 12%nat.
Proof.
  intro H.
  destruct (step_weather_and_demand_scenario G standard_normal h g)
    as (w0 & Hw0 & _ & _ & _ & Hfacts).
  rewrite H in Hw0. injection Hw0 as -> _. exact Hfacts.
Qed.

Ltac plant_const :=
  solve [ vm_compute; discriminate
        | cbn [current_power at_output set_power fst snd]; assumption ].

Lemma renewable_follows (p : PowerPlant) (o : Q * bool) (t : Q) :
  p_min p <= 0 -> p_max p <= ramp_rate p ->
  0 <= fst o -> fst o <= p_max p -> 0 <= t ->
  current_power (fst (step_power (at_output p o) t)) == Qmin t (p_max p).
Proof.
  intros Hmin Hr H0 H1 Ht.
  apply (step_power_follows (at_output p o) t); assumption.
Qed.

Lemma Qmin_range (t c : Q) : 0 <= t -> 0 <= c -> 0 <= Qmin t c /\ Qmin t c <= c.
Proof.
  intros Ht Hc. destruct (Q.min_spec t c) as [[A B]|[A B]]; rewrite B;
    split; lra.
Qed.

(** One call of [step] during an episode and the invariants. *)
Lemma step_scenario_invariants (d : Dynamic G) (action : list Q) :
  within_capacity d ->
  exists out d',
    within_capacity d' /\
    (nonneg_outputs d -> Forall (fun a => 0 <= a) action ->
     nonneg_outputs d' /\ forall r, out = Ok r -> reward r <= 0) /\
    forall rm,
      step standard_normal float32 action (scenario_env rm d)
      = (out, scenario_env rm d').
Proof.
  intros (Hg & Hc & Hn & (Hs0 & Hs1) & (Hw0 & Hw1) & Hl).
  destruct (Nat.lt_ge_cases (List.length action) 3) as [Hshort|Hlong].
  - destruct (step_scenario_short_explicit d action Hshort)
      as (o0 & o1 & H0 & H1 & Hstep).
    eexists. eexists. split; [|split; [|exact Hstep]].
    + unfold within_capacity.
      cbn [gas_out coal_out nuclear_out solar_out wind_out city_load].
      repeat split; try assumption.
      * destruct H0 as [->|(a & _ & ->)]; [assumption|].
        apply (step_power_capped (at_output gas_plant (gas_out d)));
          [exact Hg|vm_compute; discriminate].
      * destruct H1 as [->|(a & _ & ->)]; [assumption|].
        apply (step_power_capped (at_output coal_plant (coal_out d)));
          [exact Hc|vm_compute; discriminate].
    + intros (Ng & Nc & Nn) Hact. split; [|discriminate].
      unfold nonneg_outputs. cbn [gas_out coal_out nuclear_out].
      rewrite Forall_forall in Hact.
      repeat split; try assumption.
      * destruct H0 as [->|(a & Ha & ->)]; [assumption|].
        apply (step_power_stays_nonneg (at_output gas_plant (gas_out d)));
          [exact Ng| |vm_compute; discriminate|vm_compute; discriminate].
        specialize (Hact a Ha). lra.
      * destruct H1 as [->|(a & Ha & ->)]; [assumption|].
        apply (step_power_stays_nonneg (at_output coal_plant (coal_out d)));
          [exact Nc| |vm_compute; discriminate|vm_compute; discriminate].
        specialize (Hact a Ha). lra.
  - destruct action as [|a0 [|a1 [|a2 rest]]]; try (cbn in Hlong; lia).
    destruct (step_scenario_full d a0 a1 a2 rest)
      as (w & g' & Hw & (Wd & Ws & Ww & _) & Hstep).
    cbv zeta in Hstep.
    set (p0 := step_power (at_output gas_plant (gas_out d)) (a0 * 100))
      in Hstep.
    set (p1 := step_power (at_output coal_plant (coal_out d)) (a1 * 150))
      in Hstep.
    set (p2 := step_power (at_output nuclear_plant (nuclear_out d))
                          (a2 * 300)) in Hstep.
    set (p3 := step_power (at_output solar_farm (solar_out d))
                          (actual_solar w * 150)) in Hstep.
    set (p4 := step_power (at_output wind_farm (wind_out d))
                          (actual_wind w * 100)) in Hstep.
    eexists. eexists. split; [|split; [|exact Hstep]].
    + unfold within_capacity.
      cbn [gas_out coal_out nuclear_out solar_out wind_out city_load dyn fst].
      assert (S3 : current_power (fst p3) == Qmin (actual_solar w * 150) 150).
      { apply (renewable_follows solar_farm); try assumption;
          try (vm_compute; discriminate). lra. }
      assert (S4 : current_power (fst p4) == Qmin (actual_wind w * 100) 100).
      { apply (renewable_follows wind_farm); try assumption;
          try (vm_compute; discriminate). lra. }
      destruct (Qmin_range (actual_solar w * 150) 150) as [R1 R2]; [lra|lra|].
      destruct (Qmin_range (actual_wind w * 100) 100) as [R3 R4]; [lra|lra|].
      split.
      { apply (step_power_capped (at_output gas_plant (gas_out d)));
          [exact Hg|vm_compute; discriminate]. }
      split.
      { apply (step_power_capped (at_output coal_plant (coal_out d)));
          [exact Hc|vm_compute; discriminate]. }
      split.
      { apply (step_power_capped (at_output nuclear_plant (nuclear_out d)));
          [exact Hn|vm_compute; discriminate]. }
      split; [rewrite S3; split; assumption|].
      split; [rewrite S4; split; assumption|]. lra.
    + intros (Ng & Nc & Nn) Hact.
      apply Forall_cons_iff in Hact. destruct Hact as [A0 Hact].
      apply Forall_cons_iff in Hact. destruct Hact as [A1 Hact].
      apply Forall_cons_iff in Hact. destruct Hact as [A2 _].
      assert (O0 : 0 <= current_power (fst p0)).
      { apply (step_power_stays_nonneg (at_output gas_plant (gas_out d)));
          [exact Ng|lra|vm_compute; discriminate|vm_compute; discriminate]. }
      assert (O1 : 0 <= current_power (fst p1)).
      { apply (step_power_stays_nonneg (at_output coal_plant (coal_out d)));
          [exact Nc|lra|vm_compute; discriminate|vm_compute; discriminate]. }
      assert (O2 : 0 <= current_power (fst p2)).
      { apply (step_power_stays_nonneg
                 (at_output nuclear_plant (nuclear_out d)));
          [exact Nn|lra|vm_compute; discriminate|vm_compute; discriminate]. }
      split; [repeat split; assumption|].
      assert (C0 : fst (snd p0) = current_power (fst p0) * 150)
        by reflexivity.
      assert (C1 : fst (snd p1) = current_power (fst p1) * 50)
        by reflexivity.
      assert (C2 : fst (snd p2) = current_power (fst p2) * 20)
        by reflexivity.
      assert (E0 : snd (snd p0) = current_power (fst p0) * (8#10))
        by reflexivity.
      assert (E1 : snd (snd p1) = current_power (fst p1) * (12#10))
        by reflexivity.
      assert (E2 : snd (snd p2) = current_power (fst p2) * (1#100))
        by reflexivity.
      clearbody p0 p1 p2 p3 p4.
      intros r Hr. injection Hr as <-. cbn [reward]. unfold reward_of.
      match goal with
      | |- context [step_balance ?g] =>
          destruct (balance_nonneg g) as [B1 B2];
            set (b := step_balance g) in *
      end.
      rewrite C0, C1, C2, E0, E1, E2. lra.
Qed.

Lemma run_steps_invariant
    (I : Dynamic G -> Prop) (A : list Q -> Prop) (P : StepResult -> Prop) :
  (forall d a, I d -> A a ->
     exists out d',
       I d' /\ (forall r, out = Ok r -> P r) /\
       forall rm,
         step standard_normal float32 a (scenario_env rm d)
         = (out, scenario_env rm d')) ->
  forall actions d, I d -> Forall A actions ->
    exists evs d',
      I d' /\ (forall r, In (Returned r) evs -> P r) /\
      forall rm,
        run_steps standard_normal float32 actions (scenario_env rm d)
        = (evs, scenario_env rm d').
Proof.
  intros Hstep actions. induction actions as [|a rest IH]; intros d Hd Hall.
  - exists [], d. split; [exact Hd|]. split; [intros r []|reflexivity].
  - apply Forall_cons_iff in Hall. destruct Hall as [Ha Hall].
    destruct (Hstep d a Hd Ha) as (out & d1 & Hd1 & HP & Heq).
    destruct (IH d1 Hd1 Hall) as (evs & d2 & Hd2 & HPs & Hrun).
    exists ((match out with Ok x => Returned x | Raise e => Raised e end)
            :: evs), d2.
    split; [exact Hd2|]. split.
    + intros r [H|H]; [|exact (HPs r H)].
      destruct out as [x|e]; [|discriminate]. injection H as ->.
      now apply HP.
    + intro rm. cbn [run_steps]. now rewrite (Heq rm), (Hrun rm).
Qed.

(** The start of an episode, with the invariants. *)
Lemma reset_scenario_invariants (seed : Z) :
  (0 <= seed)%Z ->
  exists d0,
    within_capacity d0 /\ nonneg_outputs d0 /\ turn d0 = 0%Z /\
    (gas_out d0 = (0, false) /\ coal_out d0 = (0, false) /\
     nuclear_out d0 = (0, false)) /\
    List.length (scenario_obs float32 d0) = 45%nat /\
    forall s : SmartGridEnv G,
      constructed s ->
      reset default_rng standard_normal float32 seed s
      = (Ok (scenario_obs float32 d0, scenario_info d0 None),
         scenario_env (render_mode s) d0).
Proof.
  intro Hseed.
  destruct (step_weather_and_demand_scenario G standard_normal
              0 (default_rng seed))
    as (w & Hw & _ & _ & _ & (Wd & Ws & Ww & Ld & Ls & Lw)).
  set (g' := snd (normal_draws standard_normal 13
                    (snd (normal_draws standard_normal 13
                            (snd (normal_draws standard_normal 13
                                    (default_rng seed))))))) in Hw.
  set (p3 := step_power solar_farm (actual_solar w * 150)).
  set (p4 := step_power wind_farm (actual_wind w * 100)).
  set (d0 := mkDynamic 0%Z g' (0, false) (0, false) (0, false)
                       (dyn (fst p3)) (dyn (fst p4))
                       (actual_demand w * 400) w).
  exists d0.
  split.
  { unfold within_capacity, d0.
    cbn [gas_out coal_out nuclear_out solar_out wind_out city_load dyn fst].
    assert (S3 : current_power (fst p3) == Qmin (actual_solar w * 150) 150).
    { apply (step_power_follows solar_farm);
        try (vm_compute; discriminate). lra. }
    assert (S4 : current_power (fst p4) == Qmin (actual_wind w * 100) 100).
    { apply (step_power_follows wind_farm);
        try (vm_compute; discriminate). lra. }
    destruct (Qmin_range (actual_solar w * 150) 150) as [R1 R2]; [lra|lra|].
    destruct (Qmin_range (actual_wind w * 100) 100) as [R3 R4]; [lra|lra|].
    repeat split; try lra; try (rewrite S3; assumption);
      try (rewrite S4; assumption). }
  split; [unfold nonneg_outputs, d0; cbn; repeat split; lra|].
  split; [reflexivity|].
  split; [repeat split|].
  split; [apply scenario_obs_length; assumption|].
  intros [rm nc fh ms cs e g sc wc cbl w0] (Hnc & Hfh & Hms).
  cbn in Hnc, Hfh, Hms. subst nc fh ms.
  unfold reset, gym_reset.
  replace (seed <? 0)%Z with false by (symmetry; apply Z.ltb_ge, Hseed).
  unfold new_StochasticEngine.
  replace (seed <? 0)%Z with false by (symmetry; apply Z.ltb_ge, Hseed).
  change (mkEngine (default_rng seed) (mkProfile demand_profile (5#100))
                   (mkProfile solar_profile (15#100))
                   (mkProfile wind_profile (25#100)))
    with (scenario_engine (default_rng seed)).
  cbn.
  eapply bind_ok_eq; [rewrite engine_step_explicit, Hw; reflexivity|].
  cbn.
  eapply bind_ok_eq; [apply update_stochastic_elements_explicit|].
  eapply bind_ok_eq; [exact (get_obs_scenario d0 rm)|].
  eapply bind_ok_eq; [exact (get_info_scenario d0 rm)|].
  reflexivity.
Qed.

Lemma run_invariants (seed : Z) (actions : list (list Q))
    (s : SmartGridEnv G) :
  (0 <= seed)%Z -> constructed s ->
  exists x evs d,
    run default_rng standard_normal float32 seed actions s
    = (Ok x, evs, scenario_env (render_mode s) d) /\
    within_capacity d /\
    (Forall (Forall (fun a => 0 <= a)) actions ->
     nonneg_outputs d /\ forall r, In (Returned r) evs -> reward r <= 0).
Proof.
  intros Hseed Hs. unfold run.
  destruct (reset_scenario_invariants seed Hseed)
    as (d0 & Hcap & Hnn & _ & _ & _ & Hreset).
  rewrite (Hreset s Hs).
  set (flag := Forall (Forall (fun a => 0 <= a)) actions).
  destruct (run_steps_invariant
              (fun d => within_capacity d /\ (flag -> nonneg_outputs d))
              (fun a => flag -> Forall (fun x => 0 <= x) a)
              (fun r => flag -> reward r <= 0))
    with (actions := actions) (d := d0)
    as (evs & d & (Hd & Hd') & Hrew & Hrun).
  { intros d1 a (Hc1 & Hn1) Ha.
    destruct (step_scenario_invariants d1 a Hc1)
      as (out & d2 & H1 & H2 & H3).
    exists out, d2. split; [split; [exact H1|]|split; [|exact H3]].
    - intro F. exact (proj1 (H2 (Hn1 F) (Ha F))).
    - intros r Hr F. exact (proj2 (H2 (Hn1 F) (Ha F)) r Hr). }
  { split; [exact Hcap|]. intros _. exact Hnn. }
  { apply Forall_forall. intros a Ha F. unfold flag in F.
    rewrite Forall_forall in F. exact (F a Ha). }
  rewrite Hrun. eexists. exists evs, d.
  split; [reflexivity|]. split; [exact Hd|].
  intro F. split; [exact (Hd' F)|]. intros r Hr. exact (Hrew r Hr F).
Qed.

(** X9: [reset] refuses a negative seed and then leaves the object as
    it was; on a seed >= 0 it starts an episode at turn 0 with the three
    controllable plants at rest, so that the generation reported is the
    solar plus the wind output, and returns an observation of the
    declared size with no blackout flag in the info. *)
Theorem reset_outcome :
  (forall (seed : Z) (s : SmartGridEnv G),
      (seed < 0)%Z ->
      reset default_rng standard_normal float32 seed s
      = (Raise GymError, s))
  /\
  (forall (seed : Z) (s : SmartGridEnv G),
      (0 <= seed)%Z -> constructed s ->
      exists obs inf s' g,
        reset default_rng standard_normal float32 seed s
        = (Ok (obs, inf), s') /\
        in_episode s' /\ render_mode s' = render_mode s /\
        current_step s' = Some 0%Z /\
        Z.of_nat (List.length obs) = obs_size s' /\
        info_is_blackout inf = None /\
        grid s' = Some g /\
        firstn 3 (plants g) = [gas_plant; coal_plant; nuclear_plant] /\
        total_generation inf == solar_power inf + wind_power inf).
Proof.
  split.
  - intros seed s Hneg. unfold reset, gym_reset.
    replace (seed <? 0)%Z with true by (symmetry; apply Z.ltb_lt, Hneg).
    reflexivity.
  - intros seed s Hseed Hs.
    destruct (reset_scenario_invariants seed Hseed)
      as (d0 & _ & _ & Ht & (Hg & Hc & Hn) & Hlen & Hreset).
    exists (scenario_obs float32 d0), (scenario_info d0 None),
      (scenario_env (render_mode s) d0), (scenario_grid d0).
    split; [exact (Hreset s Hs)|].
    split; [now exists (render_mode s), d0|].
    split; [reflexivity|].
    split; [cbn; now rewrite Ht|].
    split; [rewrite Hlen; reflexivity|].
    split; [reflexivity|]. split; [reflexivity|].
    split.
    + unfold scenario_grid. cbn [plants firstn]. now rewrite Hg, Hc, Hn.
    + unfold scenario_info, scenario_grid.
      cbn [total_generation solar_power wind_power plants map].
      rewrite Hg, Hc, Hn. unfold py_sum, at_output, set_power.
      cbn [fold_left current_power fst snd]. ring.
Qed.

Lemma scenario_obs_layout (d : Dynamic G) :
  scenario_obs float32 d
  = map float32
      (map (fun p => current_power p / p_max p) (plants (scenario_grid d))
       ++ [actual_wind (weather d); actual_solar (weather d);
           actual_demand (weather d)]
       ++ forecast_wind (weather d)
       ++ forecast_solar (weather d)
       ++ forecast_demand (weather d)
       ++ [inject_Z (turn d) / inject_Z 24]).
Proof.
  unfold scenario_obs. f_equal.
  unfold scenario_grid, at_output, set_power.
  cbn [plants map current_power p_max app].
  now rewrite <- !app_assoc.
Qed.

(** X10: the observation returned by [step] has the declared size (45)
    and this layout: the five plants' output over capacity; the realized
    wind, solar and demand fractions; the 12-hour forecasts of wind,
    solar and demand; the new turn over 24. *)
Theorem step_observation (s : SmartGridEnv G) (action : list Q) :
  in_episode s -> (3 <= List.length action)%nat ->
  exists r n w' g',
    fst (step standard_normal float32 action s) = Ok r /\
    current_step s = Some n /\
    current_weather (snd (step standard_normal float32 action s))
    = Some w' /\
    grid (snd (step standard_normal float32 action s)) = Some g' /\
    Z.of_nat (List.length (observation r)) = obs_size s /\
    List.length (forecast_wind w') = 12%nat /\
    List.length (forecast_solar w') = 12%nat /\
    List.length (forecast_demand w') = 12%nat /\
    observation r
    = map float32
        (map (fun p => current_power p / p_max p) (plants g')
         ++ [actual_wind w'; actual_solar w'; actual_demand w']
         ++ forecast_wind w' ++ forecast_solar w' ++ forecast_demand w'
         ++ [inject_Z (n + 1) / inject_Z 24]).
Proof.
  intros (rm & d & ->) Hlen.
  destruct action as [|a0 [|a1 [|a2 rest]]]; try (cbn in Hlen; lia).
  destruct (step_scenario_full d a0 a1 a2 rest)
    as (w & g' & _ & (_ & _ & _ & Ld & Ls & Lw) & Hstep).
  cbv zeta in Hstep. rewrite (Hstep rm). cbn [fst snd].
  eexists. exists (turn d), w. eexists.
  split; [reflexivity|]. split; [reflexivity|]. split; [reflexivity|].
  split; [reflexivity|].
  split.
  { cbn [observation]. rewrite scenario_obs_length by assumption.
    reflexivity. }
  split; [exact Lw|]. split; [exact Ls|]. split; [exact Ld|].
  cbn [observation]. apply scenario_obs_layout.
Qed.

(** X11: during an episode no plant is ever above its capacity, the
    solar and wind outputs are never below 0 and the load of the city is
    never below 0, whatever the actions (entries outside [0,1] and
    actions of the wrong length included). *)
Theorem episode_within_capacity (seed : Z) (actions : list (list Q))
    (s : SmartGridEnv G) :
  (0 <= seed)%Z -> constructed s ->
  exists g,
    grid (snd (run default_rng standard_normal float32 seed actions s))
    = Some g /\
    Forall (fun p => current_power p <= p_max p) (plants g) /\
    Forall (fun p => 0 <= current_power p) (skipn 3 (plants g)) /\
    Forall (fun c => 0 <= current_load c) (consumers g).
Proof.
  intros Hseed Hs.
  destruct (run_invariants seed actions s Hseed Hs)
    as (x & evs & d & Hrun & Hcap & _).
  rewrite Hrun. cbn [snd scenario_env grid].
  exists (scenario_grid d). split; [reflexivity|].
  destruct Hcap as (Hg & Hc & Hn & (Hs0 & Hs1) & (Hw0 & Hw1) & Hl).
  unfold scenario_grid. cbn [plants consumers skipn].
  repeat split; repeat constructor; assumption.
Qed.

(** X12: the renewable plants follow the weather at once: after any
    call of [step] that returns, the solar and wind power reported are
    the output before the call plus the whole difference to the
    realized fraction times the capacity, capped at the capacity (the
    ramp rate of 999 never limits them; the sum is the one the code
    evaluates), and the demand reported is the realized fraction times
    400. *)
Theorem renewables_follow_weather (seed : Z) (actions : list (list Q))
    (s0 : SmartGridEnv G) (action : list Q) :
  (0 <= seed)%Z -> constructed s0 -> (3 <= List.length action)%nat ->
  let s := snd (run default_rng standard_normal float32 seed actions s0) in
  exists r w' g solar wind,
    grid s = Some g /\
    nth_error (plants g) 3 = Some solar /\
    nth_error (plants g) 4 = Some wind /\
    fst (step standard_normal float32 action s) = Ok r /\
    current_weather (snd (step standard_normal float32 action s))
    = Some w' /\
    solar_power (info r)
    == current_power solar
       + (Qmin (actual_solar w' * 150) 150 - current_power solar) /\
    wind_power (info r)
    == current_power wind
       + (Qmin (actual_wind w' * 100) 100 - current_power wind) /\
    current_demand (info r) = actual_demand w' * 400.
Proof.
  intros Hseed Hs Hlen.
  destruct (run_invariants seed actions s0 Hseed Hs)
    as (x & evs & d & Hrun & Hcap & _).
  rewrite Hrun. cbn [snd].
  destruct action as [|a0 [|a1 [|a2 rest]]]; try (cbn in Hlen; lia).
  destruct (step_scenario_full d a0 a1 a2 rest)
    as (w & g' & _ & (_ & Ws & Ww & _) & Hstep).
  cbv zeta in Hstep. rewrite (Hstep (render_mode s0)). cbn [fst snd].
  destruct Hcap as (_ & _ & _ & (Hs0 & Hs1) & (Hw0 & Hw1) & _).
  eexists. exists w, (scenario_grid d),
    (at_output solar_farm (solar_out d)), (at_output wind_farm (wind_out d)).
  split; [reflexivity|]. split; [reflexivity|]. split; [reflexivity|].
  split; [reflexivity|]. split; [reflexivity|].
  cbn [info scenario_info solar_power wind_power current_demand
       solar_out wind_out city_load dyn fst].
  split; [|split; [|reflexivity]].
  - setoid_replace
      (current_power (at_output solar_farm (solar_out d))
       + (Qmin (actual_solar w * 150) 150
          - current_power (at_output solar_farm (solar_out d))))
      with (Qmin (actual_solar w * 150) 150) by ring.
    apply (renewable_follows solar_farm); try assumption;
      try (vm_compute; discriminate). lra.
  - setoid_replace
      (current_power (at_output wind_farm (wind_out d))
       + (Qmin (actual_wind w * 100) 100
          - current_power (at_output wind_farm (wind_out d))))
      with (Qmin (actual_wind w * 100) 100) by ring.
    apply (renewable_follows wind_farm); try assumption;
      try (vm_compute; discriminate). lra.
Qed.

(** X13: with non-negative action entries every reward of an episode is
    <= 0, and the controllable plants never go below 0. *)
Theorem episode_rewards_nonpositive (seed : Z) (actions : list (list Q))
    (s : SmartGridEnv G) :
  (0 <= seed)%Z -> constructed s ->
  Forall (Forall (fun a => 0 <= a)) actions ->
  let out := run default_rng standard_normal float32 seed actions s in
  (forall r, In (Returned r) (snd (fst out)) -> reward r <= 0) /\
  exists g,
    grid (snd out) = Some g /\
    Forall (fun p => 0 <= current_power p) (plants g).
Proof.
  intros Hseed Hs Hact.
  destruct (run_invariants seed actions s Hseed Hs)
    as (x & evs & d & Hrun & Hcap & Hnn).
  destruct (Hnn Hact) as ((Ng & Nc & Nn) & Hrew).
  cbv zeta. rewrite Hrun. cbn [fst snd scenario_env grid].
  split; [exact Hrew|].
  exists (scenario_grid d). split; [reflexivity|].
  destruct Hcap as (_ & _ & _ & (Hs0 & _) & (Hw0 & _) & _).
  unfold scenario_grid. cbn [plants]. repeat constructor; assumption.
Qed.

(** X14: in the info returned by [step] the generation is the sum of
    the five plants' outputs, the status list describes the five plants
    in order, the three forecasts have 12 entries, and the blackout flag
    is set exactly when the generation reported is below the demand
    reported. *)
Theorem step_info_consistent (s : SmartGridEnv G) (action : list Q) :
  in_episode s -> (3 <= List.length action)%nat ->
  exists r g' b,
    fst (step standard_normal float32 action s) = Ok r /\
    grid (snd (step standard_normal float32 action s)) = Some g' /\
    total_generation (info r) = py_sum (map current_power (plants g')) /\
    plants_status (info r) = map status_of (plants g') /\
    List.length (plants_status (info r)) = 5%nat /\
    List.length (demand_forecast (info r)) = 12%nat /\
    List.length (solar_forecast (info r)) = 12%nat /\
    List.length (wind_forecast (info r)) = 12%nat /\
    info_is_blackout (info r) = Some b /\
    (b = true <-> total_generation (info r) < current_demand (info r)).
Proof.
  intros (rm & d & ->) Hlen.
  destruct action as [|a0 [|a1 [|a2 rest]]]; try (cbn in Hlen; lia).
  destruct (step_scenario_full d a0 a1 a2 rest)
    as (w & g' & _ & (_ & _ & _ & Ld & Ls & Lw) & Hstep).
  cbv zeta in Hstep. rewrite (Hstep rm). cbn [fst snd].
  eexists. eexists. eexists.
  split; [reflexivity|]. split; [reflexivity|].
  split; [reflexivity|]. split; [reflexivity|]. split; [reflexivity|].
  cbn [info scenario_info demand_forecast solar_forecast wind_forecast
       weather].
  unfold scale_by. rewrite !length_map.
  split; [exact Ld|]. split; [exact Ls|]. split; [exact Lw|].
  split; [reflexivity|].
  cbn [total_generation current_demand city_load].
  unfold step_balance. cbn [is_blackout].
  rewrite Qltb_lt.
  match goal with
  | |- context [py_sum (map current_load ?l)] =>
      change (py_sum (map current_load l))
        with (0 + actual_demand w * 400)
  end.
  cbn [scenario_info total_generation current_demand city_load].
  set (tg := py_sum _). clearbody tg.
  split; intro H; lra.
Qed.

End EpisodeFacts.

(** ** These properties at work on the example generator *)

Lemma reset_outcome_witness :
  reset toy_default_rng toy_standard_normal toy_float32 (-1)
        (new_SmartGridEnv None)
  = (Raise GymError, new_SmartGridEnv None)
  /\
  exists obs inf s' g,
    reset toy_default_rng toy_standard_normal toy_float32 42
          (new_SmartGridEnv None)
    = (Ok (obs, inf), s') /\
    in_episode s' /\ render_mode s' = None /\
    current_step s' = Some 0%Z /\
    Z.of_nat (List.length obs) = obs_size s' /\
    info_is_blackout inf = None /\
    grid s' = Some g /\
    firstn 3 (plants g) = [gas_plant; coal_plant; nuclear_plant] /\
    total_generation inf == solar_power inf + wind_power inf.
Proof.
  split.
  - apply (proj1 (reset_outcome toy_rng toy_default_rng toy_standard_normal
                                toy_float32)).
    lia.
  - apply (proj2 (reset_outcome toy_rng toy_default_rng toy_standard_normal
                                toy_float32)).
    + lia.
    + repeat split.
Defined.

Lemma step_observation_witness :
  let s := scenario_env None example_dynamic in
  exists r n w' g',
    fst (step toy_standard_normal toy_float32 [1; 1#2; 1] s) = Ok r /\
    current_step s = Some n /\
    current_weather (snd (step toy_standard_normal toy_float32 [1; 1#2; 1] s))
    = Some w' /\
    grid (snd (step toy_standard_normal toy_float32 [1; 1#2; 1] s))
    = Some g' /\
    Z.of_nat (List.length (observation r)) = obs_size s /\
    List.length (forecast_wind w') = 12%nat /\
    List.length (forecast_solar w') = 12%nat /\
    List.length (forecast_demand w') = 12%nat /\
    observation r
    = map toy_float32
        (map (fun p => current_power p / p_max p) (plants g')
         ++ [actual_wind w'; actual_solar w'; actual_demand w']
         ++ forecast_wind w' ++ forecast_solar w' ++ forecast_demand w'
         ++ [inject_Z (n + 1) / inject_Z 24]).
Proof.
  apply (step_observation toy_rng toy_standard_normal toy_float32
                          (scenario_env None example_dynamic) [1; 1#2; 1]).
  - exists None, example_dynamic. reflexivity.
  - cbn. lia.
Defined.

Lemma episode_within_capacity_witness :
  exists g,
    grid (snd (run toy_default_rng toy_standard_normal toy_float32 42
                   [[2; -1; 1]; [1]; [1; 1; 1; 1]] (new_SmartGridEnv None)))
    = Some g /\
    Forall (fun p => current_power p <= p_max p) (plants g) /\
    Forall (fun p => 0 <= current_power p) (skipn 3 (plants g)) /\
    Forall (fun c => 0 <= current_load c) (consumers g).
Proof.
  apply (episode_within_capacity toy_rng toy_default_rng toy_standard_normal
           toy_float32 42 [[2; -1; 1]; [1]; [1; 1; 1; 1]]
           (new_SmartGridEnv None)).
  - lia.
  - repeat split.
Defined.

Lemma renewables_follow_weather_witness :
  let s :=
    snd (run toy_default_rng toy_standard_normal toy_float32 42
             [[1; 1; 1]; [0; 1#2; 1]] (new_SmartGridEnv None)) in
  exists r w' g solar wind,
    grid s = Some g /\
    nth_error (plants g) 3 = Some solar /\
    nth_error (plants g) 4 = Some wind /\
    fst (step toy_standard_normal toy_float32 [1; 0; 1#2] s) = Ok r /\
    current_weather (snd (step toy_standard_normal toy_float32 [1; 0; 1#2] s))
    = Some w' /\
    solar_power (info r)
    == current_power solar
       + (Qmin (actual_solar w' * 150) 150 - current_power solar) /\
    wind_power (info r)
    == current_power wind
       + (Qmin (actual_wind w' * 100) 100 - current_power wind) /\
    current_demand (info r) = actual_demand w' * 400.
Proof.
  apply (renewables_follow_weather toy_rng toy_default_rng
           toy_standard_normal toy_float32 42 [[1; 1; 1]; [0; 1#2; 1]]
           (new_SmartGridEnv None) [1; 0; 1#2]).
  - lia.
  - repeat split.
  - cbn. lia.
Defined.

Lemma episode_rewards_nonpositive_witness :
  let out :=
    run toy_default_rng toy_standard_normal toy_float32 42
        [[1; 1; 1]; [0; 1#2; 1]] (new_SmartGridEnv None) in
  (forall r, In (Returned r) (snd (fst out)) -> reward r <= 0) /\
  exists g,
    grid (snd out) = Some g /\
    Forall (fun p => 0 <= current_power p) (plants g).
Proof.
  apply (episode_rewards_nonpositive toy_rng toy_default_rng
           toy_standard_normal toy_float32 42 [[1; 1; 1]; [0; 1#2; 1]]
           (new_SmartGridEnv None)).
  - lia.
  - repeat split.
  - repeat constructor; lra.
Defined.

Lemma step_info_consistent_witness :
  let s := scenario_env None example_dynamic in
  exists r g' b,
    fst (step toy_standard_normal toy_float32 [1; 1#2; 1] s) = Ok r /\
    grid (snd (step toy_standard_normal toy_float32 [1; 1#2; 1] s))
    = Some g' /\
    total_generation (info r) = py_sum (map current_power (plants g')) /\
    plants_status (info r) = map status_of (plants g') /\
    List.length (plants_status (info r)) = 5%nat /\
    List.length (demand_forecast (info r)) = 12%nat /\
    List.length (solar_forecast (info r)) = 12%nat /\
    List.length (wind_forecast (info r)) = 12%nat /\
    info_is_blackout (info r) = Some b /\
    (b = true <-> total_generation (info r) < current_demand (info r)).
Proof.
  apply (step_info_consistent toy_rng toy_standard_normal toy_float32
                              (scenario_env None example_dynamic)
                              [1; 1#2; 1]).
  - exists None, example_dynamic. reflexivity.
  - cbn. lia.
Defined.

(** ** The sliders *)

Lemma clamp_unit (q : Q) : unit_interval (py_max 0 (py_min 1 q)).
Proof. unfold unit_interval, py_max, py_min. qcases; split; lra. Qed.

Lemma clamp_inside (q : Q) : 0 <= q -> q <= 1 -> py_max 0 (py_min 1 q) == q.
Proof. intros H0 H1. unfold py_max, py_min. qcases; lra. Qed.

Lemma clamp_above (q : Q) : 1 <= q -> py_max 0 (py_min 1 q) == 1.
Proof. intro H. unfold py_max, py_min. qcases; lra. Qed.

Lemma clamp_below (q : Q) : q <= 0 -> py_max 0 (py_min 1 q) == 0.
Proof. intro H. unfold py_max, py_min. qcases; lra. Qed.

Lemma update_value_cases (s : UI.Slider) (mouse_x : Z) :
  (UI.w (UI.rect s) = 0%Z /\
   UI._update_value s mouse_x = Raise ZeroDivisionError)
  \/
  (UI.w (UI.rect s) <> 0%Z /\
   UI._update_value s mouse_x
   = Ok (UI.set_value s
           (py_max 0 (py_min 1 (inject_Z (mouse_x - UI.x (UI.rect s))
                                / inject_Z (UI.w (UI.rect s))))))).
Proof.
  unfold UI._update_value.
  destruct (Z.eqb_spec (UI.w (UI.rect s)) 0); [left|right]; auto.
Qed.

Lemma update_value_keeps (s s' : UI.Slider) (mouse_x : Z) :
  UI._update_value s mouse_x = Ok s' ->
  slider_static s' = slider_static s /\
  UI.is_dragging s' = UI.is_dragging s /\
  unit_interval (UI.value s').
Proof.
  destruct (update_value_cases s mouse_x) as [[_ ->]|[_ ->]];
    [discriminate|].
  intro H. injection H as <-.
  split; [reflexivity|]. split; [reflexivity|]. apply clamp_unit.
Qed.

Lemma handle_event_keeps (s s' : UI.Slider) (event : UI.Event) :
  UI.handle_event s event = Ok s' ->
  slider_static s' = slider_static s /\
  (unit_interval (UI.value s) -> unit_interval (UI.value s')).
Proof.
  destruct event as [button pos|button pos|pos|key| |];
    cbn [UI.handle_event]; intro H.
  - destruct (button =? 1)%Z; [destruct (UI.collidepoint _ _)|].
    + apply update_value_keeps in H. destruct H as (H1 & _ & H2).
      split; [exact H1|]. intros _. exact H2.
    + injection H as <-. split; [reflexivity|auto].
    + injection H as <-. split; [reflexivity|auto].
  - destruct (button =? 1)%Z; injection H as <-; split; auto.
  - destruct (UI.is_dragging s).
    + apply update_value_keeps in H. destruct H as (H1 & _ & H2).
      split; [exact H1|]. intros _. exact H2.
    + injection H as <-. split; [reflexivity|auto].
  - injection H as <-. split; [reflexivity|auto].
  - injection H as <-. split; [reflexivity|auto].
  - injection H as <-. split; [reflexivity|auto].
Qed.

Lemma handle_event_returns (s : UI.Slider) (event : UI.Event) :
  UI.w (UI.rect s) <> 0%Z -> exists s', UI.handle_event s event = Ok s'.
Proof.
  intro Hw.
  assert (U : forall s0 m, UI.rect s0 = UI.rect s ->
                           exists s', UI._update_value s0 m = Ok s').
  { intros s0 m E.
    destruct (update_value_cases s0 m) as [[Z0 _]|[_ ->]]; [|eauto].
    rewrite E in Z0. contradiction. }
  destruct event as [button pos|button pos|pos|key| |];
    cbn [UI.handle_event]; eauto.
  - destruct (button =? 1)%Z; [destruct (UI.collidepoint _ _)|]; eauto.
  - destruct (button =? 1)%Z; eauto.
  - destruct (UI.is_dragging s); eauto.
Qed.

Lemma static_nonzero_width (sl sl' : list UI.Slider) :
  map slider_static sl' = map slider_static sl ->
  Forall (fun s => UI.w (UI.rect s) <> 0%Z) sl ->
  Forall (fun s => UI.w (UI.rect s) <> 0%Z) sl'.
Proof.
  revert sl'. induction sl as [|s sl IH]; intros [|s' sl'] E F;
    try discriminate; [constructor|].
  cbn in E. injection E as E1 E2. inversion F; subst.
  constructor; [|now apply IH].
  assert (R : UI.rect s' = UI.rect s)
    by (unfold slider_static in E1; congruence).
  now rewrite R.
Qed.

Lemma sliders_handle_keeps (sl sl' : list UI.Slider) (event : UI.Event) :
  UI.sliders_handle sl event = Ok sl' ->
  map slider_static sl' = map slider_static sl /\
  (Forall (fun s => unit_interval (UI.value s)) sl ->
   Forall (fun s => unit_interval (UI.value s)) sl').
Proof.
  revert sl'. induction sl as [|s sl IH]; intros sl' H; cbn in H.
  - injection H as <-. split; auto.
  - destruct (UI.handle_event s event) as [s1|e] eqn:E1; [|discriminate].
    destruct (UI.sliders_handle sl event) as [sl1|e] eqn:E2; [|discriminate].
    injection H as <-.
    destruct (handle_event_keeps _ _ _ E1) as (A1 & A2).
    destruct (IH _ eq_refl) as (B1 & B2).
    split; [cbn; now rewrite A1, B1|].
    intro F. inversion F; subst. constructor; auto.
Qed.

Lemma sliders_handle_returns (sl : list UI.Slider) (event : UI.Event) :
  Forall (fun s => UI.w (UI.rect s) <> 0%Z) sl ->
  exists sl', UI.sliders_handle sl event = Ok sl'.
Proof.
  induction 1 as [|s sl Hs _ IH]; cbn; [eauto|].
  destruct (handle_event_returns s event Hs) as (s' & ->).
  destruct IH as (sl' & ->). eauto.
Qed.

Lemma events_loop_done (events : list UI.Event) (ui ui' : UI.HumanUI) :
  UI.events_loop ui events = UI.Done ui' ->
  map slider_static (UI.sliders ui') = map slider_static (UI.sliders ui) /\
  (Forall (fun s => unit_interval (UI.value s)) (UI.sliders ui) ->
   Forall (fun s => unit_interval (UI.value s)) (UI.sliders ui')) /\
  UI.turn_validated ui'
  = (UI.turn_validated ui || existsb is_return events)%bool /\
  ~ In UI.QUIT events.
Proof.
  revert ui. induction events as [|event rest IH]; intros ui H.
  - cbn in H. injection H as <-. cbn. rewrite orb_false_r. tauto.
  - assert (Q : event <> UI.QUIT) by (intros ->; discriminate).
    assert (S : exists sl,
               UI.sliders_handle (UI.sliders ui) event = Ok sl /\
               UI.events_loop
                 (UI.mkHumanUI sl (UI.turn_validated ui || is_return event))
                 rest = UI.Done ui').
    { destruct (UI.sliders_handle (UI.sliders ui) event) as [sl|e] eqn:E.
      - exists sl. split; [reflexivity|].
        destruct event; cbn [UI.events_loop is_return] in *;
          rewrite ?E in H; rewrite ?orb_false_r; try exact H;
          try contradiction.
        destruct (key =? UI.K_RETURN)%Z; [rewrite orb_true_r|
                                           rewrite orb_false_r]; exact H.
      - destruct event; cbn [UI.events_loop] in H; rewrite ?E in H;
          discriminate. }
    destruct S as (sl & E & L).
    destruct (sliders_handle_keeps _ _ _ E) as (A1 & A2).
    destruct (IH _ L) as (B1 & B2 & B3 & B4). cbn in B1, B2, B3.
    split; [congruence|]. split; [auto|].
    split; [cbn; now rewrite B3, orb_assoc|].
    intros [F|F]; [now apply Q|now apply B4].
Qed.

Lemma events_loop_cases (events : list UI.Event) (ui : UI.HumanUI) :
  Forall (fun s => UI.w (UI.rect s) <> 0%Z) (UI.sliders ui) ->
  (In UI.QUIT events -> UI.events_loop ui events = UI.Exited) /\
  (~ In UI.QUIT events -> exists ui', UI.events_loop ui events = UI.Done ui').
Proof.
  revert ui. induction events as [|event rest IH]; intros ui W.
  - split; [intros []|]. intros _. cbn. eauto.
  - destruct (sliders_handle_returns _ event W) as (sl & E).
    assert (W' : Forall (fun s => UI.w (UI.rect s) <> 0%Z) sl).
    { apply (static_nonzero_width (UI.sliders ui)); [|exact W].
      apply (sliders_handle_keeps _ _ _ E). }
    destruct event; cbn [UI.events_loop]; rewrite ?E;
      try (match goal with
           | |- context [UI.events_loop ?u rest] =>
               destruct (IH u W') as (I1 & I2)
           end;
           split;
           [intros [F|F]; [discriminate|auto]
           |intro N; apply I2; intro F; apply N; now right]).
    split; [reflexivity|]. intro N. exfalso. apply N. now left.
Qed.

(** X15: when [handle_events] returns, every slider is where and what
    it was (rectangle, index, name, type, capacity, ramp rate, current
    power), a slider value that was in [0,1] still is, no QUIT event was
    pending, and [turn_validated] is set exactly when Enter was pressed
    among the pending events, whatever it was before. *)
Theorem handle_events_outcome (ui ui' : UI.HumanUI) (events : list UI.Event) :
  UI.handle_events ui events = UI.Done ui' ->
  map slider_static (UI.sliders ui') = map slider_static (UI.sliders ui) /\
  (Forall (fun s => unit_interval (UI.value s)) (UI.sliders ui) ->
   Forall (fun s => unit_interval (UI.value s)) (UI.sliders ui')) /\
  UI.turn_validated ui' = existsb is_return events /\
  ~ In UI.QUIT events.
Proof.
  unfold UI.handle_events. intro H.
  destruct (events_loop_done _ _ _ H) as (A & B & C & D).
  cbn in A, B, C. auto.
Qed.

Lemma handle_events_outcome_witness :
  let events := [UI.MOUSEBUTTONDOWN 1 (250, 530)%Z; UI.MOUSEMOTION (900, 0)%Z;
                 UI.KEYDOWN 13; UI.MOUSEBUTTONUP 1 (900, 0)%Z] in
  let ui' :=
    match UI.handle_events example_ui events with
    | UI.Done u => u
    | _ => example_ui
    end in
  map slider_static (UI.sliders ui')
  = map slider_static (UI.sliders example_ui) /\
  (Forall (fun s => unit_interval (UI.value s)) (UI.sliders example_ui) ->
   Forall (fun s => unit_interval (UI.value s)) (UI.sliders ui')) /\
  UI.turn_validated ui' = existsb is_return events /\
  ~ In UI.QUIT events.
Proof.
  apply (handle_events_outcome example_ui). reflexivity.
Defined.

(** X16: with sliders of a width other than 0, [handle_events] raises
    no exception: it leaves through [exit()] when a QUIT event is
    pending and returns otherwise. *)
Theorem handle_events_never_fails (ui : UI.HumanUI) (events : list UI.Event) :
  Forall (fun s => UI.w (UI.rect s) <> 0%Z) (UI.sliders ui) ->
  (In UI.QUIT events -> UI.handle_events ui events = UI.Exited) /\
  (~ In UI.QUIT events ->
   exists ui', UI.handle_events ui events = UI.Done ui').
Proof.
  intro W. apply events_loop_cases. exact W.
Qed.

Lemma sliders_from_width (plants_info : list UI.PlantInfo) (i : Z) :
  Forall (fun s => UI.w (UI.rect s) <> 0%Z) (UI.sliders_from i plants_info).
Proof.
  revert i. induction plants_info as [|p rest IH]; intro i; cbn;
    constructor; [discriminate|apply IH].
Qed.

Lemma handle_events_never_fails_witness :
  UI.handle_events example_ui [UI.KEYDOWN 13; UI.QUIT] = UI.Exited /\
  exists ui',
    UI.handle_events example_ui [UI.MOUSEMOTION (300, 530)%Z; UI.KEYDOWN 13]
    = UI.Done ui'.
Proof.
  split.
  - apply (proj1 (handle_events_never_fails
                    example_ui [UI.KEYDOWN 13; UI.QUIT]
                    ltac:(repeat constructor; discriminate))).
    right. left. reflexivity.
  - apply (proj2 (handle_events_never_fails
                    example_ui [UI.MOUSEMOTION (300, 530)%Z; UI.KEYDOWN 13]
                    ltac:(repeat constructor; discriminate))).
    intros [F|[F|[]]]; discriminate F.
Defined.

(** X17: a slider that is not being dragged ignores every event but a
    left click inside its rectangle. *)
Theorem idle_slider_ignores (s : UI.Slider) (event : UI.Event) :
  UI.is_dragging s = false ->
  (forall pos, event = UI.MOUSEBUTTONDOWN 1 pos ->
               UI.collidepoint (UI.rect s) pos = false) ->
  UI.handle_event s event = Ok s.
Proof.
  intros Hd Hout.
  destruct event as [button pos|button pos|pos|key| |];
    cbn [UI.handle_event]; try reflexivity.
  - destruct (Z.eqb_spec button 1) as [->|]; [|reflexivity].
    now rewrite (Hout pos eq_refl).
  - destruct (button =? 1)%Z; [|reflexivity].
    destruct s; cbn in *. now subst.
  - now rewrite Hd.
Qed.

Lemma idle_slider_ignores_witness :
  UI.handle_event (UI.new_Slider 50 520 400 25 0 "Gas" "gas" 100 50)
                  (UI.MOUSEMOTION (300, 530)%Z)
  = Ok (UI.new_Slider 50 520 400 25 0 "Gas" "gas" 100 50).
Proof.
  apply (idle_slider_ignores
           (UI.new_Slider 50 520 400 25 0 "Gas" "gas" 100 50)
           (UI.MOUSEMOTION (300, 530)%Z)).
  - reflexivity.
  - intros pos H. discriminate H.
Defined.

Lemma fraction_range (a w : Z) :
  (0 <= a < w)%Z -> 0 <= inject_Z a / inject_Z w /\ inject_Z a / inject_Z w < 1.
Proof.
  intros [H0 H1].
  assert (W : 0 < inject_Z w) by (change 0 with (inject_Z 0);
                                   rewrite <- Zlt_Qlt; lia).
  split.
  - apply Qle_shift_div_l; [exact W|]. rewrite Qmult_0_l.
    change 0 with (inject_Z 0). rewrite <- Zle_Qle. exact H0.
  - apply Qlt_shift_div_r; [exact W|]. rewrite Qmult_1_l.
    rewrite <- Zlt_Qlt. exact H1.
Qed.

(** X18: a left click inside the rectangle of a slider starts the
    dragging and sets the value to the horizontal offset of the click
    over the width, which is in [0,1); nothing else changes and no
    exception is raised. *)
Theorem click_sets_value (s : UI.Slider) (pos : Z * Z) :
  UI.collidepoint (UI.rect s) pos = true ->
  exists s',
    UI.handle_event s (UI.MOUSEBUTTONDOWN 1 pos) = Ok s' /\
    slider_static s' = slider_static s /\
    UI.is_dragging s' = true /\
    UI.value s'
    == inject_Z (fst pos - UI.x (UI.rect s)) / inject_Z (UI.w (UI.rect s)) /\
    0 <= UI.value s' /\ UI.value s' < 1.
Proof.
  intro Hin. cbn [UI.handle_event Z.eqb Pos.eqb]. rewrite Hin.
  unfold UI.collidepoint in Hin.
  apply andb_true_iff in Hin. destruct Hin as [Hin _].
  apply andb_true_iff in Hin. destruct Hin as [Hin _].
  apply andb_true_iff in Hin. destruct Hin as [Hx0 Hx1].
  apply Z.leb_le in Hx0. apply Z.ltb_lt in Hx1.
  destruct (fraction_range (fst pos - UI.x (UI.rect s)) (UI.w (UI.rect s)))
    as (F0 & F1); [lia|].
  destruct (update_value_cases (UI.set_dragging s true) (fst pos))
    as [[Z0 _]|[_ ->]].
  { cbn in Z0. lia. }
  eexists. split; [reflexivity|].
  split; [reflexivity|]. split; [reflexivity|].
  cbn [UI.value UI.set_value UI.set_dragging UI.rect].
  rewrite clamp_inside by lra. split; [reflexivity|]. split; assumption.
Qed.

Lemma click_sets_value_witness :
  let s := UI.new_Slider 50 520 400 25 0 "Gas" "gas" 100 50 in
  exists s',
    UI.handle_event s (UI.MOUSEBUTTONDOWN 1 (250, 530)%Z) = Ok s' /\
    slider_static s' = slider_static s /\
    UI.is_dragging s' = true /\
    UI.value s'
    == inject_Z (fst (250, 530)%Z - UI.x (UI.rect s))
       / inject_Z (UI.w (UI.rect s)) /\
    0 <= UI.value s' /\ UI.value s' < 1.
Proof.
  apply (click_sets_value (UI.new_Slider 50 520 400 25 0 "Gas" "gas" 100 50)
                          (250, 530)%Z).
  reflexivity.
Defined.

(** X19: while a slider of positive width is dragged, a mouse motion
    sets its value to 0 at or left of the left edge, to 1 at or right of
    the right edge, and to offset over width in between. *)
Theorem drag_clamps (s : UI.Slider) (pos : Z * Z) :
  UI.is_dragging s = true -> (0 < UI.w (UI.rect s))%Z ->
  exists s',
    UI.handle_event s (UI.MOUSEMOTION pos) = Ok s' /\
    slider_static s' = slider_static s /\
    UI.is_dragging s' = true /\
    ((fst pos <= UI.x (UI.rect s))%Z -> UI.value s' == 0) /\
    ((UI.x (UI.rect s) + UI.w (UI.rect s) <= fst pos)%Z ->
     UI.value s' == 1) /\
    ((UI.x (UI.rect s) <= fst pos <= UI.x (UI.rect s) + UI.w (UI.rect s))%Z ->
     UI.value s'
     == inject_Z (fst pos - UI.x (UI.rect s)) / inject_Z (UI.w (UI.rect s))).
Proof.
  intros Hd Hw. cbn [UI.handle_event]. rewrite Hd.
  destruct (update_value_cases s (fst pos)) as [[Z0 _]|[_ ->]]; [lia|].
  eexists. split; [reflexivity|].
  split; [reflexivity|]. split; [exact Hd|].
  cbn [UI.value UI.set_value].
  assert (W : 0 < inject_Z (UI.w (UI.rect s)))
    by (change 0 with (inject_Z 0); rewrite <- Zlt_Qlt; lia).
  set (a := (fst pos - UI.x (UI.rect s))%Z).
  split; [|split].
  - intro H. apply clamp_below. apply Qle_shift_div_r; [exact W|].
    rewrite Qmult_0_l. change 0 with (inject_Z 0). rewrite <- Zle_Qle.
    subst a. lia.
  - intro H. apply clamp_above. apply Qle_shift_div_l; [exact W|].
    rewrite Qmult_1_l. rewrite <- Zle_Qle. subst a. lia.
  - intro H. apply clamp_inside.
    + apply Qle_shift_div_l; [exact W|]. rewrite Qmult_0_l.
      change 0 with (inject_Z 0). rewrite <- Zle_Qle. subst a. lia.
    + apply Qle_shift_div_r; [exact W|]. rewrite Qmult_1_l.
      rewrite <- Zle_Qle. subst a. lia.
Qed.

Lemma drag_clamps_witness :
  let s := UI.mkSlider (UI.mkRect 50 520 400 25) 0 "Gas" "gas" 100 50 0
                       (1#2) true in
  exists s',
    UI.handle_event s (UI.MOUSEMOTION (900, 0)%Z) = Ok s' /\
    slider_static s' = slider_static s /\
    UI.is_dragging s' = true /\
    ((fst (900, 0)%Z <= UI.x (UI.rect s))%Z -> UI.value s' == 0) /\
    ((UI.x (UI.rect s) + UI.w (UI.rect s) <= fst (900, 0)%Z)%Z ->
     UI.value s' == 1) /\
    ((UI.x (UI.rect s) <= fst (900, 0)%Z
      <= UI.x (UI.rect s) + UI.w (UI.rect s))%Z ->
     UI.value s'
     == inject_Z (fst (900, 0)%Z - UI.x (UI.rect s))
        / inject_Z (UI.w (UI.rect s))).
Proof.
  apply (drag_clamps
           (UI.mkSlider (UI.mkRect 50 520 400 25) 0 "Gas" "gas" 100 50 0
                        (1#2) true)
           (900, 0)%Z).
  - reflexivity.
  - cbn. lia.
Defined.

(** ** The preview of the next hour *)

Lemma clamped_target_id (p : PowerPlant) (t : Q) :
  t <= 0 \/ p_min p <= t -> t <= p_max p -> clamped_target p t = t.
Proof.
  intros H Hm. unfold clamped_target, py_min.
  assert (C : (t >? 0) && (t <? p_min p) = false).
  { apply andb_false_iff. destruct H as [H|H].
    - left. now apply Qgtb_le.
    - right. now apply Qltb_ge. }
  rewrite C. qcase (p_max p) t; [lra|reflexivity].
Qed.

Lemma ramp_delta_clamp (p : PowerPlant) (c : Q) :
  0 <= ramp_rate p ->
  ramp_delta p c
  == py_max (- ramp_rate p) (py_min (ramp_rate p) (c - current_power p)).
Proof.
  intro Hr. unfold ramp_delta, py_max, py_min.
  set (d := c - current_power p).
  destruct (Qabs_cases d) as [[A B]|[A B]]; unfold Qgtb;
    qcase d (ramp_rate p); qcase (ramp_rate p) (Qabs d); qcases; lra.
Qed.

(** X20: the output the control room announces for the next hour is
    the output [step_power] gives the plant the slider shows, for a
    slider value <= 1 and a target that is not strictly between 0 and
    the plant's minimum. *)
Theorem preview_matches_plant (s : UI.Slider) (p : PowerPlant) :
  mirrors s p -> 0 <= ramp_rate p -> 0 <= p_max p -> UI.value s <= 1 ->
  UI.value s * UI.p_max s <= 0 \/ p_min p <= UI.value s * UI.p_max s ->
  UI.next_turn_mw s
  == current_power (fst (step_power p (UI.value s * UI.p_max s))).
Proof.
  intros (M1 & M2 & M3) Hr Hm Hv Ht.
  rewrite step_power_current. unfold UI.next_turn_mw.
  rewrite M1, M2, M3 in *.
  set (t := UI.value s * p_max p) in *.
  assert (T : t <= p_max p) by (subst t; nra).
  rewrite (clamped_target_id p t Ht T).
  rewrite (ramp_delta_clamp p t Hr). reflexivity.
Qed.

Lemma preview_matches_plant_witness :
  let s := UI.mkSlider (UI.mkRect 50 660 400 25) 2 "Nuclear Plant" "nuclear"
                       300 20 160 (3#4) false in
  let p := at_output nuclear_plant (160, true) in
  UI.next_turn_mw s
  == current_power (fst (step_power p (UI.value s * UI.p_max s))).
Proof.
  apply (preview_matches_plant
           (UI.mkSlider (UI.mkRect 50 660 400 25) 2 "Nuclear Plant" "nuclear"
                        300 20 160 (3#4) false)
           (at_output nuclear_plant (160, true))).
  - repeat split.
  - cbn. lra.
  - cbn. lra.
  - cbn. lra.
  - right. cbn. lra.
Defined.

(** X21: for a plant at rest and a target strictly between 0 and the
    plant's minimum, the control room announces a positive output for
    the next hour (the smaller of ramp rate and target) while
    [step_power] leaves the plant at 0. *)
Theorem preview_ignores_minimum (s : UI.Slider) (p : PowerPlant) :
  mirrors s p -> current_power p == 0 -> 0 < ramp_rate p -> 0 <= p_max p ->
  0 < UI.value s * UI.p_max s -> UI.value s * UI.p_max s < p_min p ->
  current_power (fst (step_power p (UI.value s * UI.p_max s))) == 0 /\
  UI.next_turn_mw s == Qmin (ramp_rate p) (UI.value s * UI.p_max s) /\
  0 < UI.next_turn_mw s.
Proof.
  intros (M1 & M2 & M3) H0 Hr Hm Ht0 Ht1.
  rewrite step_power_current. unfold UI.next_turn_mw.
  rewrite M1, M2, M3 in *.
  set (t := UI.value s * p_max p) in *.
  assert (C : clamped_target p t = 0).
  { unfold clamped_target, py_min.
    replace ((t >? 0) && (t <? p_min p)) with true.
    - qcase (p_max p) 0; [lra|reflexivity].
    - symmetry. apply andb_true_iff. split;
        [now apply Qgtb_gt|now apply Qltb_lt]. }
  rewrite C. split.
  - rewrite (ramp_delta_clamp p 0) by lra.
    unfold py_max, py_min, Qgtb.
    qcase (0 - current_power p) (ramp_rate p); qcases; lra.
  - assert (P : current_power p
                + py_max (- ramp_rate p)
                         (py_min (ramp_rate p) (t - current_power p))
                == Qmin (ramp_rate p) t).
    { unfold py_max, py_min, Qgtb.
      destruct (Q.min_spec (ramp_rate p) t) as [[A B]|[A B]]; rewrite B;
        qcase (t - current_power p) (ramp_rate p); qcases; lra. }
    split; [exact P|]. rewrite P.
    destruct (Q.min_spec (ramp_rate p) t) as [[A B]|[A B]]; rewrite B; lra.
Qed.

Lemma preview_ignores_minimum_witness :
  let s := UI.mkSlider (UI.mkRect 50 660 400 25) 2 "Nuclear Plant" "nuclear"
                       300 20 0 (1#4) false in
  current_power (fst (step_power nuclear_plant (UI.value s * UI.p_max s)))
  == 0 /\
  UI.next_turn_mw s
  == Qmin (ramp_rate nuclear_plant) (UI.value s * UI.p_max s) /\
  0 < UI.next_turn_mw s.
Proof.
  apply (preview_ignores_minimum
           (UI.mkSlider (UI.mkRect 50 660 400 25) 2 "Nuclear Plant" "nuclear"
                        300 20 0 (1#4) false)
           nuclear_plant).
  - repeat split.
  - reflexivity.
  - cbn. lra.
  - cbn. lra.
  - cbn. lra.
  - cbn. lra.
Defined.

(** ** Showing the plants' output *)

Lemma replace_nth_length {A} (l : list A) (n : nat) (a : A) :
  List.length (replace_nth l n a) = List.length l.
Proof.
  revert n. induction l as [|h t IH]; intros [|n]; cbn; auto.
Qed.

Lemma replace_nth_nth_error {A} (l : list A) (n i : nat) (a : A) :
  (n < List.length l)%nat ->
  nth_error (replace_nth l n a) i
  = if (i =? n)%nat then Some a else nth_error l i.
Proof.
  revert n i. induction l as [|h t IH]; intros n i Hn; cbn in Hn; [lia|].
  destruct n as [|n], i as [|i]; cbn; try reflexivity.
  apply IH. lia.
Qed.

Lemma py_store_nat {A} (l : list A) (k : nat) (a : A) :
  py_store l (Z.of_nat k) a = replace_nth l k a.
Proof.
  unfold py_store.
  destruct (Z.ltb_spec (Z.of_nat k) 0); [lia|]. now rewrite Nat2Z.id.
Qed.

Lemma update_from_spec (powers : list Q) :
  forall (k : nat) (sl : list UI.Slider),
    ((k <= List.length sl < k + List.length powers)%nat ->
     UI.update_from (Z.of_nat k) powers sl = Raise IndexError) /\
    ((k + List.length powers <= List.length sl)%nat ->
     exists sl',
       UI.update_from (Z.of_nat k) powers sl = Ok sl' /\
       map slider_setting sl' = map slider_setting sl /\
       forall i s,
         nth_error sl i = Some s ->
         nth_error sl' i
         = Some (if ((k <=? i) && (i <? k + List.length powers))%nat
                 then UI.update_state s (nth (i - k) powers 0)
                 else s)).
Proof.
  induction powers as [|cp rest IH]; intros k sl; cbn [UI.update_from length].
  - split; [lia|]. intros _. exists sl. split; [reflexivity|].
    split; [reflexivity|]. intros i s Hs.
    replace ((k <=? i)%nat && (i <? k + 0)%nat) with false; [exact Hs|].
    symmetry. apply andb_false_iff.
    destruct (Nat.leb_spec k i); [right; apply Nat.ltb_ge; lia|now left].
  - rewrite py_index_nat.
    destruct (nth_error sl k) as [s0|] eqn:N.
    + assert (Hk : (k < List.length sl)%nat)
        by (apply nth_error_Some; congruence).
      replace (Z.of_nat k + 1)%Z with (Z.of_nat (S k)) by lia.
      rewrite py_store_nat.
      destruct (IH (S k) (replace_nth sl k (UI.update_state s0 cp)))
        as (I1 & I2).
      rewrite replace_nth_length in I1, I2.
      split.
      * intro H. apply I1. lia.
      * intro H. destruct I2 as (sl' & E & St & Nth); [lia|].
        exists sl'. split; [exact E|]. split.
        { rewrite St. apply (replace_nth_static slider_setting sl k _ s0);
            [|exact Hk].
          now rewrite (nth_error_nth _ _ s0 N). }
        intros i s Hs.
        destruct (Nat.eqb_spec i k) as [->|Hik].
        { rewrite (Nth k (UI.update_state s0 cp)).
          - replace ((S k <=? k)%nat && (k <? S k + List.length rest)%nat)
              with false
              by (symmetry; apply andb_false_iff; left; apply Nat.leb_gt; lia).
            replace ((k <=? k)%nat && (k <? k + S (List.length rest))%nat)
              with true
              by (symmetry; apply andb_true_iff; split;
                  [apply Nat.leb_le|apply Nat.ltb_lt]; lia).
            rewrite Nat.sub_diag. cbn [nth]. congruence.
          - rewrite replace_nth_nth_error by exact Hk.
            now rewrite Nat.eqb_refl. }
        rewrite (Nth i s).
        { destruct (Nat.leb_spec (S k) i) as [L|L].
          - replace (k <=? i)%nat with true
              by (symmetry; apply Nat.leb_le; lia).
            cbn [andb].
            replace (i <? k + S (List.length rest))%nat
              with (i <? S k + List.length rest)%nat by (f_equal; lia).
            destruct (i <? S k + List.length rest)%nat; [|reflexivity].
            replace (i - k)%nat with (S (i - S k)) by lia. reflexivity.
          - cbn [andb].
            replace (k <=? i)%nat with false
              by (symmetry; apply Nat.leb_gt; lia).
            reflexivity. }
        rewrite replace_nth_nth_error by exact Hk.
        destruct (Nat.eqb_spec i k); [contradiction|exact Hs].
    + apply nth_error_None in N. split; [reflexivity|]. intro H. lia.
Qed.

(** X22: [update_plants_state] reads the first three powers only; it
    raises [IndexError] when there are fewer sliders than that, and
    otherwise writes each power into the slider of the same position and
    changes nothing else. *)
Theorem update_plants_state_cases (ui : UI.HumanUI) (powers : list Q) :
  let n := Nat.min 3 (List.length powers) in
  ((List.length (UI.sliders ui) < n)%nat ->
   UI.update_plants_state ui powers = Raise IndexError) /\
  ((n <= List.length (UI.sliders ui))%nat ->
   exists ui',
     UI.update_plants_state ui powers = Ok ui' /\
     UI.turn_validated ui' = UI.turn_validated ui /\
     map slider_setting (UI.sliders ui')
     = map slider_setting (UI.sliders ui) /\
     forall i s,
       nth_error (UI.sliders ui) i = Some s ->
       nth_error (UI.sliders ui') i
       = Some (if (i <? n)%nat then UI.update_state s (nth i powers 0)
               else s)).
Proof.
  cbv zeta. unfold UI.update_plants_state.
  destruct (update_from_spec (firstn 3 powers) 0 (UI.sliders ui))
    as (E1 & E2).
  rewrite length_firstn in E1, E2. cbn [Z.of_nat Nat.add] in E1, E2.
  split.
  - intro H. rewrite E1; [reflexivity|lia].
  - intro H. destruct (E2 H) as (sl' & -> & St & Nth).
    eexists. split; [reflexivity|]. split; [reflexivity|].
    split; [exact St|]. cbn [UI.sliders].
    intros i s Hs. rewrite (Nth i s Hs). cbn [Nat.leb andb].
    rewrite Nat.sub_0_r.
    destruct (Nat.ltb_spec i (Nat.min 3 (List.length powers))) as [L|L];
      [|reflexivity].
    do 2 f_equal.
    rewrite <- (firstn_skipn 3 powers) at 2.
    rewrite app_nth1; [reflexivity|]. rewrite length_firstn. exact L.
Qed.

Lemma update_plants_state_cases_witness :
  UI.update_plants_state (UI.mkHumanUI [] false) [10] = Raise IndexError /\
  exists ui',
    UI.update_plants_state example_ui [10; 20] = Ok ui' /\
    UI.turn_validated ui' = UI.turn_validated example_ui /\
    map slider_setting (UI.sliders ui')
    = map slider_setting (UI.sliders example_ui) /\
    forall i s,
      nth_error (UI.sliders example_ui) i = Some s ->
      nth_error (UI.sliders ui') i
      = Some (if (i <? Nat.min 3 (List.length [10; 20]))%nat
              then UI.update_state s (nth i [10; 20] 0)
              else s).
Proof.
  split.
  - apply (proj1 (update_plants_state_cases (UI.mkHumanUI [] false) [10])).
    cbn. lia.
  - apply (proj2 (update_plants_state_cases example_ui [10; 20])).
    cbn. lia.
Defined.

(** X23: after [setup_sliders] and [update_plants_state] on the same
    grid, as [play_human] calls them, there is one slider for each of
    the first three plants, with that plant's capacity, ramp rate and
    current power, value 0, not dragged, 400 wide and numbered from 0. *)
Theorem sliders_mirror_plants (ui : UI.HumanUI) (g : Grid) :
  exists ui',
    UI.update_plants_state (UI.setup_sliders ui (plants_info_of g))
                           (dynamic_plants_state g)
    = Ok ui' /\
    Forall2 mirrors (UI.sliders ui') (firstn 3 (plants g)) /\
    Forall (fun s => UI.value s = 0 /\ UI.is_dragging s = false /\
                     UI.w (UI.rect s) = 400%Z)
           (UI.sliders ui') /\
    map UI.index (UI.sliders ui')
    = map Z.of_nat (seq 0 (List.length (UI.sliders ui'))).
Proof.
  unfold plants_info_of, dynamic_plants_state.
  destruct g as [ps cs]. cbn [plants].
  destruct ps as [|p0 [|p1 [|p2 rest]]]; eexists;
    (split; [reflexivity|]);
    (split; [repeat constructor|]);
    (split; [repeat constructor|reflexivity]).
Qed.

(** ** The game loop *)

Lemma update_plants_state_returns (ui : UI.HumanUI) (powers : list Q) :
  (Nat.min 3 (List.length powers) <= List.length (UI.sliders ui))%nat ->
  exists ui',
    UI.update_plants_state ui powers = Ok ui' /\
    UI.turn_validated ui' = UI.turn_validated ui /\
    map slider_setting (UI.sliders ui') = map slider_setting (UI.sliders ui).
Proof.
  intro H. unfold UI.update_plants_state.
  destruct (update_from_spec (firstn 3 powers) 0 (UI.sliders ui))
    as (_ & E).
  rewrite length_firstn in E. cbn [Z.of_nat Nat.add] in E.
  destruct (E H) as (sl' & -> & St & _).
  eexists. split; [reflexivity|]. split; [reflexivity|exact St].
Qed.

Lemma quit_among (events : list UI.Event) :
  In UI.QUIT events \/ ~ In UI.QUIT events.
Proof.
  induction events as [|event rest IH]; [right; intros []|].
  destruct IH as [I|I]; [left; now right|].
  destruct event;
    try (right; intros [F|F]; [discriminate|contradiction]).
  left. now left.
Qed.

Section PlayLoop.

Variable G : Type.
Variable standard_normal : G -> Q * G.
Variable float32 : Q -> Q.

Lemma setting_length (sl sl' : list UI.Slider) :
  map slider_setting sl' = map slider_setting sl ->
  List.length sl' = List.length sl.
Proof. intro H. apply (f_equal (@List.length _)) in H.
       now rewrite !length_map in H. Qed.

Lemma static_length (sl sl' : list UI.Slider) :
  map slider_static sl' = map slider_static sl ->
  List.length sl' = List.length sl.
Proof. intro H. apply (f_equal (@List.length _)) in H.
       now rewrite !length_map in H. Qed.

Lemma setting_nonzero_width (sl sl' : list UI.Slider) :
  map slider_setting sl' = map slider_setting sl ->
  Forall (fun s => UI.w (UI.rect s) <> 0%Z) sl ->
  Forall (fun s => UI.w (UI.rect s) <> 0%Z) sl'.
Proof.
  revert sl'. induction sl as [|s sl IH]; intros [|s' sl'] E F;
    try discriminate; [constructor|].
  cbn in E. injection E as E1 E2. inversion F; subst.
  constructor; [|now apply IH].
  assert (R : UI.rect s' = UI.rect s)
    by (unfold slider_setting in E1; congruence).
  now rewrite R.
Qed.

Lemma play_frame_cases (events : list UI.Event) (game : Game G) (t : nat) :
  game_at game t ->
  (In UI.QUIT events ->
   play_frame standard_normal float32 events game = UI.Exited) /\
  (~ In UI.QUIT events ->
   exists game',
     play_frame standard_normal float32 events game = UI.Done game' /\
     game_at game' (t + (if existsb is_return events then 1 else 0))).
Proof.
  intros ((rm & d & Henv & Ht) & Hover & Hlen & Hw).
  destruct (events_loop_cases events
              (UI.mkHumanUI (UI.sliders (g_ui game)) false) Hw) as (Q1 & Q2).
  unfold play_frame, UI.handle_events. split.
  - intro Hq. now rewrite (Q1 Hq).
  - intro Hq. destruct (Q2 Hq) as (ui1 & E1). rewrite E1.
    destruct (events_loop_done _ _ _ E1) as (S1 & _ & V1 & _).
    cbn [UI.sliders UI.turn_validated orb] in S1, V1.
    rewrite Henv. cbn [scenario_env grid].
    destruct (update_plants_state_returns ui1
                (dynamic_plants_state (scenario_grid d)))
      as (ui2 & E2 & V2 & S2).
    { rewrite (static_length _ _ S1), Hlen. apply Nat.le_min_l. }
    rewrite E2.
    assert (L2 : List.length (UI.sliders ui2) = 3%nat).
    { now rewrite (setting_length _ _ S2), (static_length _ _ S1). }
    assert (W2 : Forall (fun s => UI.w (UI.rect s) <> 0%Z) (UI.sliders ui2)).
    { apply (setting_nonzero_width _ _ S2).
      apply (static_nonzero_width _ _ S1). exact Hw. }
    rewrite V2, V1.
    destruct (existsb is_return events).
    + destruct (step_scenario_cases G standard_normal float32 d
                  (map float32 (UI.get_current_actions ui2)))
        as (out & d' & Ht' & Hret & _ & Hstep).
      destruct Hret as (r & -> & Hterm & Htrunc).
      { unfold UI.get_current_actions. rewrite !length_map, L2. lia. }
      fold (scenario_env rm d). rewrite (Hstep rm).
      eexists. split; [reflexivity|].
      split; [|split; [|split]]; cbn [g_env g_ui over].
      * exists rm, d'. split; [reflexivity|]. lia.
      * rewrite Hterm, Htrunc, Ht. cbn [orb].
        destruct (Z.leb_spec 24 (Z.of_nat t + 1)),
          (Nat.leb_spec 24 (t + 1)); try reflexivity; lia.
      * exact L2.
      * exact W2.
    + eexists. split; [reflexivity|].
      rewrite Nat.add_0_r.
      split; [|split; [|split]]; cbn [g_env g_ui over].
      * exists rm, d. now split.
      * exact Hover.
      * exact L2.
      * exact W2.
Qed.

Lemma play_loop_cases (frames : list (list UI.Event)) :
  forall (game : Game G) (t : nat),
    game_at game t -> (t <= 24)%nat ->
    (forall e, play_loop standard_normal float32 frames game <> UI.Failed e) /\
    (Forall (fun events => ~ In UI.QUIT events) frames ->
     exists game',
       play_loop standard_normal float32 frames game = UI.Done game' /\
       game_at game' (Nat.min 24 (t + validated_frames frames))).
Proof.
  induction frames as [|events rest IH]; intros game t Hg Ht.
  - assert (E : play_loop standard_normal float32 [] game = UI.Done game)
      by (cbn; now destruct (over game)).
    rewrite E. split; [discriminate|]. intros _.
    exists game. split; [reflexivity|].
    replace (Nat.min 24 (t + validated_frames [])) with t
      by (unfold validated_frames; cbn [filter List.length]; lia).
    exact Hg.
  - cbn [play_loop].
    assert (Hover : over game = (24 <=? t)%nat) by apply Hg.
    destruct (over game) eqn:Hov.
    + symmetry in Hover. apply Nat.leb_le in Hover.
      split; [discriminate|]. intros _. exists game.
      split; [reflexivity|].
      replace (Nat.min 24 (t + validated_frames (events :: rest)))
        with t by lia.
      exact Hg.
    + symmetry in Hover. apply Nat.leb_gt in Hover.
      destruct (play_frame_cases events game t Hg) as (Q1 & Q2).
      destruct (quit_among events) as [Hq|Hq].
      * rewrite (Q1 Hq). split; [discriminate|].
        intro F. inversion F; subst. contradiction.
      * destruct (Q2 Hq) as (game' & -> & Hg').
        set (b := if existsb is_return events then 1%nat else 0%nat) in *.
        assert (Hb : (b <= 1)%nat)
          by (subst b; destruct (existsb is_return events); lia).
        destruct (IH game' (t + b)%nat Hg') as (I1 & I2); [lia|].
        split; [exact I1|].
        intro F. inversion F; subst.
        destruct (I2 H2) as (game'' & E & Hg'').
        exists game''. split; [exact E|].
        replace (t + validated_frames (events :: rest))%nat
          with (t + b + validated_frames rest)%nat; [exact Hg''|].
        unfold validated_frames. cbn [filter]. subst b.
        destruct (existsb is_return events); cbn [List.length]; lia.
Qed.

(** X24: the loop of [play_human], started on an episode at turn 0:
    handling the events, showing the plants' output and calling [step]
    raise no exception, whatever the events; without a QUIT event, the
    environment has advanced by one turn for each batch of events with
    an Enter press, and the loop stops once 24 turns are played. *)
Theorem play_human_turns (s : SmartGridEnv G) (ui : UI.HumanUI)
    (frames : list (list UI.Event)) :
  in_episode s -> current_step s = Some 0%Z ->
  exists game0,
    start_game s ui = Ok game0 /\
    (forall e,
        play_loop standard_normal float32 frames game0 <> UI.Failed e) /\
    (Forall (fun events => ~ In UI.QUIT events) frames ->
     exists game,
       play_loop standard_normal float32 frames game0 = UI.Done game /\
       in_episode (g_env game) /\
       current_step (g_env game)
       = Some (Z.of_nat (Nat.min 24 (validated_frames frames))) /\
       over game = (24 <=? validated_frames frames)%nat).
Proof.
  intros (rm & d & ->) Hstep.
  cbn in Hstep. injection Hstep as Hturn.
  unfold start_game. cbn [scenario_env grid].
  eexists. split; [reflexivity|].
  fold (scenario_env rm d).
  match goal with
  | |- context [play_loop _ _ _ ?g0] => set (game0 := g0)
  end.
  assert (H0 : game_at game0 0).
  { split; [exists rm, d; now split|].
    split; [reflexivity|]. split; [reflexivity|].
    apply sliders_from_width. }
  destruct (play_loop_cases frames game0 0 H0) as (P1 & P2); [lia|].
  split; [exact P1|].
  intro F. destruct (P2 F) as (game & E & (rm' & d' & Henv & Ht) & Ho & _).
  cbn [Nat.add] in *.
  exists game. split; [exact E|].
  split; [now exists rm', d'|].
  split.
  - rewrite Henv. cbn. now rewrite Ht.
  - rewrite Ho.
    destruct (Nat.leb_spec 24 (Nat.min 24 (validated_frames frames))),
      (Nat.leb_spec 24 (validated_frames frames)); try reflexivity; lia.
Qed.

End PlayLoop.

Lemma play_human_turns_witness :
  let s := scenario_env None example_dynamic in
  let ui := UI.mkHumanUI [] false in
  let frames :=
    [[UI.MOUSEBUTTONDOWN 1 (250, 530)%Z]; [UI.KEYDOWN 13];
     [UI.MOUSEMOTION (300, 530)%Z; UI.KEYDOWN 13]; []] in
  exists game0,
    start_game s ui = Ok game0 /\
    (forall e,
        play_loop toy_standard_normal toy_float32 frames game0
        <> UI.Failed e) /\
    exists game,
      play_loop toy_standard_normal toy_float32 frames game0
      = UI.Done game /\
      in_episode (g_env game) /\
      current_step (g_env game)
      = Some (Z.of_nat (Nat.min 24 (validated_frames frames))) /\
      over game = (24 <=? validated_frames frames)%nat.
Proof.
  cbv zeta.
  destruct (play_human_turns toy_rng toy_standard_normal toy_float32
              (scenario_env None example_dynamic) (UI.mkHumanUI [] false)
              [[UI.MOUSEBUTTONDOWN 1 (250, 530)%Z]; [UI.KEYDOWN 13];
               [UI.MOUSEMOTION (300, 530)%Z; UI.KEYDOWN 13]; []])
    as (game0 & E & NF & D).
  - exists None, example_dynamic. reflexivity.
  - reflexivity.
  - exists game0. split; [exact E|]. split; [exact NF|]. apply D.
    repeat constructor; cbn; intuition discriminate.
Defined.
